(** * The code-generation workflow: a shallow embedding and its properties

The development follows the Python sources file by file:
- [PyStr], [Py]: the pieces of Python's [str], [re], exceptions and JSON
  values the program relies on;
- [CodeRectifier]: src/code_rectifier.py;
- [PyRuntime]: the streams [sys.stdout] and [sys.stderr], and [exec];
- [fastapi_executor], [sandbox_executor]: the execution back ends;
- [State]: src/state.py;
- [CodeGeneratorNode], [SyntaxCheckerNode], [CodeRectifierNode],
  [CodeExecutorNode]: src/nodes.py;
- [CodeGeneratorWorkflow]: src/workflow.py;
- [Spec]: the vocabulary of the statements; then the properties.

External collaborators (the language model, flake8, black, autopep8, the
Python interpreter behind [exec] and [ast.parse], the Pyodide sandbox,
[json.loads], the graph library) are not programs of this repository.
Each of their calls is an explicit argument of the function that performs
it: the reply the collaborator gave, or the exception it raised.  Theorems
quantify over all such replies.  A call is taken to return or to raise.
Console output of the program itself ([print]) is not modelled. *)

From Stdlib Require Import String Ascii List ZArith QArith Lia Bool.
From Stdlib Require Import DecimalString Permutation.
Import ListNotations.
Local Open Scope string_scope.
Local Open Scope list_scope.
Set Warnings "-register-all".

(** ** Python strings

  A [str] is modelled as a sequence of code points below 256 (Rocq's
  [string]).  The functions below are the methods of [str] and the
  regular expressions the sources use, written for that range. *)
Module PyStr.

Definition newline : ascii := "010"%char.
Definition tab : ascii := "009"%char.
Definition nl : string := String newline "".

(** [c.isspace()] *)
Definition isspace (c : ascii) : bool :=
  let n := nat_of_ascii c in
  ((9 <=? n)%nat && (n <=? 13)%nat) || ((28 <=? n)%nat && (n <=? 32)%nat)
  || (n =? 133)%nat || (n =? 160)%nat.

(** [c.lower()] *)
Definition lower_char (c : ascii) : ascii :=
  let n := nat_of_ascii c in
  if ((65 <=? n)%nat && (n <=? 90)%nat)
     || ((192 <=? n)%nat && (n <=? 222)%nat && negb (n =? 215)%nat)
  then ascii_of_nat (n + 32) else c.

Definition isdigit (c : ascii) : bool :=
  let n := nat_of_ascii c in (48 <=? n)%nat && (n <=? 57)%nat.

(** [bool(s)] *)
Definition truthy (s : string) : bool :=
  match s with EmptyString => false | String _ _ => true end.

(** [s.lower()] *)
Fixpoint lower (s : string) : string :=
  match s with
  | EmptyString => EmptyString
  | String c s' => String (lower_char c) (lower s')
  end.

(** [s.lstrip()] *)
Fixpoint lstrip (s : string) : string :=
  match s with
  | EmptyString => EmptyString
  | String c s' => if isspace c then lstrip s' else s
  end.

(** [s.rstrip()] *)
Fixpoint rstrip (s : string) : string :=
  match s with
  | EmptyString => EmptyString
  | String c s' =>
      let r := rstrip s' in
      if isspace c && negb (truthy r) then EmptyString else String c r
  end.

(** [s.strip()] *)
Definition strip (s : string) : string := rstrip (lstrip s).

(** [s.startswith(p)] *)
Definition startswith (s p : string) : bool := prefix p s.

(** [s.startswith((p1, p2, ...))] *)
Definition startswith_any (s : string) (ps : list string) : bool :=
  existsb (startswith s) ps.

(** [s.endswith(p)] *)
Fixpoint endswith (s p : string) : bool :=
  (s =? p) ||
  match s with
  | EmptyString => false
  | String _ s' => endswith s' p
  end.

(** [sub in s] *)
Fixpoint contains (s sub : string) : bool :=
  prefix sub s ||
  match s with
  | EmptyString => false
  | String _ s' => contains s' sub
  end.

(** [s[n:]] for [n >= 0] *)
Fixpoint drop (n : nat) (s : string) : string :=
  match n, s with
  | O, _ => s
  | S _, EmptyString => EmptyString
  | S n', String _ s' => drop n' s'
  end.

(** [s[:n]] for [n >= 0] *)
Fixpoint take (n : nat) (s : string) : string :=
  match n, s with
  | O, _ => EmptyString
  | S _, EmptyString => EmptyString
  | S n', String c s' => String c (take n' s')
  end.

(** [s[:-n]] for [0 < n <= len(s)] *)
Definition drop_last (n : nat) (s : string) : string :=
  take (String.length s - n) s.

(** [s.count(c)] for a one-character [c] *)
Fixpoint count (s : string) (c : ascii) : nat :=
  match s with
  | EmptyString => 0
  | String d s' => (if Ascii.eqb d c then 1 else 0) + count s' c
  end.

(** [s * n] *)
Fixpoint repeat_str (s : string) (n : nat) : string :=
  match n with
  | O => EmptyString
  | S n' => (s ++ repeat_str s n')%string
  end.

(** [s.split('\n')] *)
Fixpoint split_lines (s : string) : list string :=
  match s with
  | EmptyString => [EmptyString]
  | String c s' =>
      if Ascii.eqb c newline then EmptyString :: split_lines s'
      else match split_lines s' with
           | [] => [String c EmptyString]
           | l :: ls => String c l :: ls
           end
  end.

(** [sep.join(ls)] *)
Definition join (sep : string) (ls : list string) : string :=
  String.concat sep ls.

(** [str(n)] for a non-negative integer *)
Definition str_of_nat (n : nat) : string :=
  NilEmpty.string_of_uint (Nat.to_uint n).

(** [int(s)] for a string of decimal digits *)
Definition int_of_digits (s : string) : N :=
  let fix go (acc : N) (s : string) : N :=
    match s with
    | EmptyString => acc
    | String c s' => go (acc * 10 + (N.of_nat (nat_of_ascii c) - 48))%N s'
    end in
  go 0%N s.

(** The longest prefix of [s] whose characters satisfy [p], and the rest. *)
Fixpoint span (p : ascii -> bool) (s : string) : string * string :=
  match s with
  | EmptyString => (EmptyString, EmptyString)
  | String c s' =>
      if p c then let '(a, b) := span p s' in (String c a, b)
      else (EmptyString, s)
  end.

(** [l.insert(i, x)] *)
Definition list_insert {A : Type} (i : nat) (x : A) (l : list A) : list A :=
  firstn i l ++ x :: skipn i l.

(** *** [re.search(r"name '([^']+)' is not defined", s)]: group 1 of the
    leftmost match.  The class [[^']] cannot cross a quote, so at a given
    start the only candidate for the group is the whole run of non-quote
    characters after [name ']. *)
Definition match_undefined_name_here (s : string) : option string :=
  if prefix "name '" s then
    let '(run, rest) := span (fun c => negb (Ascii.eqb c "'"%char)) (drop 6 s) in
    if truthy run && prefix "' is not defined" rest then Some run else None
  else None.

Fixpoint search_undefined_name (s : string) : option string :=
  match match_undefined_name_here s with
  | Some g => Some g
  | None =>
      match s with
      | EmptyString => None
      | String _ s' => search_undefined_name s'
      end
  end.

(** *** [re.search(r"line (\d+)", s)]: group 1 of the leftmost match. *)
Definition match_line_number_here (s : string) : option string :=
  if prefix "line " s then
    let '(run, _) := span isdigit (drop 5 s) in
    if truthy run then Some run else None
  else None.

Fixpoint search_line_number (s : string) : option string :=
  match match_line_number_here s with
  | Some g => Some g
  | None =>
      match s with
      | EmptyString => None
      | String _ s' => search_line_number s'
      end
  end.

(** *** [re.search(r'```python\n(.*?)\n```', s, re.DOTALL)]: group 1 of the
    leftmost match; the lazy group stops at the first closing fence. *)
Definition fence_open : string := ("```python" ++ nl)%string.
Definition fence_close : string := (nl ++ "```")%string.

(** the text before the first occurrence of [fence_close] in [s] *)
Fixpoint until_fence_close (s : string) : option string :=
  if prefix fence_close s then Some EmptyString
  else match s with
       | EmptyString => None
       | String c s' =>
           match until_fence_close s' with
           | Some g => Some (String c g)
           | None => None
           end
       end.

Definition match_fenced_here (s : string) : option string :=
  if prefix fence_open s then until_fence_close (drop 10 s) else None.

Fixpoint search_fenced_code (s : string) : option string :=
  match match_fenced_here s with
  | Some g => Some g
  | None =>
      match s with
      | EmptyString => None
      | String _ s' => search_fenced_code s'
      end
  end.

End PyStr.

(** ** Exceptions, results and JSON values *)
Module Py.

(** The exception classes the sources distinguish in their handlers.
    [KeyboardInterrupt] and [SystemExit] derive from [BaseException] only;
    every other class derives from [Exception]. *)
Inductive exn_class : Type :=
| TimeoutExpired
| FileNotFoundError
| RuntimeError
| JSONDecodeError
| SyntaxError
| AttributeError
| TypeError
| ValidationError
| KeyError
| GraphRecursionError
| OtherException
| KeyboardInterrupt
| SystemExit.

(** An exception: its class, [str(e)], and the text
    [traceback.format_exc()] gives while it is being handled. *)
Record exn : Type := mk_exn {
  exn_cls : exn_class;
  exn_str : string;
  exn_traceback : string
}.

Definition raised (c : exn_class) (msg : string) : exn :=
  mk_exn c msg ("Traceback (most recent call last):" ++ String "010" msg)%string.

(** [isinstance(e, Exception)] *)
Definition is_Exception (e : exn) : bool :=
  match exn_cls e with
  | KeyboardInterrupt | SystemExit => false
  | _ => true
  end.

(** [isinstance(e, (subprocess.TimeoutExpired, FileNotFoundError))] *)
Definition is_tool_unavailable (e : exn) : bool :=
  match exn_cls e with
  | TimeoutExpired | FileNotFoundError => true
  | _ => false
  end.

(** A call either returns a value or raises. *)
Inductive result (A : Type) : Type :=
| Ok (a : A)
| Raise (e : exn).
Arguments Ok {A} a.
Arguments Raise {A} e.

Definition bind {A B : Type} (r : result A) (k : A -> result B) : result B :=
  match r with
  | Ok a => k a
  | Raise e => Raise e
  end.

(** What [json.loads] yields. Objects keep their pairs in document order;
    numbers are the rationals their literals denote. *)
Inductive jval : Type :=
| JNull
| JBool (b : bool)
| JNum (q : Q)
| JStr (s : string)
| JArr (l : list jval)
| JObj (l : list (string * jval)).

(** [bool(v)] *)
Definition jtruthy (v : jval) : bool :=
  match v with
  | JNull => false
  | JBool b => b
  | JNum q => negb (Qeq_bool q 0)
  | JStr s => PyStr.truthy s
  | JArr l => match l with [] => false | _ => true end
  | JObj l => match l with [] => false | _ => true end
  end.

(** value of key [k] in an object: a later pair overrides an earlier one *)
Fixpoint assoc_last (k : string) (l : list (string * jval)) : option jval :=
  match l with
  | [] => None
  | (k', v) :: l' =>
      match assoc_last k l' with
      | Some w => Some w
      | None => if k' =? k then Some v else None
      end
  end.

(** [v.get(k, default)]; only a dict has [get] *)
Definition jget (v : jval) (k : string) (default : jval) : result jval :=
  match v with
  | JObj l =>
      match assoc_last k l with
      | Some w => Ok w
      | None => Ok default
      end
  | _ => Raise (raised AttributeError "object has no attribute 'get'")
  end.

Fixpoint chars (s : string) : list jval :=
  match s with
  | EmptyString => []
  | String c s' => JStr (String c EmptyString) :: chars s'
  end.

Fixpoint nodup_keys (seen : list string) (l : list (string * jval)) : list jval :=
  match l with
  | [] => []
  | (k, _) :: l' =>
      if existsb (String.eqb k) seen then nodup_keys seen l'
      else JStr k :: nodup_keys (k :: seen) l'
  end.

(** [list(v)], as [list.extend(v)] iterates [v] *)
Definition jiter (v : jval) : result (list jval) :=
  match v with
  | JArr l => Ok l
  | JStr s => Ok (chars s)
  | JObj l => Ok (nodup_keys [] l)
  | _ => Raise (raised TypeError "object is not iterable")
  end.

(** Python equality between JSON values, as far as [rectify_code] needs
    it: a value against a string. *)
Definition jeq_str (v : jval) (s : string) : bool :=
  match v with
  | JStr t => t =? s
  | _ => false
  end.

(** [a < b] on confidences *)
Definition Qlt_bool (a b : Q) : bool := negb (Qle_bool b a).

(** [max(a, b)]: the first argument unless the second is greater *)
Definition py_max (a b : Q) : Q := if Qlt_bool a b then b else a.

End Py.

(** ** src/code_rectifier.py *)
Module CodeRectifier.
Import PyStr Py.

(** the dict built by [_analyze_error] *)
Record ErrorAnalysis : Type := mk_analysis {
  error_type : string;
  error_line : option N;
  error_column : option N;
  error_description : string;
  suggested_fixes : list string
}.

(** [CodeRectificationResponse] of src/state.py *)
Record CodeRectificationResponse : Type := mk_response {
  success : bool;
  rectified_code : option string;
  changes_made : list string;
  error_analysis : ErrorAnalysis;
  confidence_score : Q
}.

(** the dict every fix function returns: its three keys are always present *)
Record FixResult : Type := mk_fix {
  fix_code : string;
  fix_changes : list string;
  fix_confidence : Q
}.

(** [ast.parse(code)]: returns, raises [SyntaxError], or raises otherwise *)
Definition parser : Type := string -> result unit.

(** what [self.model.invoke(prompt)] and [json.loads(response.content)]
    produce in one escalation: the call raised (or the content was not a
    string), the content was a JSON document, or the content was text that
    [json.loads] rejected with [JSONDecodeError] *)
Inductive ai_reply : Type :=
| InvokeRaises (e : exn)
| ContentJson (v : jval)
| ContentText (content : string).

Definition no_fix (code : string) : FixResult := mk_fix code [] 0.

Definition _analyze_error (error_message code : string) : ErrorAnalysis :=
  let ty :=
    if contains error_message "SyntaxError" then "SyntaxError"
    else if contains error_message "NameError" then "NameError"
    else if contains error_message "ImportError"
            || contains error_message "ModuleNotFoundError" then "ImportError"
    else if contains error_message "IndentationError" then "IndentationError"
    else if contains error_message "AttributeError" then "AttributeError"
    else if contains error_message "TypeError" then "TypeError"
    else if contains error_message "ValueError" then "ValueError"
    else "Unknown" in
  let line :=
    match search_line_number error_message with
    | Some digits => Some (int_of_digits digits)
    | None => None
    end in
  mk_analysis ty line None error_message [].

(** the loop of [_fix_future_imports], [i] being the index of the first
    line: the shebang line, the future imports and the other lines *)
Fixpoint separate_future_imports (i : nat) (lines : list string)
    (shebang : option string) (future_imports other_lines : list string)
  : option string * list string * list string :=
  match lines with
  | [] => (shebang, future_imports, other_lines)
  | line :: rest =>
      let stripped := strip line in
      if (i =? 0)%nat && startswith line "#!" then
        separate_future_imports (S i) rest (Some line) future_imports other_lines
      else if contains stripped "from __future__ import" then
        separate_future_imports (S i) rest shebang (future_imports ++ [line]) other_lines
      else
        separate_future_imports (S i) rest shebang future_imports (other_lines ++ [line])
  end.

Definition _fix_future_imports (code error_message : string) : FixResult :=
  let lines := split_lines code in
  let '(shebang, future_imports, other_lines) :=
    separate_future_imports 0 lines None [] [] in
  let rectified_lines :=
    (match shebang with
     | Some s => if truthy s then [s] else []
     | None => []
     end) ++ future_imports ++ other_lines in
  mk_fix (join nl rectified_lines)
         ["Moved __future__ imports to the beginning of the file"]
         0.95.

Definition control_keywords : list string :=
  ["if "; "elif "; "else"; "for "; "while "; "def "; "class ";
   "try"; "except"; "finally"; "with "].

(** the loop of [_fix_invalid_syntax] over the lines, [i] being the index
    of the first: the lines after the fix and the changes made *)
Fixpoint add_colons (i : nat) (lines : list string) : list string * list string :=
  match lines with
  | [] => ([], [])
  | line :: rest =>
      let stripped := strip line in
      let '(lines', changes) := add_colons (S i) rest in
      if startswith_any stripped control_keywords && negb (endswith stripped ":")
      then ((line ++ ":")%string :: lines',
            ("Added missing colon on line " ++ str_of_nat (i + 1))%string :: changes)
      else (line :: lines', changes)
  end.

Definition _fix_invalid_syntax (code error_message : string) : FixResult :=
  let lines := split_lines code in
  let '(lines', changes) := add_colons 0 lines in
  mk_fix (join nl lines') changes
         (match changes with [] => 0 | _ => 0.8 end).

(** the loop of [_fix_indentation_error], with the lines normalized and the
    changes made so far *)
Fixpoint normalize_indentation (lines normalized_lines changes : list string)
  : list string * list string :=
  match lines with
  | [] => (normalized_lines, changes)
  | line :: rest =>
      if truthy (strip line) then
        let leading_whitespace := (String.length line - String.length (lstrip line))%nat in
        let indent := take leading_whitespace line in
        if contains indent (String tab "") then
          let tabs := count indent tab in
          let spaces := count indent " "%char in
          let new_indent := (repeat_str "    " tabs ++ repeat_str " " spaces)%string in
          let normalized_lines' := normalized_lines ++ [(new_indent ++ lstrip line)%string] in
          normalize_indentation rest normalized_lines'
            (changes ++ [("Normalized indentation on line "
                          ++ str_of_nat (List.length normalized_lines'))%string])
        else normalize_indentation rest (normalized_lines ++ [line]) changes
      else normalize_indentation rest (normalized_lines ++ [line]) changes
  end.

Definition _fix_indentation_error (code error_message : string) : FixResult :=
  let lines := split_lines code in
  let '(normalized_lines, changes) := normalize_indentation lines [] [] in
  mk_fix (join nl normalized_lines) changes
         (match changes with [] => 0 | _ => 0.8 end).

Definition is_SyntaxError (e : exn) : bool :=
  match exn_cls e with
  | SyntaxError => true
  | _ => false
  end.

Definition _analyze_syntax_error (ast_parse : parser) (code error_message : string)
  : result FixResult :=
  match ast_parse code with
  | Ok _ => Ok (no_fix code)
  | Raise e =>
      if is_SyntaxError e then
        if contains (lower (exn_str e)) "invalid syntax" then
          Ok (_fix_invalid_syntax code (exn_str e))
        else if contains (lower (exn_str e)) "unexpected indent" then
          Ok (_fix_indentation_error code (exn_str e))
        else Ok (no_fix code)
      else Raise e
  end.

Definition common_imports : list (string * string) :=
  [("math", "import math"); ("os", "import os"); ("sys", "import sys");
   ("random", "import random"); ("datetime", "import datetime");
   ("re", "import re"); ("json", "import json"); ("time", "import time");
   ("collections", "import collections"); ("itertools", "import itertools");
   ("numpy", "import numpy as np"); ("pandas", "import pandas as pd");
   ("plt", "import matplotlib.pyplot as plt")].

Fixpoint lookup (k : string) (d : list (string * string)) : option string :=
  match d with
  | [] => None
  | (k', v) :: d' => if k' =? k then Some v else lookup k d'
  end.

(** the loop of [_fix_name_error] that looks for the insertion index *)
Fixpoint find_insert_idx (lines : list string) (i insert_idx : nat) : nat :=
  match lines with
  | [] => insert_idx
  | line :: rest =>
      if startswith (strip line) "from __future__" then
        find_insert_idx rest (S i) (i + 1)
      else if startswith (strip line) "#" || negb (truthy (strip line)) then
        find_insert_idx rest (S i) insert_idx
      else insert_idx
  end.

Definition _fix_name_error (code error_message : string) : FixResult :=
  match search_undefined_name error_message with
  | None => no_fix code
  | Some undefined_name =>
      match lookup undefined_name common_imports with
      | Some import_line =>
          let lines := split_lines code in
          let insert_idx := find_insert_idx lines 0 0 in
          mk_fix (join nl (list_insert insert_idx import_line lines))
                 [("Added missing import: " ++ import_line)%string]
                 0.9
      | None => no_fix code
      end
  end.

Definition _fix_import_error (code error_message : string) := no_fix code.
Definition _fix_module_not_found (code error_message : string) := no_fix code.
Definition _fix_attribute_error (code error_message : string) := no_fix code.
Definition _fix_type_error (code error_message : string) := no_fix code.
Definition _fix_value_error (code error_message : string) := no_fix code.
Definition _fix_key_error (code error_message : string) := no_fix code.
Definition _fix_index_error (code error_message : string) := no_fix code.

Definition fix_func : Type := string -> string -> result FixResult.

Definition pure_fix (f : string -> string -> FixResult) : fix_func :=
  fun code error_message => Ok (f code error_message).

(** [self.error_patterns], in the insertion order of the dict *)
Definition error_patterns (ast_parse : parser) : list (string * fix_func) :=
  [("from __future__ imports must occur at the beginning", pure_fix _fix_future_imports);
   ("SyntaxError", _analyze_syntax_error ast_parse);
   ("NameError", pure_fix _fix_name_error);
   ("ImportError", pure_fix _fix_import_error);
   ("ModuleNotFoundError", pure_fix _fix_module_not_found);
   ("IndentationError", pure_fix _fix_indentation_error);
   ("AttributeError", pure_fix _fix_attribute_error);
   ("TypeError", pure_fix _fix_type_error);
   ("ValueError", pure_fix _fix_value_error);
   ("KeyError", pure_fix _fix_key_error);
   ("IndexError", pure_fix _fix_index_error)].

(** the test that selects a catalog entry *)
Definition triggers (pattern error_message error_type : string) : bool :=
  contains (lower error_message) (lower pattern) || (pattern =? error_type).

(** the loop of [_apply_pattern_fixes]: the first selected entry whose fix
    function returns ends the loop; one that raises an [Exception] is
    skipped *)
Fixpoint first_fix (patterns : list (string * fix_func))
    (code error_message error_type : string) : result (string * list string * Q) :=
  match patterns with
  | [] => Ok (code, [], 0)
  | (pattern, fix_function) :: rest =>
      if triggers pattern error_message error_type then
        match fix_function code error_message with
        | Ok r => Ok (fix_code r, fix_changes r, fix_confidence r)
        | Raise e =>
            if is_Exception e then first_fix rest code error_message error_type
            else Raise e
        end
      else first_fix rest code error_message error_type
  end.

Definition _apply_pattern_fixes (ast_parse : parser)
    (code error_message error_type : string) : result (string * list string * Q) :=
  first_fix (error_patterns ast_parse) code error_message error_type.

(** the dict [_ai_rectify_code] returns when the escalation brought nothing *)
Definition ai_failure (code : string) : jval :=
  JObj [("success", JBool false); ("code", JStr code);
        ("changes", JArr []); ("confidence", JNum 0)].

Definition _ai_rectify_code (reply : ai_reply)
    (code error_message : string) (analysis : ErrorAnalysis) : result jval :=
  match reply with
  | InvokeRaises e => if is_Exception e then Ok (ai_failure code) else Raise e
  | ContentJson v => Ok v
  | ContentText content =>
      match search_fenced_code content with
      | Some group =>
          Ok (JObj [("success", JBool true); ("code", JStr (strip group));
                    ("changes", JArr [JStr "AI-generated fixes applied"]);
                    ("confidence", JNum 0.7)])
      | None => Ok (ai_failure code)
      end
  end.

(** the second argument of [max(confidence, ...)] must be a number *)
Definition as_number (v : jval) : result Q :=
  match v with
  | JNum q => Ok q
  | JBool b => Ok (if b then 1 else 0)
  | _ => Raise (raised TypeError "'>' not supported between these instances")
  end.

Fixpoint all_str (l : list jval) : option (list string) :=
  match l with
  | [] => Some []
  | JStr s :: l' =>
      match all_str l' with
      | Some r => Some (s :: r)
      | None => None
      end
  | _ :: _ => None
  end.

(** [CodeRectificationResponse(...)]: the model validates its fields
    ([rectified_code: Optional[str]], [changes_made: List[str]]); a value of
    another type is refused *)
Definition make_response (success : bool) (rectified_code : jval)
    (changes_made : list jval) (analysis : ErrorAnalysis) (confidence : Q)
  : result CodeRectificationResponse :=
  let invalid := Raise (raised ValidationError "validation error for CodeRectificationResponse") in
  match all_str changes_made with
  | None => invalid
  | Some changes =>
      match rectified_code with
      | JStr s => Ok (mk_response success (Some s) changes analysis confidence)
      | JNull => Ok (mk_response success None changes analysis confidence)
      | _ => invalid
      end
  end.

(** the body of the [if confidence < 0.7 or not rectified_code] branch *)
Definition escalate (reply : ai_reply) (original_code error_message : string)
    (analysis : ErrorAnalysis)
    (rectified_code : string) (changes_made : list string) (confidence : Q)
  : result (jval * list jval * Q) :=
  bind (_ai_rectify_code reply original_code error_message analysis) (fun ai_result =>
  if jtruthy ai_result then
    bind (jget ai_result "success" (JBool false)) (fun ai_success =>
    if jtruthy ai_success then
      bind (jget ai_result "code" (JStr rectified_code)) (fun code' =>
      bind (jget ai_result "changes" (JArr [])) (fun ai_changes =>
      bind (jiter ai_changes) (fun more =>
      bind (jget ai_result "confidence" (JNum 0.5)) (fun ai_conf =>
      bind (as_number ai_conf) (fun q =>
      Ok (code', map JStr changes_made ++ more, py_max confidence q))))))
    else Ok (JStr rectified_code, map JStr changes_made, confidence))
  else Ok (JStr rectified_code, map JStr changes_made, confidence)).

(** [confidence < 0.7 or not rectified_code] *)
Definition needs_escalation (rectified_code : string) (confidence : Q) : bool :=
  Qlt_bool confidence 0.7 || negb (truthy rectified_code).

Definition rectify_code (ast_parse : parser) (reply : ai_reply)
    (original_code error_message : string) : result CodeRectificationResponse :=
  let analysis := _analyze_error error_message original_code in
  bind (_apply_pattern_fixes ast_parse original_code error_message (error_type analysis))
    (fun '(rectified_code, changes_made, confidence) =>
  bind (if needs_escalation rectified_code confidence
        then escalate reply original_code error_message analysis
                      rectified_code changes_made confidence
        else Ok (JStr rectified_code, map JStr changes_made, confidence))
    (fun '(final_code, final_changes, final_confidence) =>
  make_response (jtruthy final_code && negb (jeq_str final_code original_code))
                final_code final_changes analysis final_confidence)).

End CodeRectifier.

(** ** The Python runtime seen by the execution back ends

    [sys.stdout] and [sys.stderr] are two names bound to stream objects.
    What a snippet handed to [exec] does is given by the interpreter, an
    external collaborator: a sequence of actions on the streams it reaches
    through [sys.stdout] and [sys.stderr] (writing to them, rebinding the
    names to an object of its own or to each other), and how it ends. *)
Module PyRuntime.
Import PyStr Py.

Definition obj : Type := nat.

Record stream : Type := mk_stream {
  contents : string;
  is_StringIO : bool
}.

Record world : Type := mk_world {
  sys_stdout : obj;
  sys_stderr : obj;
  heap : obj -> stream;
  next_obj : obj;
  exec_log : list string
}.

Inductive fd : Type := Stdout | Stderr.

Inductive target : Type :=
| NewStream (stringio : bool)
| Current (which : fd).

Inductive action : Type :=
| Write (which : fd) (text : string)
| Rebind (which : fd) (to : target).

Record behaviour : Type := mk_behaviour {
  actions : list action;
  ending : result unit
}.

(** the globals a snippet runs in: [{}] or the restricted builtins *)
Inductive globals : Type := EmptyGlobals | RestrictedGlobals.

Definition interpreter : Type := globals -> string -> behaviour.

Definition bound (w : world) (which : fd) : obj :=
  match which with
  | Stdout => sys_stdout w
  | Stderr => sys_stderr w
  end.

Definition rebind (w : world) (which : fd) (o : obj) : world :=
  match which with
  | Stdout => mk_world o (sys_stderr w) (heap w) (next_obj w) (exec_log w)
  | Stderr => mk_world (sys_stdout w) o (heap w) (next_obj w) (exec_log w)
  end.

Definition update (h : obj -> stream) (o : obj) (s : stream) : obj -> stream :=
  fun o' => if (o' =? o)%nat then s else h o'.

(** allocation of a stream object; [io.StringIO()] is [new_stream true] *)
Definition new_stream (stringio : bool) (w : world) : obj * world :=
  (next_obj w,
   mk_world (sys_stdout w) (sys_stderr w)
            (update (heap w) (next_obj w) (mk_stream "" stringio))
            (S (next_obj w)) (exec_log w)).

Definition write (w : world) (o : obj) (text : string) : world :=
  mk_world (sys_stdout w) (sys_stderr w)
           (update (heap w) o
              (mk_stream (contents (heap w o) ++ text)%string (is_StringIO (heap w o))))
           (next_obj w) (exec_log w).

Definition do_action (w : world) (a : action) : world :=
  match a with
  | Write which text => write w (bound w which) text
  | Rebind which (NewStream stringio) =>
      let '(o, w') := new_stream stringio w in rebind w' which o
  | Rebind which (Current other) => rebind w which (bound w other)
  end.

Definition logged (w : world) (code : string) : world :=
  mk_world (sys_stdout w) (sys_stderr w) (heap w) (next_obj w) (exec_log w ++ [code]).

(** [exec(code, globals)] *)
Definition exec (python : interpreter) (g : globals) (code : string) (w : world)
  : world * result unit :=
  let b := python g code in
  (fold_left do_action (actions b) (logged w code), ending b).

End PyRuntime.

(** ** src/fastapi_executor.py *)
Module fastapi_executor.
Import PyStr Py PyRuntime.

(** the dict [{"success": ..., "output": ..., "error": ...}] *)
Record ExecDict : Type := mk_dict {
  success : bool;
  output : string;
  error : string
}.

Definition no_getvalue : exn :=
  raised AttributeError "object has no attribute 'getvalue'".

Definition execute_code (python : interpreter) (code : string) (w : world)
  : world * result ExecDict :=
  let old_stdout := sys_stdout w in
  let old_stderr := sys_stderr w in
  let '(out, w) := new_stream true w in
  let w := rebind w Stdout out in
  let '(err, w) := new_stream true w in
  let w := rebind w Stderr err in
  (* try: *)
  let '(w, r) := exec python EmptyGlobals code w in
  let outcome :=
    match r with
    | Ok _ =>
        (* result["success"] = True; result["output"] = sys.stdout.getvalue() *)
        let current := heap w (sys_stdout w) in
        if is_StringIO current then Ok (mk_dict true (contents current) "")
        else Ok (mk_dict true "" (exn_traceback no_getvalue))
    | Raise e =>
        if is_Exception e then Ok (mk_dict false "" (exn_traceback e))
        else Raise e
    end in
  (* finally: *)
  let w := rebind w Stdout old_stdout in
  let w := rebind w Stderr old_stderr in
  (w, outcome).

End fastapi_executor.

(** ** src/sandbox_executor.py *)
Module sandbox_executor.
Import PyStr Py PyRuntime.

(** the dicts of this file: ['error'] is a string or [None] *)
Record ExecDict : Type := mk_dict {
  success : bool;
  output : string;
  error : option string;
  execution_time : Q
}.

(** *** class SafeCodeExecutor *)
Module SafeCodeExecutor.

(** [self.restricted_functions] is a set of strings *)
Definition restricted_functions : list string :=
  ["eval"; "exec"; "compile"; "__import__"; "open"; "input";
   "raw_input"; "file"; "reload"; "vars"; "dir"; "globals";
   "locals"; "delattr"; "setattr"; "getattr"; "hasattr"].

(** the test of the safety loop for one denylisted name *)
Definition refused (code restricted : string) : bool :=
  contains code restricted && negb (startswith (strip code) "#").

(** [order] is the order in which the loop enumerates the set; [elapsed]
    is the reading [time.time() - start_time] *)
Definition execute_code (order : list string) (python : interpreter)
    (elapsed : Q) (code : string) (w : world) : world * result ExecDict :=
  match find (refused code) order with
  | Some restricted =>
      (w, Ok (mk_dict false ""
                (Some ("Restricted function '" ++ restricted ++ "' not allowed")%string)
                elapsed))
  | None =>
      let '(stdout_capture, w) := new_stream true w in
      let '(stderr_capture, w) := new_stream true w in
      (* with redirect_stdout(stdout_capture), redirect_stderr(stderr_capture): *)
      let old_stdout := sys_stdout w in
      let w := rebind w Stdout stdout_capture in
      let old_stderr := sys_stderr w in
      let w := rebind w Stderr stderr_capture in
      let '(w, r) := exec python RestrictedGlobals code w in
      let w := rebind w Stderr old_stderr in
      let w := rebind w Stdout old_stdout in
      match r with
      | Ok _ =>
          let output := contents (heap w stdout_capture) in
          let error := contents (heap w stderr_capture) in
          (w, Ok (mk_dict (String.length error =? 0)%nat
                    (if truthy output then output
                     else "Code executed successfully (no output)")
                    (if truthy error then Some error else None)
                    elapsed))
      | Raise e =>
          if is_Exception e then
            (w, Ok (mk_dict false "" (Some ("Execution error: " ++ exn_str e)%string) elapsed))
          else (w, Raise e)
      end
  end.

End SafeCodeExecutor.

(** *** class LangChainSandboxExecutor *)
Module LangChainSandboxExecutor.

(** what [PyodideSandbox.execute] returns; [result_repr] is
    [str(result.result)] when [result.result] is not [None]; [session] holds
    [session_bytes] and the package list of [session_metadata] when the
    result carries both attributes *)
Record SandboxResult : Type := mk_sandbox_result {
  status : string;
  stdout : option string;
  stderr : option string;
  result_repr : option string;
  session : option (string * list string)
}.

(** [self.session_bytes] and [self.session_metadata] *)
Definition session_state : Type := option (string * list string).

(** the sandbox: code and the session handed over, to a result or an
    exception *)
Definition sandbox : Type := string -> session_state -> result SandboxResult.

Definition or_empty (s : option string) : string :=
  match s with
  | Some t => t
  | None => ""
  end.

Definition _async_execute_code (pyodide : sandbox) (elapsed : Q)
    (code : string) (self : session_state) : session_state * result ExecDict :=
  match pyodide code self with
  | Ok r =>
      let self' :=
        match session r with
        | Some s => Some s
        | None => self
        end in
      (self',
       Ok (mk_dict (status r =? "success")
             (match result_repr r with
              | Some repr =>
                  if truthy (or_empty (stdout r)) then or_empty (stdout r) else repr
              | None => "Code executed successfully"
              end)
             (if truthy (or_empty (stderr r)) then stderr r else None)
             elapsed))
  | Raise e =>
      if is_Exception e then
        (self, Ok (mk_dict false ""
                     (Some ("PyodideSandbox execution error: " ++ exn_str e)%string)
                     elapsed))
      else (self, Raise e)
  end.

End LangChainSandboxExecutor.

(** the module-level [sandbox_executor]: the Pyodide executor, or the
    restricted one when the former could not be constructed *)
Inductive instance : Type :=
| Pyodide (pyodide : LangChainSandboxExecutor.sandbox)
          (self : LangChainSandboxExecutor.session_state)
| Fallback (order : list string).

(** [execute_code_async(code)] when no event loop is running, which is the
    only situation in which [CodeExecutorNode] calls it; [loop] is what
    creating the new event loop does *)
Definition execute_code_async (inst : instance) (python : interpreter)
    (loop : result unit) (elapsed : Q) (code : string) (w : world)
  : instance * world * result ExecDict :=
  match inst with
  | Pyodide pyodide self =>
      match loop with
      | Ok _ =>
          let '(self', r) :=
            LangChainSandboxExecutor._async_execute_code pyodide elapsed code self in
          (Pyodide pyodide self', w, r)
      | Raise e => (inst, w, Raise e)
      end
  | Fallback order =>
      let '(w', r) := SafeCodeExecutor.execute_code order python elapsed code w in
      (inst, w', r)
  end.

End sandbox_executor.

(** ** src/state.py: [CodeGenerationState] *)
Module State.
Import Py.

(** the routing tokens written into [current_node] *)
Inductive token : Type :=
| code_generator
| syntax_checker
| code_rectifier
| code_executor
| END.

(** the dict under ["execution_results"]: a key that is missing (or, for
    ["error"], bound to [None]) is [None] here *)
Record ExecutionResults : Type := mk_results {
  er_success : option bool;
  er_output : option string;
  er_error : option string;
  er_execution_time : option Q
}.

Definition no_results : ExecutionResults := mk_results None None None None.

Record CodeGenerationState : Type := mk_state {
  user_prompt : string;
  generated_code : string;
  syntax_errors : list string;
  execution_results : ExecutionResults;
  current_node : token;
  retry_count : Z;
  execution_errors : list string;
  rectified_code : string;
  rectification_attempts : Z;
  error_analysis : option CodeRectifier.ErrorAnalysis;
  requirements : option string
}.

(** [{**state, key: value}] for the keys the nodes overwrite *)
Definition with_current_node (t : token) (s : CodeGenerationState) :=
  mk_state (user_prompt s) (generated_code s) (syntax_errors s) (execution_results s)
           t (retry_count s) (execution_errors s) (rectified_code s)
           (rectification_attempts s) (error_analysis s) (requirements s).

Definition with_generated_code (c : string) (s : CodeGenerationState) :=
  mk_state (user_prompt s) c (syntax_errors s) (execution_results s)
           (current_node s) (retry_count s) (execution_errors s) (rectified_code s)
           (rectification_attempts s) (error_analysis s) (requirements s).

Definition with_syntax_errors (l : list string) (s : CodeGenerationState) :=
  mk_state (user_prompt s) (generated_code s) l (execution_results s)
           (current_node s) (retry_count s) (execution_errors s) (rectified_code s)
           (rectification_attempts s) (error_analysis s) (requirements s).

Definition with_execution_results (r : ExecutionResults) (s : CodeGenerationState) :=
  mk_state (user_prompt s) (generated_code s) (syntax_errors s) r
           (current_node s) (retry_count s) (execution_errors s) (rectified_code s)
           (rectification_attempts s) (error_analysis s) (requirements s).

Definition with_execution_errors (l : list string) (s : CodeGenerationState) :=
  mk_state (user_prompt s) (generated_code s) (syntax_errors s) (execution_results s)
           (current_node s) (retry_count s) l (rectified_code s)
           (rectification_attempts s) (error_analysis s) (requirements s).

Definition with_rectified_code (c : string) (s : CodeGenerationState) :=
  mk_state (user_prompt s) (generated_code s) (syntax_errors s) (execution_results s)
           (current_node s) (retry_count s) (execution_errors s) c
           (rectification_attempts s) (error_analysis s) (requirements s).

Definition with_rectification_attempts (n : Z) (s : CodeGenerationState) :=
  mk_state (user_prompt s) (generated_code s) (syntax_errors s) (execution_results s)
           (current_node s) (retry_count s) (execution_errors s) (rectified_code s)
           n (error_analysis s) (requirements s).

Definition with_error_analysis (a : CodeRectifier.ErrorAnalysis) (s : CodeGenerationState) :=
  mk_state (user_prompt s) (generated_code s) (syntax_errors s) (execution_results s)
           (current_node s) (retry_count s) (execution_errors s) (rectified_code s)
           (rectification_attempts s) (Some a) (requirements s).

(** [{**execution_results, "error": msg}] *)
Definition with_error (msg : string) (r : ExecutionResults) : ExecutionResults :=
  mk_results (er_success r) (er_output r) (Some msg) (er_execution_time r).

(** [execution_results.get('success', False)] *)
Definition succeeded (r : ExecutionResults) : bool :=
  match er_success r with
  | Some b => b
  | None => false
  end.

(** [bool(execution_results.get('error'))] *)
Definition has_error (r : ExecutionResults) : bool :=
  match er_error r with
  | Some e => PyStr.truthy e
  | None => false
  end.

(** [state.get("rectified_code") or state.get("generated_code", "")] *)
Definition active_code (s : CodeGenerationState) : string :=
  if PyStr.truthy (rectified_code s) then rectified_code s else generated_code s.

End State.

(** ** src/nodes.py *)
Module CodeGeneratorNode.
Import PyStr Py State.

(** [reply] is what [self.model.invoke(prompt)] does: the content of the
    response, or an exception *)
Definition _execute (reply : result string) (state : CodeGenerationState)
  : result CodeGenerationState :=
  match reply with
  | Ok content =>
      let generated_code := strip content in
      let generated_code :=
        if startswith generated_code "```python" then drop 9 generated_code
        else generated_code in
      let generated_code :=
        if endswith generated_code "```" then drop_last 3 generated_code
        else generated_code in
      let generated_code := strip generated_code in
      Ok (with_current_node syntax_checker (with_generated_code generated_code state))
  | Raise e =>
      if is_Exception e then
        Ok (with_current_node END
              (with_execution_results
                 (mk_results (Some false) (Some "")
                    (Some ("Code generation failed: " ++ exn_str e)%string) (Some 0))
                 state))
      else Raise e
  end.

End CodeGeneratorNode.

Module SyntaxCheckerNode.
Import PyStr Py State.

(** what the external tools do in one invocation of the node: writing the
    temporary file, and the three [subprocess.run] calls, each giving
    [(returncode, stdout)] or raising *)
Record tools : Type := mk_tools {
  tempfile : result unit;
  flake8 : result (Z * string);
  black : result (Z * string);
  autopep8 : result (Z * string)
}.

(** the diagnostics kept from flake8's standard output *)
Definition diagnostics (stdout : string) : list string :=
  if truthy stdout
  then filter (fun error => truthy (strip error)) (split_lines (strip stdout))
  else [].

(** [any("SyntaxError" in error for error in syntax_errors)] *)
Definition critical (syntax_errors : list string) : bool :=
  existsb (fun error => contains error "SyntaxError") syntax_errors.

(** [if result.returncode == 0 and result.stdout: code = result.stdout] *)
Definition reformatted (code : string) (run : Z * string) : string :=
  if (fst run =? 0)%Z && truthy (snd run) then snd run else code.

(** the body of the [try] block: the code and the diagnostics, or the
    exception that leaves it *)
Definition check (t : tools) (code : string) : result (string * list string) :=
  bind (tempfile t) (fun _ =>
  bind (match flake8 t with
        | Ok run => Ok (diagnostics (snd run))
        | Raise e => if is_tool_unavailable e then Ok [] else Raise e
        end) (fun syntax_errors =>
  bind (if negb (critical syntax_errors) then
          match black t with
          | Ok run => Ok (reformatted code run)
          | Raise e =>
              if is_tool_unavailable e then
                match autopep8 t with
                | Ok run => Ok (reformatted code run)
                | Raise e' => if is_tool_unavailable e' then Ok code else Raise e'
                end
              else Raise e
          end
        else Ok code) (fun code' =>
  Ok (code', syntax_errors)))).

Definition _execute (t : tools) (state : CodeGenerationState)
  : result CodeGenerationState :=
  let code := active_code state in
  if negb (truthy code) then
    Ok (with_current_node END (with_syntax_errors ["No code to check"] state))
  else
    match check t code with
    | Ok (code', syntax_errors) =>
        let next_node :=
          if (match syntax_errors with [] => false | _ => true end)
             && critical syntax_errors
          then code_rectifier
          else if (List.length syntax_errors =? 0)%nat then code_executor
          else code_executor in
        Ok (with_current_node next_node
              (with_syntax_errors syntax_errors (with_generated_code code' state)))
    | Raise e =>
        if is_Exception e then
          Ok (with_current_node code_rectifier
                (with_syntax_errors
                   [("Syntax checking failed: " ++ exn_str e)%string] state))
        else Raise e
    end.

End SyntaxCheckerNode.

Module CodeRectifierNode.
Import PyStr Py State.

Definition error_message_of (state : CodeGenerationState) : string :=
  if has_error (execution_results state) then
    match er_error (execution_results state) with
    | Some e => e
    | None => ""
    end
  else match syntax_errors state with
       | [] => ""
       | errors => join "; " errors
       end.

Definition _execute (ast_parse : CodeRectifier.parser) (reply : CodeRectifier.ai_reply)
    (state : CodeGenerationState) : result CodeGenerationState :=
  let original_code := active_code state in
  let execution_results := execution_results state in
  let error_message := error_message_of state in
  if negb (truthy error_message) || negb (truthy original_code) then
    Ok (with_rectification_attempts (rectification_attempts state)
          (with_current_node END state))
  else
    let attempts := rectification_attempts state in
    if (attempts >=? 3)%Z then
      Ok (with_execution_results
            (with_error ("Maximum rectification attempts reached. Final error: "
                         ++ error_message)%string execution_results)
            (with_current_node END state))
    else
      let failed (msg : string) :=
        with_execution_results (with_error msg execution_results)
          (with_rectification_attempts (attempts + 1)
             (with_current_node END state)) in
      match CodeRectifier.rectify_code ast_parse reply original_code error_message with
      | Ok response =>
          match CodeRectifier.rectified_code response with
          | Some code =>
              if CodeRectifier.success response && truthy code then
                Ok (with_current_node syntax_checker
                      (with_error_analysis (CodeRectifier.error_analysis response)
                         (with_rectification_attempts (attempts + 1)
                            (with_execution_errors [error_message]
                               (with_generated_code code
                                  (with_rectified_code code state))))))
              else Ok (failed ("Rectification failed: " ++ error_message)%string)
          | None => Ok (failed ("Rectification failed: " ++ error_message)%string)
          end
      | Raise e =>
          if is_Exception e then
            Ok (failed ("Rectification error: " ++ exn_str e)%string)
          else Raise e
      end.

End CodeRectifierNode.

Module CodeExecutorNode.
Import PyStr Py State PyRuntime.

(** the surroundings of one invocation of the node: the calling thread, the
    event loop, the interpreter and its streams, the module-level sandbox
    executor, and the clock readings *)
Record context : Type := mk_context {
  thread_name : string;
  has_fastapi_context : bool;
  running_loop : bool;
  python : interpreter;
  streams : world;
  sandbox : sandbox_executor.instance;
  new_loop : result unit;
  backend_elapsed : Q;
  execution_time : Q
}.

Definition is_fastapi_context (c : context) : bool :=
  contains (thread_name c) "ThreadPoolExecutor"
  || has_fastapi_context c
  || contains (lower (thread_name c)) "executor".

(** the [execution_results] dict built from the back end's reply *)
Definition dispatch (c : context) (code : string) : result ExecutionResults :=
  if is_fastapi_context c || running_loop c then
    match snd (fastapi_executor.execute_code (python c) code (streams c)) with
    | Ok r =>
        Ok (mk_results (Some (fastapi_executor.success r))
              (Some (fastapi_executor.output r))
              (Some (fastapi_executor.error r))
              (Some (execution_time c)))
    | Raise e => Raise e
    end
  else
    match snd (sandbox_executor.execute_code_async (sandbox c) (python c) (new_loop c)
                 (backend_elapsed c) code (streams c)) with
    | Ok r =>
        Ok (mk_results (Some (sandbox_executor.success r))
              (Some (sandbox_executor.output r))
              (sandbox_executor.error r)
              (Some (execution_time c)))
    | Raise e => Raise e
    end.

Definition _execute (c : context) (state : CodeGenerationState)
  : result CodeGenerationState :=
  let code := active_code state in
  if negb (truthy code) then
    Ok (with_current_node END
          (with_execution_results
             (mk_results (Some false) (Some "") (Some "No code to execute") (Some 0))
             state))
  else
    match dispatch c code with
    | Ok execution_results =>
        let next_node :=
          if negb (succeeded execution_results) && has_error execution_results
          then code_rectifier else END in
        Ok (with_current_node next_node
              (with_execution_results execution_results state))
    | Raise e =>
        if is_Exception e then
          Ok (with_current_node code_rectifier
                (with_execution_results
                   (mk_results (Some false) (Some "")
                      (Some ("Execution error: " ++ exn_str e)%string) (Some 0))
                   state))
        else Raise e
    end.

End CodeExecutorNode.

(** ** src/workflow.py *)
Module CodeGeneratorWorkflow.
Import PyStr Py State.

(** the nodes added to the graph *)
Inductive node : Type :=
| generator
| checker
| rectifier
| executor.

Definition node_name (n : node) : token :=
  match n with
  | generator => code_generator
  | checker => syntax_checker
  | rectifier => code_rectifier
  | executor => code_executor
  end.

(** what the collaborators do during one node invocation *)
Record collaborators : Type := mk_collaborators {
  model_invoke : result string;
  lint : SyntaxCheckerNode.tools;
  ast_parse : CodeRectifier.parser;
  ai : CodeRectifier.ai_reply;
  execution : CodeExecutorNode.context
}.

(** the function registered by [add_node] *)
Definition run_node (n : node) (c : collaborators) (state : CodeGenerationState)
  : result CodeGenerationState :=
  match n with
  | generator => CodeGeneratorNode._execute (model_invoke c) state
  | checker => SyntaxCheckerNode._execute (lint c) state
  | rectifier => CodeRectifierNode._execute (ast_parse c) (ai c) state
  | executor => CodeExecutorNode._execute (execution c) state
  end.

Definition _route_from_generator (state : CodeGenerationState) : token :=
  current_node state.

Definition _route_from_syntax_checker (state : CodeGenerationState) : token :=
  current_node state.

Definition _route_from_rectifier (state : CodeGenerationState) : token :=
  let current_node := current_node state in
  let retry_count := retry_count state in
  let rectification_attempts := rectification_attempts state in
  if (retry_count >=? 3)%Z || (rectification_attempts >=? 3)%Z then END
  else current_node.

Definition _route_from_executor (state : CodeGenerationState) : token :=
  current_node state.

(** the routing function of the conditional edges leaving a node *)
Definition route (n : node) : CodeGenerationState -> token :=
  match n with
  | generator => _route_from_generator
  | checker => _route_from_syntax_checker
  | rectifier => _route_from_rectifier
  | executor => _route_from_executor
  end.

(** where a conditional edge leads *)
Inductive destination : Type :=
| Next (n : node)
| Finish.

(** the mappings passed to [add_conditional_edges]; a token outside the
    mapping has no destination *)
Definition edges (n : node) (t : token) : option destination :=
  match n, t with
  | generator, syntax_checker => Some (Next checker)
  | generator, END => Some Finish
  | checker, code_executor => Some (Next executor)
  | checker, code_rectifier => Some (Next rectifier)
  | checker, END => Some Finish
  | rectifier, syntax_checker => Some (Next checker)
  | rectifier, code_generator => Some (Next generator)
  | rectifier, END => Some Finish
  | executor, code_rectifier => Some (Next rectifier)
  | executor, END => Some Finish
  | _, _ => None
  end.

(** one invocation of a node, as the drive loop records it *)
Record step : Type := mk_step {
  step_node : node;
  step_result : result CodeGenerationState
}.

(** how the drive loop stops: at [END]; because a node let an exception
    through; because the routing token has no edge; or because the
    recursion limit was reached *)
Inductive ending : Type :=
| ReachedEnd (state : CodeGenerationState)
| NodeRaised (e : exn)
| NoRoute (state : CodeGenerationState)
| LimitReached.

(** The drive loop of the compiled graph: run the node, merge what it
    returns into the state, ask the routing function, follow the edge.
    [limit] is the graph's recursion limit: the number of node invocations
    after which the library raises instead of going on.  [env k] gives the
    collaborators' behaviour during invocation number [k].  The result is
    the list of invocations made and how the loop stopped. *)
Fixpoint drive (limit : nat) (env : nat -> collaborators) (k : nat)
    (n : node) (state : CodeGenerationState) : list step * ending :=
  match limit with
  | O => ([], LimitReached)
  | S limit' =>
      match run_node n (env k) state with
      | Raise e => ([mk_step n (Raise e)], NodeRaised e)
      | Ok state' =>
          match edges n (route n state') with
          | None => ([mk_step n (Ok state')], NoRoute state')
          | Some Finish => ([mk_step n (Ok state')], ReachedEnd state')
          | Some (Next n') =>
              let '(steps, e) := drive limit' env (S k) n' state' in
              (mk_step n (Ok state') :: steps, e)
          end
      end
  end.

(** the recursion limit a compiled graph has when none is configured *)
Definition recursion_limit : nat := 25.

(** what [invoke] returns or raises for each way of stopping *)
Definition outcome (e : ending) : result CodeGenerationState :=
  match e with
  | ReachedEnd state => Ok state
  | NodeRaised e => Raise e
  | NoRoute _ => Raise (raised KeyError "unknown route")
  | LimitReached => Raise (raised GraphRecursionError "Recursion limit reached")
  end.

(** [self.workflow.invoke(initial_state)]; the entry point is
    [code_generator] *)
Definition invoke (env : nat -> collaborators) (initial_state : CodeGenerationState)
  : result CodeGenerationState :=
  outcome (snd (drive recursion_limit env 0 generator initial_state)).

(** the "Analysis" section chosen for the report *)
Inductive analysis : Type :=
| ExecutionSucceeded
| GenerationSucceeded
| ExecutionFailed (error_msg : option string) (rectification_attempts : Z)
                  (maximum_reached : bool).

(** The text under ["final_result"], by its parts: the final code, the
    explanation, the execution results, the analysis section and the number
    of syntax errors; or the one-line text of a failed run. *)
Inductive report : Type :=
| Report (final_code explanation : string) (results : ExecutionResults)
         (section : analysis) (syntax_error_count : nat)
| WorkflowFailed (message : string).

(** the dict [run] returns: the state with the three keys added *)
Record FinalReport : Type := mk_report {
  final_state : CodeGenerationState;
  final_result : report;
  workflow_status : string;
  error_message : option string
}.

Definition triple_double : string := String "034" (String "034" (String "034" "")).
Definition triple_single : string := "'''".

Definition generic_explanation : string :=
  "This code implements the requested functionality with proper error handling and documentation.".

(** the lines after the first, up to the first one holding a docstring
    delimiter; each stripped *)
Fixpoint docstring_lines (lines : list string) : list string :=
  match lines with
  | [] => []
  | line :: rest =>
      if contains line triple_double || contains line triple_single then []
      else strip line :: docstring_lines rest
  end.

Definition explanation_of (final_code : string) : string :=
  if truthy final_code then
    match split_lines final_code with
    | [] => ""
    | first :: rest =>
        let first_line := strip first in
        if startswith first_line triple_double || startswith first_line triple_single
        then match docstring_lines rest with
             | [] => generic_explanation
             | ls => join nl ls
             end
        else generic_explanation
    end
  else "".

(** [workflow_success], the value computed under "Determine overall
    success" *)
Definition workflow_success (state : CodeGenerationState) : bool :=
  let final_code := active_code state in
  let execution_results := execution_results state in
  succeeded execution_results
  || (truthy final_code && negb (has_error execution_results)).

Definition _process_final_result (state : CodeGenerationState) : FinalReport :=
  let final_code := active_code state in
  let execution_results := execution_results state in
  let workflow_success := workflow_success state in
  let section :=
    if succeeded execution_results then ExecutionSucceeded
    else if negb (has_error execution_results) && truthy final_code
    then GenerationSucceeded
    else ExecutionFailed (er_error execution_results)
           (rectification_attempts state)
           (rectification_attempts state >=? 3)%Z in
  let final_workflow_status :=
    if workflow_success || truthy final_code then "completed" else "failed" in
  mk_report (with_current_node END state)
            (Report final_code (explanation_of final_code) execution_results
                    section (List.length (syntax_errors state)))
            final_workflow_status
            None.

Definition initial_state (user_prompt : string) (requirements : option string)
  : CodeGenerationState :=
  mk_state user_prompt "" [] no_results code_generator 0 [] "" 0 None
    (match requirements with
     | Some r => if truthy r then Some r else None
     | None => None
     end).

(** The [try] statement of [run], given what
    [self.workflow.invoke(initial_state)] did: the report returned, or the
    exception the handler [except Exception] lets through. *)
Definition run_body (initial_state : CodeGenerationState)
    (invoked : result CodeGenerationState) : result FinalReport :=
  match invoked with
  | Ok result => Ok (_process_final_result result)
  | Raise e =>
      if is_Exception e then
        Ok (mk_report initial_state
              (WorkflowFailed ("Workflow failed: " ++ exn_str e)%string)
              "failed"
              (Some ("Workflow execution failed: " ++ exn_str e)%string))
      else Raise e
  end.

(** [run(user_prompt, requirements)] *)
Definition run (env : nat -> collaborators) (user_prompt : string)
    (requirements : option string) : result FinalReport :=
  let initial_state := initial_state user_prompt requirements in
  run_body initial_state (invoke env initial_state).

End CodeGeneratorWorkflow.


(** ** app.py: the endpoint [/generate] *)
Module app.
Import PyStr Py State CodeGeneratorWorkflow.

(** the dict [response_data] *)
Record ResponseData : Type := mk_response_data {
  success : bool;
  final_result : report;
  generated_code : string;
  execution_results : ExecutionResults;
  syntax_errors : list string;
  rectification_attempts : Z;
  error_analysis : option CodeRectifier.ErrorAnalysis;
  workflow_status : string
}.

(** what the endpoint answers: the JSON body with status 200, or the body
    of its handler with status 500 *)
Inductive response : Type :=
| JSONResponse (content : ResponseData)
| JSONResponse500 (error final_result : string).

(** [run_workflow] sets [_fastapi_context] on the thread that executes it,
    a worker of the pool; the nodes of the graph run in that thread, so the
    surroundings of every invocation of the executor carry the mark *)
Definition marked (c : CodeExecutorNode.context) : CodeExecutorNode.context :=
  CodeExecutorNode.mk_context
    (CodeExecutorNode.thread_name c) true (CodeExecutorNode.running_loop c)
    (CodeExecutorNode.python c) (CodeExecutorNode.streams c)
    (CodeExecutorNode.sandbox c) (CodeExecutorNode.new_loop c)
    (CodeExecutorNode.backend_elapsed c) (CodeExecutorNode.execution_time c).

Definition in_worker (env : nat -> collaborators) : nat -> collaborators :=
  fun k =>
    mk_collaborators (model_invoke (env k)) (lint (env k)) (ast_parse (env k))
                     (ai (env k)) (marked (execution (env k))).

Definition run_workflow (env : nat -> collaborators) (prompt requirements : string)
  : result FinalReport :=
  run (in_worker env) prompt (if truthy requirements then Some requirements else None).

(** [response_data], read from the dict [run] returned *)
Definition response_data (result : FinalReport) : ResponseData :=
  let state := CodeGeneratorWorkflow.final_state result in
  mk_response_data
    (CodeGeneratorWorkflow.workflow_status result =? "completed")
    (CodeGeneratorWorkflow.final_result result)
    (active_code state)
    (State.execution_results state)
    (State.syntax_errors state)
    (State.rectification_attempts state)
    (State.error_analysis state)
    (CodeGeneratorWorkflow.workflow_status result).

(** [generate_code(prompt, requirements)]; [workflow] tells whether the
    module-level workflow was initialized.  An exception of the worker is
    raised again where the endpoint awaits its result. *)
Definition generate_code (workflow : bool) (env : nat -> collaborators)
    (prompt requirements : string) : result response :=
  if negb workflow then
    Raise (raised OtherException "500: Workflow not initialized")
  else
    match run_workflow env prompt requirements with
    | Ok result => Ok (JSONResponse (response_data result))
    | Raise e =>
        if is_Exception e then
          Ok (JSONResponse500 ("Code generation failed: " ++ exn_str e)%string
                              ("Error: " ++ exn_str e)%string)
        else Raise e
    end.

End app.
(** * Vocabulary of the statements *)
Module Spec.
Import Py State CodeGeneratorWorkflow.

(** The node invocations still possible when node [n] is about to run with
    [a] rectification attempts counted: a rectifier visit, and for each
    attempt still allowed after it a round checker, executor, rectifier. *)
Definition budget (n : node) (a : Z) : nat :=
  let rounds := Z.to_nat (2 - a) in
  match n with
  | rectifier => 1 + 3 * rounds
  | executor => 2 + 3 * rounds
  | checker => 3 + 3 * rounds
  | generator => 4 + 3 * rounds
  end.

(** the edges the drive loop can follow, with the attempt counter before
    and after the node that was left *)
Inductive hop : node -> Z -> node -> Z -> Prop :=
| hop_generator a : hop generator a checker a
| hop_checker_executor a : hop checker a executor a
| hop_checker_rectifier a : hop checker a rectifier a
| hop_executor a : hop executor a rectifier a
| hop_rectifier a : (a + 1 < 3)%Z -> hop rectifier a checker (a + 1).

(** [reaches env s0 k n s]: in the run started in state [s0], invocation
    number [k] is the one of node [n], in state [s] *)
Inductive reaches (env : nat -> collaborators) (s0 : CodeGenerationState)
  : nat -> node -> CodeGenerationState -> Prop :=
| reaches_entry : reaches env s0 0 generator s0
| reaches_next k n s s' n' :
    reaches env s0 k n s ->
    run_node n (env k) s = Ok s' ->
    edges n (route n s') = Some (Next n') ->
    reaches env s0 (S k) n' s'.

(** the loop stopped at [END], or was aborted by an exception that does not
    derive from [Exception] *)
Definition stops_properly (e : ending) : Prop :=
  match e with
  | ReachedEnd _ => True
  | NodeRaised x => is_Exception x = false
  | NoRoute _ => False
  | LimitReached => False
  end.

(** the attempt counter of a recorded invocation is between 0 and 3 *)
Definition within_ceiling (st : step) : bool :=
  match step_result st with
  | Ok x => (0 <=? rectification_attempts x)%Z && (rectification_attempts x <=? 3)%Z
  | Raise _ => true
  end.

(** *** Sample collaborators, for the concrete runs below *)

Definition quiet_world : PyRuntime.world :=
  PyRuntime.mk_world 0%nat 1%nat (fun _ => PyRuntime.mk_stream "" false) 2%nat [].

Definition not_installed : exn := raised FileNotFoundError "No such file or directory".

(** none of flake8, black and autopep8 is installed *)
Definition no_tools : SyntaxCheckerNode.tools :=
  SyntaxCheckerNode.mk_tools (Ok tt) (Raise not_installed) (Raise not_installed)
                             (Raise not_installed).

Definition parses : CodeRectifier.parser := fun _ => Ok tt.

(** an interpreter in which every snippet ends with the exception [e] *)
Definition failing_with (e : exn) : PyRuntime.interpreter :=
  fun _ _ => PyRuntime.mk_behaviour [] (Raise e).

(** an interpreter in which every snippet prints [text] and returns *)
Definition printing (text : string) : PyRuntime.interpreter :=
  fun _ _ => PyRuntime.mk_behaviour [PyRuntime.Write PyRuntime.Stdout text] (Ok tt).

(** a worker thread of the web application *)
Definition web_context (python : PyRuntime.interpreter) : CodeExecutorNode.context :=
  CodeExecutorNode.mk_context "ThreadPoolExecutor-0_0" true false python quiet_world
    (sandbox_executor.Fallback sandbox_executor.SafeCodeExecutor.restricted_functions)
    (Ok tt) 0 0.

(** the same collaborators at every node invocation: the model answers
    [content], the escalation answers [reply], the tools are missing, the
    snippet behaves as [python] says *)
Definition steady (content : string) (reply : CodeRectifier.ai_reply)
    (python : PyRuntime.interpreter) : nat -> collaborators :=
  fun _ => mk_collaborators (Ok content) no_tools parses reply (web_context python).

Definition math_undefined : exn :=
  mk_exn OtherException "name 'math' is not defined"
    ("Traceback (most recent call last):" ++ PyStr.nl
     ++ "NameError: name 'math' is not defined")%string.

Definition division_by_zero : exn :=
  mk_exn OtherException "division by zero"
    ("Traceback (most recent call last):" ++ PyStr.nl
     ++ "ZeroDivisionError: division by zero")%string.

Definition interrupt : exn := raised KeyboardInterrupt "".

(** the state in which a run ends when the generated code [print(1/0)]
    fails and the rectification brings nothing *)
Definition failed_execution : CodeGenerationState :=
  mk_state "divide" "print(1/0)" []
    (mk_results (Some false) (Some "")
       (Some ("Rectification failed: " ++ exn_traceback division_by_zero)%string)
       (Some 0))
    END 0 [] "" 1 None None.

(** the report [run] builds in its handler for exception [e] *)
Definition failure_report (initial_state : CodeGenerationState) (e : exn) : FinalReport :=
  mk_report initial_state
    (WorkflowFailed ("Workflow failed: " ++ exn_str e)%string)
    "failed"
    (Some ("Workflow execution failed: " ++ exn_str e)%string).

(** the model call is interrupted from the keyboard *)
Definition interrupted : nat -> collaborators :=
  fun _ => mk_collaborators (Raise interrupt) no_tools parses
             (CodeRectifier.ContentText "sorry") (web_context (printing "1")).

(** *** Streams *)

(** In world [w], the names [sys.stdout] and [sys.stderr] and the allocator
    have moved to objects numbered [n0] or more, and the objects below [n0]
    hold what they hold in [h0]. *)
Definition private_from (n0 : nat) (h0 : PyRuntime.obj -> PyRuntime.stream)
    (w : PyRuntime.world) : Prop :=
  (n0 <= PyRuntime.sys_stdout w)%nat
  /\ (n0 <= PyRuntime.sys_stderr w)%nat
  /\ (n0 <= PyRuntime.next_obj w)%nat
  /\ forall o, (o < n0)%nat -> PyRuntime.heap w o = h0 o.

(** the text a sequence of actions writes through the name [which], when
    none of them rebinds a name *)
Fixpoint written (which : PyRuntime.fd) (l : list PyRuntime.action) : string :=
  match l with
  | [] => ""
  | PyRuntime.Write PyRuntime.Stdout text :: l' =>
      match which with
      | PyRuntime.Stdout => (text ++ written which l')%string
      | PyRuntime.Stderr => written which l'
      end
  | PyRuntime.Write PyRuntime.Stderr text :: l' =>
      match which with
      | PyRuntime.Stdout => written which l'
      | PyRuntime.Stderr => (text ++ written which l')%string
      end
  | PyRuntime.Rebind _ _ :: l' => written which l'
  end.

Definition is_write (a : PyRuntime.action) : bool :=
  match a with
  | PyRuntime.Write _ _ => true
  | PyRuntime.Rebind _ _ => false
  end.

(** a snippet that opens with a comment line and then defines a function
    whose body calls [eval]; the function is not called *)
Definition commented_eval : string :=
  ("# helper" ++ PyStr.nl
   ++ "def twice(s):" ++ PyStr.nl
   ++ "    return eval(s) * 2" ++ PyStr.nl
   ++ "print('ready')")%string.

(** what Python does with [commented_eval]: it binds [twice] and prints *)
Definition runs_commented_eval : PyRuntime.interpreter :=
  printing ("ready" ++ PyStr.nl)%string.

(** *** The rectifier *)

(** a returned code that is not empty and differs from the original *)
Definition changed (rectified_code : option string) (original_code : string) : bool :=
  match rectified_code with
  | Some c => PyStr.truthy c && negb (c =? original_code)%string
  | None => false
  end.

(** the value under key [k] of a JSON object, if any *)
Definition field (v : jval) (k : string) : option jval :=
  match v with
  | JObj l => assoc_last k l
  | _ => None
  end.

Definition field_or (v : jval) (k : string) (default : jval) : jval :=
  match field v k with
  | Some x => x
  | None => default
  end.

(** the parser does not raise outside [Exception] *)
Definition parser_behaves (p : CodeRectifier.parser) (code : string) : bool :=
  match p code with
  | Ok _ => true
  | Raise e => is_Exception e
  end.

Definition code_field_ok (v : option jval) : bool :=
  match v with
  | None | Some (JStr _) | Some JNull => true
  | _ => false
  end.

Definition changes_field_ok (v : option jval) : bool :=
  match v with
  | None | Some (JStr _) | Some (JObj _) => true
  | Some (JArr l) =>
      match CodeRectifier.all_str l with
      | Some _ => true
      | None => false
      end
  | _ => false
  end.

Definition confidence_field_ok (v : option jval) : bool :=
  match v with
  | None | Some (JNum _) | Some (JBool _) => true
  | _ => false
  end.

(** The escalation reply can be used as [rectify_code] uses it: the call did
    not raise outside [Exception]; a JSON reply is falsy, or an object that
    does not report success, or an object whose ["code"] is a string or
    null, whose ["changes"] is a string, an object or a list of strings,
    and whose ["confidence"] is a number. *)
Definition reply_well_formed (reply : CodeRectifier.ai_reply) : bool :=
  match reply with
  | CodeRectifier.InvokeRaises e => is_Exception e
  | CodeRectifier.ContentText _ => true
  | CodeRectifier.ContentJson v =>
      match v with
      | JObj l =>
          if jtruthy v && jtruthy (field_or v "success" (JBool false)) then
            code_field_ok (field v "code")
            && changes_field_ok (field v "changes")
            && confidence_field_ok (field v "confidence")
          else true
      | _ => negb (jtruthy v)
      end
  end.

(** the code a response carries for a JSON value *)
Definition as_code (v : jval) : option string :=
  match v with
  | JStr s => Some s
  | _ => None
  end.

(** the number [max] compares for a JSON value *)
Definition number_of (v : jval) : Q :=
  match v with
  | JNum q => q
  | JBool true => 1
  | _ => 0
  end.

(** the lines [_fix_name_error] steps over *)
Definition is_future (line : string) : bool :=
  PyStr.startswith (PyStr.strip line) "from __future__".

Definition is_comment_or_blank (line : string) : bool :=
  PyStr.startswith (PyStr.strip line) "#" || negb (PyStr.truthy (PyStr.strip line)).

Definition skippable (line : string) : bool :=
  is_future line || is_comment_or_blank line.

(** index of the first line that is neither a comment, nor blank, nor a
    future import; the number of lines if there is none *)
Fixpoint first_code_line (lines : list string) : nat :=
  match lines with
  | [] => 0
  | line :: rest => if skippable line then S (first_code_line rest) else 0
  end.

(** the lines before the first code line *)
Definition leading_block (lines : list string) : list string :=
  firstn (first_code_line lines) lines.

(** the position just after the last future import of a block; 0 if it
    has none *)
Fixpoint after_last_future (block : list string) : nat :=
  match block with
  | [] => 0
  | line :: rest =>
      match after_last_future rest with
      | O => if is_future line then 1 else 0
      | S k => S (S k)
      end
  end.

(** the names of the catalog entries *)
Definition pattern_names : list string :=
  map fst (CodeRectifier.error_patterns parses).

(** no catalog entry is mentioned in the message, in any letter case *)
Definition unrecognized (error_message : string) : bool :=
  forallb (fun pattern =>
             negb (PyStr.contains (PyStr.lower error_message) (PyStr.lower pattern)))
          pattern_names.

(** an escalation reply that is neither JSON nor holds a fenced code block *)
Definition codeless (reply : CodeRectifier.ai_reply) : bool :=
  match reply with
  | CodeRectifier.ContentText content =>
      match PyStr.search_fenced_code content with
      | Some _ => false
      | None => true
      end
  | _ => false
  end.

Definition name_error_message : string := "NameError: name 'math' is not defined".

(** a program that adds a number and a string, the error it fails with,
    and a JSON reply proposing another program *)
Definition adds_text : string := "print(1 + '1')".

Definition type_error_message : string :=
  "TypeError: unsupported operand type(s) for +: 'int' and 'str'".

Definition advice : jval :=
  JObj [("success", JBool true); ("code", JStr "print(1 + int('1'))");
        ("changes", JArr [JStr "converted the string"]); ("confidence", JNum 0.9)].

(** the state of the run on [print(1/0)] when the executor is about to be
    invoked, and the results the executor then records *)
Definition checked : CodeGenerationState :=
  mk_state "divide" "print(1/0)" [] no_results code_executor 0 [] "" 0 None None.

Definition division_results : ExecutionResults :=
  mk_results (Some false) (Some "") (Some (exn_traceback division_by_zero)) (Some 0).

(** the state after the executor recorded the failed results, and the state
    after the rectifier gave up on the error [e] *)
Definition recorded (results : ExecutionResults) (s : CodeGenerationState)
  : CodeGenerationState :=
  with_current_node code_rectifier (with_execution_results results s).

Definition given_up (e : string) (results : ExecutionResults) (s : CodeGenerationState)
  : CodeGenerationState :=
  with_execution_results
    (with_error ("Rectification failed: " ++ e)%string results)
    (with_rectification_attempts (rectification_attempts s + 1)
       (with_current_node END (recorded results s))).

End Spec.
(** * Vocabulary of the further properties *)
Module Vocabulary.
Import Py State.

(** a string without newline *)
Fixpoint single_line (s : string) : bool :=
  match s with
  | EmptyString => true
  | String c s' => negb (Ascii.eqb c PyStr.newline) && single_line s'
  end.

(** the test [_fix_future_imports] applies to a line *)
Definition imports_future (line : string) : bool :=
  PyStr.contains (PyStr.strip line) "from __future__ import".

(** the lines as [_fix_future_imports] orders them: the shebang line if the
    first line is one, then the future imports, then the other lines, each
    group in its original order *)
Definition future_first (lines : list string) : list string :=
  match lines with
  | [] => []
  | first :: rest =>
      if PyStr.startswith first "#!" then
        first :: filter imports_future rest
              ++ filter (fun l => negb (imports_future l)) rest
      else
        filter imports_future lines
        ++ filter (fun l => negb (imports_future l)) lines
  end.

(** the test [_fix_invalid_syntax] applies to a line *)
Definition lacks_colon (line : string) : bool :=
  PyStr.startswith_any (PyStr.strip line) CodeRectifier.control_keywords
  && negb (PyStr.endswith (PyStr.strip line) ":").

(** what [_fix_invalid_syntax] makes of a line *)
Definition with_colon (line : string) : string :=
  if lacks_colon line then (line ++ ":")%string else line.

(** the leading whitespace of a line, as [_fix_indentation_error] takes it *)
Definition indent_of (line : string) : string :=
  PyStr.take (String.length line - String.length (PyStr.lstrip line)) line.

(** the test [_fix_indentation_error] applies to a line *)
Definition tab_indented (line : string) : bool :=
  PyStr.truthy (PyStr.strip line)
  && PyStr.contains (indent_of line) (String PyStr.tab "").

(** what [_fix_indentation_error] makes of a line *)
Definition normalized (line : string) : string :=
  if tab_indented line then
    (PyStr.repeat_str "    " (PyStr.count (indent_of line) PyStr.tab)
     ++ PyStr.repeat_str " " (PyStr.count (indent_of line) " "%char)
     ++ PyStr.lstrip line)%string
  else line.

Fixpoint all_spaces (s : string) : bool :=
  match s with
  | EmptyString => true
  | String c s' => Ascii.eqb c " "%char && all_spaces s'
  end.

(** the confidences the fix functions return with a change *)
Definition fix_levels : list Q := [0.8%Q; 0.9%Q; 0.95%Q].

(** the name of the first catalog entry, and the change its fix reports *)
Definition future_import_text : string :=
  "from __future__ imports must occur at the beginning".

Definition moved_text : string :=
  "Moved __future__ imports to the beginning of the file".

(** an escalation that brings nothing: the model call raises an
    [Exception], or the reply is text without a fenced block, or JSON that
    is falsy *)
Definition silent (reply : CodeRectifier.ai_reply) : bool :=
  match reply with
  | CodeRectifier.InvokeRaises e => is_Exception e
  | CodeRectifier.ContentText content =>
      match PyStr.search_fenced_code content with
      | Some _ => false
      | None => true
      end
  | CodeRectifier.ContentJson v => negb (jtruthy v)
  end.

(** a string that does not begin with whitespace *)
Definition no_lead (s : string) : bool :=
  match s with
  | EmptyString => true
  | String c _ => negb (PyStr.isspace c)
  end.

(** the markers [CodeGeneratorNode] removes *)
Definition python_fence : string := "```python".
Definition closing_fence : string := "```".

(** *** Sample states of the run on [print(math.pi)] *)

(** the state in which the rectifier is invoked after the execution failed
    on the missing import *)
Definition undefined_math : CodeGenerationState :=
  mk_state "pi" "print(math.pi)" []
    (mk_results (Some false) (Some "") (Some (exn_traceback Spec.math_undefined)) (Some 0))
    code_rectifier 0 [] "" 0 None None.

(** the state the rectifier leaves *)
Definition rectified_math : CodeGenerationState :=
  match CodeRectifierNode._execute Spec.parses (CodeRectifier.ContentText "sorry")
          undefined_math with
  | Ok s => s
  | Raise _ => undefined_math
  end.

(** a formatter that answers with its own layout of the code *)
Definition formatting : SyntaxCheckerNode.tools :=
  SyntaxCheckerNode.mk_tools (Ok tt) (Ok (0%Z, ""))
    (Ok (0%Z, ("import math" ++ PyStr.nl ++ PyStr.nl ++ "print(math.pi)" ++ PyStr.nl)%string))
    (Raise Spec.not_installed).

(** a checker run in which flake8 reports a syntax error *)
Definition complaining : SyntaxCheckerNode.tools :=
  SyntaxCheckerNode.mk_tools (Ok tt)
    (Ok (1%Z, "t.py:1:1: E999 SyntaxError: invalid syntax"))
    (Raise Spec.not_installed) (Raise Spec.not_installed).

(** the state the checker leaves *)
Definition checked_with (t : SyntaxCheckerNode.tools) (s : CodeGenerationState)
  : CodeGenerationState :=
  match SyntaxCheckerNode._execute t s with
  | Ok s' => s'
  | Raise _ => s
  end.

(** the collaborators of that run: the model answers [print(math.pi)], the
    tools are missing, the execution fails on the undefined name, and the
    escalation answers text without code *)
Definition math_run : nat -> CodeGeneratorWorkflow.collaborators :=
  Spec.steady "print(math.pi)" (CodeRectifier.ContentText "sorry")
              (Spec.failing_with Spec.math_undefined).

(** its states after the generator and after the checker *)
Definition generated_math : CodeGenerationState :=
  with_current_node syntax_checker
    (with_generated_code "print(math.pi)"
       (CodeGeneratorWorkflow.initial_state "pi" None)).

Definition checked_math : CodeGenerationState :=
  with_current_node code_executor
    (with_syntax_errors [] (with_generated_code "print(math.pi)" generated_math)).

(** *** Counting node invocations *)

Definition node_eqb (a b : CodeGeneratorWorkflow.node) : bool :=
  match a, b with
  | CodeGeneratorWorkflow.generator, CodeGeneratorWorkflow.generator
  | CodeGeneratorWorkflow.checker, CodeGeneratorWorkflow.checker
  | CodeGeneratorWorkflow.rectifier, CodeGeneratorWorkflow.rectifier
  | CodeGeneratorWorkflow.executor, CodeGeneratorWorkflow.executor => true
  | _, _ => false
  end.

(** the number of invocations of node [n] among the recorded ones *)
Definition invocations (n : CodeGeneratorWorkflow.node)
    (steps : list CodeGeneratorWorkflow.step) : nat :=
  List.length (filter (fun st => node_eqb (CodeGeneratorWorkflow.step_node st) n) steps).

(** the invocations of node [target] still possible when node [n] is about
    to run with [a] attempts counted *)
Definition visits (target n : CodeGeneratorWorkflow.node) (a : Z) : nat :=
  match target, n with
  | CodeGeneratorWorkflow.generator, CodeGeneratorWorkflow.generator => 1
  | CodeGeneratorWorkflow.generator, _ => 0
  | CodeGeneratorWorkflow.rectifier, _ => Z.to_nat (3 - a)
  | CodeGeneratorWorkflow.checker, CodeGeneratorWorkflow.generator
  | CodeGeneratorWorkflow.checker, CodeGeneratorWorkflow.checker => Z.to_nat (3 - a)
  | CodeGeneratorWorkflow.checker, _ => Z.to_nat (2 - a)
  | CodeGeneratorWorkflow.executor, CodeGeneratorWorkflow.rectifier => Z.to_nat (2 - a)
  | CodeGeneratorWorkflow.executor, _ => Z.to_nat (3 - a)
  end.

(** the state and the results a failed model call leaves *)
Definition generation_failed (e : exn) (s : CodeGenerationState) : CodeGenerationState :=
  with_current_node END
    (with_execution_results
       (mk_results (Some false) (Some "")
          (Some ("Code generation failed: " ++ exn_str e)%string) (Some 0%Q))
       s).

(** the state the checker leaves when there is no code *)
Definition nothing_to_check (s : CodeGenerationState) : CodeGenerationState :=
  with_current_node END
    (with_syntax_errors ["No code to check"]
       (with_current_node syntax_checker (with_generated_code "" s))).

(** the state the executor leaves after a run of the code that ended the
    workflow *)
Definition executed (results : ExecutionResults) (s : CodeGenerationState)
  : CodeGenerationState :=
  with_current_node END (with_execution_results results s).

(** *** Sample states of the run on [print(1)] *)
Definition one_run : nat -> CodeGeneratorWorkflow.collaborators :=
  Spec.steady "print(1)" (CodeRectifier.ContentText "sorry")
              (Spec.printing ("1" ++ PyStr.nl)%string).

Definition generated_one : CodeGenerationState :=
  with_current_node syntax_checker
    (with_generated_code "print(1)" (CodeGeneratorWorkflow.initial_state "one" None)).

Definition checked_one : CodeGenerationState :=
  with_current_node code_executor
    (with_syntax_errors [] (with_generated_code "print(1)" generated_one)).

Definition one_results : ExecutionResults :=
  mk_results (Some true) (Some ("1" ++ PyStr.nl)%string) (Some "") (Some 0%Q).

(** a model call that fails *)
Definition model_down : nat -> CodeGeneratorWorkflow.collaborators :=
  fun _ => CodeGeneratorWorkflow.mk_collaborators
             (Raise (raised RuntimeError "rate limit")) Spec.no_tools Spec.parses
             (CodeRectifier.ContentText "sorry") (Spec.web_context (Spec.printing "1")).

(** *** Sample surroundings of the executor *)

(** the message [SafeCodeExecutor] gives when it refuses a name *)
Definition refusal (restricted : string) : string :=
  ("Restricted function '" ++ restricted ++ "' not allowed")%string.

(** a sandbox whose run fails, with some output and no error text *)
Definition quiet_failure : sandbox_executor.LangChainSandboxExecutor.sandbox :=
  fun _ _ =>
    Ok (sandbox_executor.LangChainSandboxExecutor.mk_sandbox_result
          "error" (Some "partial output") None None None).


(** the main thread of the command line program, with the fallback executor *)
Definition fallback_context (python : PyRuntime.interpreter) : CodeExecutorNode.context :=
  CodeExecutorNode.mk_context "MainThread" false false python Spec.quiet_world
    (sandbox_executor.Fallback sandbox_executor.SafeCodeExecutor.restricted_functions)
    (Ok tt) 0 0.

(** a run of the checker in which no tool answers: flake8 and black time
    out, autopep8 is not installed *)
Definition tools_unavailable (t : SyntaxCheckerNode.tools) : bool :=
  match SyntaxCheckerNode.tempfile t, SyntaxCheckerNode.flake8 t,
        SyntaxCheckerNode.black t, SyntaxCheckerNode.autopep8 t with
  | Ok _, Raise e1, Raise e2, Raise e3 =>
      is_tool_unavailable e1 && is_tool_unavailable e2 && is_tool_unavailable e3
  | _, _, _, _ => false
  end.

(** an interpreter in which every snippet prints [text], writes [warning]
    to the standard error, and returns *)
Definition warning_with (text warning : string) : PyRuntime.interpreter :=
  fun _ _ =>
    PyRuntime.mk_behaviour
      [PyRuntime.Write PyRuntime.Stdout text; PyRuntime.Write PyRuntime.Stderr warning]
      (Ok tt).

(** the states of the run [math_run], in order: the state each invocation
    is given, and the state the last one leaves *)
Definition math_trace : list CodeGenerationState :=
  Eval vm_compute in
    (CodeGeneratorWorkflow.initial_state "pi" None
     :: map (fun st =>
               match CodeGeneratorWorkflow.step_result st with
               | Ok x => x
               | Raise _ => CodeGeneratorWorkflow.initial_state "pi" None
               end)
            (fst (CodeGeneratorWorkflow.drive CodeGeneratorWorkflow.recursion_limit
                    math_run 0 CodeGeneratorWorkflow.generator
                    (CodeGeneratorWorkflow.initial_state "pi" None)))).

Definition math_state (k : nat) : CodeGenerationState :=
  nth k math_trace (CodeGeneratorWorkflow.initial_state "pi" None).

End Vocabulary.
(** * Properties *)

Import Py State.

(** ** What one node invocation does to the routing token and the counters *)
Section NodeFacts.

Variables (s s' : CodeGenerationState).

Lemma generator_step (reply : result string) :
  CodeGeneratorNode._execute reply s = Ok s' ->
  (current_node s' = syntax_checker \/ current_node s' = END)
  /\ rectification_attempts s' = rectification_attempts s
  /\ retry_count s' = retry_count s.
Proof.
  unfold CodeGeneratorNode._execute.
  destruct reply as [content|e].
  - intros H; inversion H; subst; simpl; auto.
  - destruct (is_Exception e); intros H; inversion H; subst; simpl; auto.
Qed.

Lemma checker_step (t : SyntaxCheckerNode.tools) :
  SyntaxCheckerNode._execute t s = Ok s' ->
  (current_node s' = code_executor \/ current_node s' = code_rectifier
   \/ current_node s' = END)
  /\ rectification_attempts s' = rectification_attempts s
  /\ retry_count s' = retry_count s.
Proof.
  unfold SyntaxCheckerNode._execute.
  destruct (negb (PyStr.truthy (active_code s))).
  - intros H; inversion H; subst; simpl; auto.
  - destruct (SyntaxCheckerNode.check t (active_code s)) as [[code' errors]|e].
    + intros H; inversion H; subst; simpl.
      destruct (_ && SyntaxCheckerNode.critical errors);
        [|destruct (_ =? _)%nat]; auto.
    + destruct (is_Exception e); intros H; inversion H; subst; simpl; auto.
Qed.

Lemma executor_step (c : CodeExecutorNode.context) :
  CodeExecutorNode._execute c s = Ok s' ->
  (current_node s' = code_rectifier \/ current_node s' = END)
  /\ rectification_attempts s' = rectification_attempts s
  /\ retry_count s' = retry_count s.
Proof.
  unfold CodeExecutorNode._execute.
  destruct (negb (PyStr.truthy (active_code s))).
  - intros H; inversion H; subst; simpl; auto.
  - destruct (CodeExecutorNode.dispatch c (active_code s)) as [r|e].
    + intros H; inversion H; subst; simpl.
      destruct (negb (succeeded r) && has_error r); auto.
    + destruct (is_Exception e); intros H; inversion H; subst; simpl; auto.
Qed.

(** The rectifier either stops the run, counting at most one attempt and
    none once three were made, or sends the code back to the syntax checker
    and counts exactly one attempt, which it only does below three. *)
Lemma rectifier_step (p : CodeRectifier.parser) (reply : CodeRectifier.ai_reply) :
  CodeRectifierNode._execute p reply s = Ok s' ->
  retry_count s' = retry_count s
  /\ ((current_node s' = END
       /\ (rectification_attempts s <= rectification_attempts s'
           <= rectification_attempts s + 1)%Z
       /\ ((3 <= rectification_attempts s)%Z ->
           rectification_attempts s' = rectification_attempts s))
      \/ (current_node s' = syntax_checker
          /\ rectification_attempts s' = (rectification_attempts s + 1)%Z
          /\ (rectification_attempts s < 3)%Z)).
Proof.
  unfold CodeRectifierNode._execute.
  destruct (_ || _).
  { intros H; inversion H; subst; simpl. split; [reflexivity|left]. repeat split; lia. }
  destruct (rectification_attempts s >=? 3)%Z eqn:Hge.
  { intros H; inversion H; subst; simpl. split; [reflexivity|left]. repeat split; lia. }
  rewrite Z.geb_leb in Hge. apply Z.leb_gt in Hge.
  destruct (CodeRectifier.rectify_code _ _ _ _) as [response|e].
  - destruct (CodeRectifier.rectified_code response) as [code|].
    + destruct (_ && _); intros H; inversion H; subst; simpl;
        (split; [reflexivity|]); [right|left]; repeat split; lia.
    + intros H; inversion H; subst; simpl.
      split; [reflexivity|left]. repeat split; lia.
  - destruct (is_Exception e); intros H; inversion H; subst; simpl.
    split; [reflexivity|left]. repeat split; lia.
Qed.

(** Every node catches what derives from [Exception]: an exception that
    leaves a node does not. *)
Lemma node_lets_through (n : CodeGeneratorWorkflow.node)
    (c : CodeGeneratorWorkflow.collaborators) (e : exn) :
  CodeGeneratorWorkflow.run_node n c s = Raise e -> is_Exception e = false.
Proof.
  destruct n; simpl.
  - unfold CodeGeneratorNode._execute.
    destruct (CodeGeneratorWorkflow.model_invoke c) as [?|e0]; [discriminate|].
    destruct (is_Exception e0) eqn:He; [discriminate|].
    intros H; inversion H; subst; assumption.
  - unfold SyntaxCheckerNode._execute.
    destruct (negb _); [discriminate|].
    destruct (SyntaxCheckerNode.check _ _) as [[? ?]|e0]; [discriminate|].
    destruct (is_Exception e0) eqn:He; [discriminate|].
    intros H; inversion H; subst; assumption.
  - unfold CodeRectifierNode._execute.
    destruct (_ || _); [discriminate|].
    destruct (_ >=? _)%Z; [discriminate|].
    destruct (CodeRectifier.rectify_code _ _ _ _) as [response|e0].
    + destruct (CodeRectifier.rectified_code response); [destruct (_ && _)|]; discriminate.
    + destruct (is_Exception e0) eqn:He; [discriminate|].
      intros H; inversion H; subst; assumption.
  - unfold CodeExecutorNode._execute.
    destruct (negb _); [discriminate|].
    destruct (CodeExecutorNode.dispatch _ _) as [?|e0]; [discriminate|].
    destruct (is_Exception e0) eqn:He; [discriminate|].
    intros H; inversion H; subst; assumption.
Qed.

End NodeFacts.

(** ** The drive loop *)
Section DriveLoop.
Import CodeGeneratorWorkflow Spec.


(** After a node returned, the loop either finishes or follows one of the
    edges of [hop]; the unmapped-token case does not arise. *)
Lemma step_destination n c s s' :
  run_node n c s = Ok s' ->
  retry_count s' = retry_count s
  /\ (rectification_attempts s <= rectification_attempts s' <= rectification_attempts s + 1)%Z
  /\ ((3 <= rectification_attempts s)%Z -> rectification_attempts s' = rectification_attempts s)
  /\ (edges n (route n s') = Some Finish
      \/ exists n', edges n (route n s') = Some (Next n')
                    /\ hop n (rectification_attempts s) n' (rectification_attempts s')).
Proof.
  destruct n; simpl; intros H.
  - apply generator_step in H. destruct H as [[H|H] [Ha Hr]];
      unfold _route_from_generator; rewrite H, Ha, Hr;
      repeat split; try lia; [right; eexists; split; [reflexivity|constructor]|left; reflexivity].
  - apply checker_step in H. destruct H as [[H|[H|H]] [Ha Hr]];
      unfold _route_from_syntax_checker; rewrite H, Ha, Hr;
      repeat split; try lia;
      [right; eexists; split; [reflexivity|constructor]
      |right; eexists; split; [reflexivity|constructor]
      |left; reflexivity].
  - apply rectifier_step in H. destruct H as [Hr [[H [Ha H3]]|[H [Ha H3]]]];
      unfold _route_from_rectifier; rewrite H.
    + repeat split; try lia; try assumption.
      left. destruct (_ || _); reflexivity.
    + repeat split; try lia.
      destruct (_ || _) eqn:Hg; [left; reflexivity|].
      right. eexists; split; [reflexivity|].
      apply orb_false_elim in Hg. destruct Hg as [_ Hg].
      rewrite Z.geb_leb in Hg. apply Z.leb_gt in Hg.
      rewrite Ha. constructor. lia.
  - apply executor_step in H. destruct H as [[H|H] [Ha Hr]];
      unfold _route_from_executor; rewrite H, Ha, Hr;
      repeat split; try lia; [right; eexists; split; [reflexivity|constructor]|left; reflexivity].
Qed.

Lemma hop_budget n a n' a' :
  hop n a n' a' -> (S (budget n' a') <= budget n a)%nat.
Proof.
  intros H; destruct H; unfold budget; lia.
Qed.

Lemma budget_positive n a : (1 <= budget n a)%nat.
Proof. destruct n; unfold budget; lia. Qed.

(** With a recursion limit of at least the budget, the loop makes at most
    [budget] invocations and stops properly. *)
Lemma drive_within_budget limit :
  forall env k n s,
    (budget n (rectification_attempts s) <= limit)%nat ->
    (List.length (fst (drive limit env k n s)) <= budget n (rectification_attempts s))%nat
    /\ stops_properly (snd (drive limit env k n s)).
Proof.
  induction limit as [|limit IH]; intros env k n s Hb.
  - pose proof (budget_positive n (rectification_attempts s)). lia.
  - pose proof (budget_positive n (rectification_attempts s)) as Hpos.
    simpl. destruct (run_node n (env k) s) as [s'|e] eqn:Hrun.
    + destruct (step_destination _ _ _ _ Hrun) as [_ [_ [_ [Hf|[n' [Hn Hhop]]]]]].
      * rewrite Hf. simpl. split; [lia|exact I].
      * rewrite Hn. apply hop_budget in Hhop.
        specialize (IH env (S k) n' s').
        destruct (drive limit env (S k) n' s') as [steps e]. simpl in *.
        destruct IH as [Hlen Hend]; [lia|]. split; [lia|assumption].
    + simpl. split; [lia|]. eapply node_lets_through; eassumption.
Qed.

(** Whatever the recursion limit, the attempt counter of every state the
    loop produces stays between 0 and 3 when it starts there. *)
Lemma drive_keeps_ceiling limit :
  forall env k n s,
    (0 <= rectification_attempts s <= 3)%Z ->
    forallb within_ceiling (fst (drive limit env k n s)) = true
    /\ match snd (drive limit env k n s) with
       | ReachedEnd st => (0 <= rectification_attempts st <= 3)%Z
       | _ => True
       end.
Proof.
  induction limit as [|limit IH]; intros env k n s Ha.
  - simpl. auto.
  - simpl. destruct (run_node n (env k) s) as [s'|e] eqn:Hrun.
    + destruct (step_destination _ _ _ _ Hrun) as [_ [Hstep [H3 Hdest]]].
      assert (Ha' : (0 <= rectification_attempts s' <= 3)%Z).
      { destruct (Z_lt_le_dec (rectification_attempts s) 3); [lia|]. rewrite H3; lia. }
      assert (Hw : within_ceiling (mk_step n (Ok s')) = true).
      { unfold within_ceiling; simpl.
        apply andb_true_intro; split; apply Z.leb_le; lia. }
      destruct (edges n (route n s')) as [[n'|]|].
      * specialize (IH env (S k) n' s' Ha').
        destruct (drive limit env (S k) n' s') as [steps e].
        cbn [fst snd forallb] in *.
        destruct IH as [Hall Hend]. rewrite Hall, Hw. auto.
      * cbn [fst snd forallb]. rewrite Hw. auto.
      * cbn [fst snd forallb]. rewrite Hw. auto.
    + simpl. auto.
Qed.

(** The loop started in [s0] goes through every invocation that [reaches]
    describes, and continues from there. *)
Lemma drive_from_reached env s0 k n s :
  reaches env s0 k n s ->
  forall limit,
    exists prefix,
      List.length prefix = k
      /\ drive (k + limit) env 0 generator s0
         = (prefix ++ fst (drive limit env k n s), snd (drive limit env k n s)).
Proof.
  induction 1 as [|k n s s' n' Hreach IH Hrun Hedge]; intros limit.
  - exists []. split; [reflexivity|].
    simpl. destruct (drive limit env 0 generator s0); reflexivity.
  - destruct (IH (S limit)) as [prefix [Hlen Hdrive]].
    exists (prefix ++ [mk_step n (Ok s')]). split.
    + rewrite length_app. simpl. lia.
    + replace (S k + limit)%nat with (k + S limit)%nat by lia.
      rewrite Hdrive. cbn [drive]. rewrite Hrun, Hedge.
      destruct (drive limit env (S k) n' s') as [steps e]. cbn [fst snd].
      rewrite <- app_assoc. reflexivity.
Qed.

(** Each invocation reached leaves room for the budget of its node within
    the 10 invocations of a run, and has fewer than 3 attempts counted. *)
Lemma reached_budget env s0 k n s :
  rectification_attempts s0 = 0%Z ->
  reaches env s0 k n s ->
  (k + budget n (rectification_attempts s) <= 10)%nat
  /\ (0 <= rectification_attempts s < 3)%Z.
Proof.
  intros H0. induction 1 as [|k n s s' n' Hreach IH Hrun Hedge].
  - rewrite H0. simpl. lia.
  - destruct IH as [Hb Ha].
    destruct (step_destination _ _ _ _ Hrun) as [_ [Hstep [_ [Hf|[n'' [Hn Hhop]]]]]].
    + rewrite Hf in Hedge. discriminate.
    + rewrite Hn in Hedge. inversion Hedge; subst n''.
      pose proof (hop_budget _ _ _ _ Hhop) as Hdec.
      split; [lia|]. inversion Hhop; subst; lia.
Qed.

End DriveLoop.

(** ** Termination and the attempt ceiling *)
Section Termination.
Import CodeGeneratorWorkflow Spec.

(** The guard of [_route_from_rectifier]. *)
Lemma guard_forces_end (s : CodeGenerationState) :
  if (retry_count s >=? 3)%Z || (rectification_attempts s >=? 3)%Z
  then _route_from_rectifier s = END
  else _route_from_rectifier s = current_node s.
Proof.
  unfold _route_from_rectifier. destruct (_ || _); reflexivity.
Qed.

(** C1. For every prompt and every behaviour of the model, the linter, the
    formatters and the executor, the drive loop started by [run] makes at
    most 10 node invocations (within the bound of about 12) whenever
    the recursion limit allows 10, as the default of 25 does.  It then has
    reached [END], unless a collaborator raised an exception outside
    [Exception], which aborts the loop; the recursion limit is never what
    stops it and no routing token lacks an edge.  At the rectifier exit the
    routing function answers [END] as soon as [retry_count >= 3] or
    [rectification_attempts >= 3], and the node's token otherwise. *)
Theorem run_stops_within_ten_node_invocations :
  forall (env : nat -> collaborators) (user_prompt : string)
         (requirements : option string) (limit : nat) (s : CodeGenerationState),
    (10 <= limit)%nat ->
    (List.length
       (fst (drive limit env 0 generator (initial_state user_prompt requirements)))
     <= 10)%nat
    /\ stops_properly
         (snd (drive limit env 0 generator (initial_state user_prompt requirements)))
    /\ (if (retry_count s >=? 3)%Z || (rectification_attempts s >=? 3)%Z
        then _route_from_rectifier s = END
        else _route_from_rectifier s = current_node s).
Proof.
  intros env user_prompt requirements limit s Hlimit.
  destruct (drive_within_budget limit env 0%nat generator
              (initial_state user_prompt requirements)) as [Hlen Hstop].
  - simpl. exact Hlimit.
  - split; [exact Hlen|]. split; [exact Hstop|]. apply guard_forces_end.
Qed.

(** A run in which the code fails three times with a missing import and is
    rectified three times: the bound of 10 invocations is met. *)
Example ten_invocations_happen :
  map step_node
      (fst (drive recursion_limit
              (steady "print(math.pi)" (CodeRectifier.ContentText "sorry")
                      (failing_with math_undefined))
              0 generator (initial_state "pi" None)))
  = [generator; checker; executor; rectifier; checker; executor; rectifier;
     checker; executor; rectifier].
Proof. vm_compute. reflexivity. Qed.

Lemma run_stops_within_ten_node_invocations_witness :
  (List.length
     (fst (drive recursion_limit
             (steady "print(math.pi)" (CodeRectifier.ContentText "sorry")
                     (failing_with math_undefined))
             0 generator (initial_state "pi" None)))
   <= 10)%nat
  /\ stops_properly
       (snd (drive recursion_limit
               (steady "print(math.pi)" (CodeRectifier.ContentText "sorry")
                       (failing_with math_undefined))
               0 generator (initial_state "pi" None)))
  /\ (if (retry_count (initial_state "pi" None) >=? 3)%Z
         || (rectification_attempts (initial_state "pi" None) >=? 3)%Z
      then _route_from_rectifier (initial_state "pi" None) = END
      else _route_from_rectifier (initial_state "pi" None)
           = current_node (initial_state "pi" None)).
Proof.
  apply (run_stops_within_ten_node_invocations
           (steady "print(math.pi)" (CodeRectifier.ContentText "sorry")
                   (failing_with math_undefined))
           "pi" None recursion_limit (initial_state "pi" None)).
  unfold recursion_limit. lia.
Defined.

(** C2. In every state a run produces, and in the state of the report it
    returns, [rectification_attempts] is between 0 and 3, whatever the
    collaborators do and whatever the recursion limit.  One invocation of
    [CodeRectifierNode._execute] adds at most 1 to the counter; started
    with the counter at 3 or more it leaves the counter alone and routes to
    [END]; and the routing function of the rectifier exit answers [END] when
    the counter is at least 3. *)
Theorem rectification_attempts_never_exceed_three :
  forall (env : nat -> collaborators) (user_prompt : string)
         (requirements : option string) (limit : nat)
         (p : CodeRectifier.parser) (reply : CodeRectifier.ai_reply)
         (s : CodeGenerationState),
    forallb within_ceiling
      (fst (drive limit env 0 generator (initial_state user_prompt requirements)))
    = true
    /\ match run env user_prompt requirements with
       | Ok report =>
           (0 <= rectification_attempts (final_state report) <= 3)%Z
       | Raise _ => True
       end
    /\ match CodeRectifierNode._execute p reply s with
       | Ok s' =>
           (rectification_attempts s <= rectification_attempts s'
            <= rectification_attempts s + 1)%Z
           /\ (if (3 <=? rectification_attempts s)%Z
               then rectification_attempts s' = rectification_attempts s
                    /\ current_node s' = END
               else True)
       | Raise _ => True
       end
    /\ (if (3 <=? rectification_attempts s)%Z
        then _route_from_rectifier s = END else True).
Proof.
  intros env user_prompt requirements limit p reply s.
  assert (H0 : (0 <= rectification_attempts (initial_state user_prompt requirements) <= 3)%Z)
    by (simpl; lia).
  split; [apply (drive_keeps_ceiling limit env 0%nat generator _ H0)|].
  split.
  { unfold run, run_body, invoke.
    pose proof (proj2 (drive_keeps_ceiling recursion_limit env 0%nat generator _ H0)) as H.
    destruct (snd (drive recursion_limit env 0 generator
                     (initial_state user_prompt requirements))) as [st|e| |];
      simpl.
    - exact H.
    - destruct (is_Exception e); simpl; [lia|exact I].
    - lia.
    - lia. }
  split.
  { destruct (CodeRectifierNode._execute p reply s) as [s'|e] eqn:Hrun; [|exact I].
    apply rectifier_step in Hrun.
    destruct Hrun as [_ [[Hend [Hstep H3]]|[Hnext [Hstep Hlt]]]].
    - split; [exact Hstep|].
      destruct (3 <=? rectification_attempts s)%Z eqn:Hc; [|exact I].
      apply Z.leb_le in Hc. split; [apply H3; exact Hc|exact Hend].
    - split; [lia|].
      destruct (3 <=? rectification_attempts s)%Z eqn:Hc; [|exact I].
      apply Z.leb_le in Hc. lia. }
  destruct (3 <=? rectification_attempts s)%Z eqn:Hc; [|exact I].
  apply Z.leb_le in Hc. unfold _route_from_rectifier.
  replace (rectification_attempts s >=? 3)%Z with true.
  - rewrite orb_true_r. reflexivity.
  - symmetry. rewrite Z.geb_leb. apply Z.leb_le. exact Hc.
Qed.

End Termination.

(** ** The result finalizer and the handler of [run] *)
Section Finalizer.
Import CodeGeneratorWorkflow Spec.

(** What the status computed by [_process_final_result] depends on. *)
Lemma workflow_status_completed_iff (s : CodeGenerationState) :
  workflow_status (_process_final_result s)
  = if succeeded (execution_results s) || PyStr.truthy (active_code s)
    then "completed" else "failed".
Proof.
  unfold _process_final_result, workflow_success; simpl.
  destruct (succeeded (execution_results s)); simpl; [reflexivity|].
  destruct (PyStr.truthy (active_code s)); simpl.
  - destruct (negb (has_error (execution_results s))); reflexivity.
  - reflexivity.
Qed.

(** The status follows [workflow_success] in every state except those with
    code, no success and a recorded error. *)
Lemma workflow_status_follows_success (s : CodeGenerationState) :
  succeeded (execution_results s)
  || negb (has_error (execution_results s))
  || negb (PyStr.truthy (active_code s)) = true ->
  workflow_status (_process_final_result s)
  = if workflow_success s then "completed" else "failed".
Proof.
  rewrite workflow_status_completed_iff. unfold workflow_success.
  destruct (succeeded (execution_results s)); simpl; [reflexivity|].
  destruct (has_error (execution_results s)); simpl;
    destruct (PyStr.truthy (active_code s)); simpl;
    intros H; try reflexivity; discriminate.
Qed.

(** C3. The terminal state [failed_execution] is the one the run on
    [print(1/0)] ends in.  Its execution result records no success and an
    error, and its active code is not empty: [workflow_success] is false
    and the analysis section of the report is the one of a failed
    execution, yet [workflow_status] is ["completed"], where the specification
    requires ["failed"]. *)
Theorem finalizer_reports_completed_despite_recorded_error :
  snd (drive recursion_limit
         (steady "print(1/0)" (CodeRectifier.ContentText "sorry")
                 (failing_with division_by_zero))
         0 generator (initial_state "divide" None))
  = ReachedEnd failed_execution
  /\ succeeded (execution_results failed_execution) = false
  /\ has_error (execution_results failed_execution) = true
  /\ PyStr.truthy (active_code failed_execution) = true
  /\ workflow_success failed_execution = false
  /\ workflow_status (_process_final_result failed_execution) = "completed"
  /\ final_result (_process_final_result failed_execution)
     = Report "print(1/0)" generic_explanation (execution_results failed_execution)
         (ExecutionFailed (er_error (execution_results failed_execution)) 1 false) 0.
Proof. vm_compute. repeat split; reflexivity. Qed.

(** C4, as stated, fails: when the model call is interrupted from the
    keyboard, the exception leaves the generator node, the drive loop and
    [run] itself. *)
Lemma run_lets_keyboard_interrupt_through :
  invoke interrupted (initial_state "add two numbers" None) = Raise interrupt
  /\ run interrupted "add two numbers" None = Raise interrupt.
Proof. vm_compute. split; reflexivity. Qed.

(** C4, amended. Whatever the workflow invocation raises, [run] returns the
    report with [workflow_status = "failed"] and the synthesized error
    message if the exception derives from [Exception], and lets it through
    to its caller if it does not ([KeyboardInterrupt], [SystemExit]); so
    an exception that leaves [run] never derives from [Exception]. *)
Theorem run_catches_what_derives_from_Exception :
  forall (env : nat -> collaborators) (user_prompt : string)
         (requirements : option string) (e : exn),
    (if is_Exception e
     then run_body (initial_state user_prompt requirements) (Raise e)
          = Ok (failure_report (initial_state user_prompt requirements) e)
     else run_body (initial_state user_prompt requirements) (Raise e) = Raise e)
    /\ workflow_status (failure_report (initial_state user_prompt requirements) e)
       = "failed"
    /\ error_message (failure_report (initial_state user_prompt requirements) e)
       = Some ("Workflow execution failed: " ++ exn_str e)%string
    /\ run env user_prompt requirements
       = run_body (initial_state user_prompt requirements)
                  (invoke env (initial_state user_prompt requirements))
    /\ match run env user_prompt requirements with
       | Ok _ => True
       | Raise x => is_Exception x = false
       end.
Proof.
  intros env user_prompt requirements e.
  split; [unfold run_body, failure_report; destruct (is_Exception e); reflexivity|].
  split; [reflexivity|]. split; [reflexivity|]. split; [reflexivity|].
  unfold run, run_body.
  destruct (invoke env (initial_state user_prompt requirements)) as [st|x]; [exact I|].
  destruct (is_Exception x) eqn:Hx; [exact I|exact Hx].
Qed.

End Finalizer.

(** ** The execution back ends *)
Section Streams.
Import PyRuntime Spec.

Lemma do_action_private n0 h0 (a : action) (w : world) :
  private_from n0 h0 w -> private_from n0 h0 (do_action w a).
Proof.
  intros (Hout & Herr & Hnext & Hheap).
  destruct a as [which text|which [stringio|other]]; simpl.
  - unfold private_from, write; simpl. repeat split; try assumption.
    intros o Ho. unfold update.
    destruct (Nat.eqb_spec o (bound w which)) as [->|_]; [|apply Hheap; exact Ho].
    destruct which; simpl in Ho; lia.
  - destruct which; unfold private_from; simpl; repeat split; try lia;
      intros o Ho; unfold update;
      (destruct (Nat.eqb_spec o (next_obj w)) as [->|_]; [lia|apply Hheap; exact Ho]).
  - destruct which, other; unfold private_from; simpl; repeat split; assumption.
Qed.

Lemma actions_private n0 h0 (l : list action) :
  forall w, private_from n0 h0 w -> private_from n0 h0 (fold_left do_action l w).
Proof.
  induction l as [|a l IH]; intros w H; simpl; [exact H|].
  apply IH. apply do_action_private. exact H.
Qed.

Lemma actions_keep_log (l : list action) :
  forall w, exec_log (fold_left do_action l w) = exec_log w.
Proof.
  induction l as [|a l IH]; intros w; simpl; [reflexivity|].
  rewrite IH. destruct a as [which text|which [stringio|other]]; simpl;
    try reflexivity; destruct which; reflexivity.
Qed.

(** Writing without rebinding: the two names stay where they are and the
    objects they are bound to receive the text, in order. *)
Lemma writes_accumulate (l : list action) :
  forall w,
    forallb is_write l = true ->
    sys_stdout w <> sys_stderr w ->
    sys_stdout (fold_left do_action l w) = sys_stdout w
    /\ sys_stderr (fold_left do_action l w) = sys_stderr w
    /\ contents (heap (fold_left do_action l w) (sys_stdout w))
       = (contents (heap w (sys_stdout w)) ++ written Stdout l)%string
    /\ is_StringIO (heap (fold_left do_action l w) (sys_stdout w))
       = is_StringIO (heap w (sys_stdout w)).
Proof.
  assert (app_nil : forall t : string, (t ++ "")%string = t)
    by (induction t as [|c t IHt]; simpl; [|rewrite IHt]; reflexivity).
  assert (app_assoc : forall a b c : string,
             ((a ++ b) ++ c)%string = (a ++ b ++ c)%string)
    by (induction a as [|x a IHa]; intros; simpl; [|rewrite IHa]; reflexivity).
  induction l as [|a l IH]; intros w Hw Hne; simpl.
  - rewrite app_nil. auto.
  - simpl in Hw. apply andb_prop in Hw. destruct Hw as [Ha Hl].
    destruct a as [which text|]; [|discriminate]. simpl.
    destruct (IH (write w (bound w which) text) Hl) as (H1 & H2 & H3 & H4);
      [exact Hne|].
    simpl in *. rewrite H1, H2, H3, H4. repeat split.
    + unfold update. destruct which; simpl.
      * rewrite Nat.eqb_refl. simpl. apply app_assoc.
      * destruct (Nat.eqb_spec (sys_stdout w) (sys_stderr w)); [contradiction|reflexivity].
    + unfold update. destruct which; simpl.
      * rewrite Nat.eqb_refl. reflexivity.
      * destruct (Nat.eqb_spec (sys_stdout w) (sys_stderr w)); [contradiction|reflexivity].
Qed.

(** C10. For every snippet, every behaviour of the interpreter on it and
    every state of the streams, after [fastapi_executor.execute_code] the
    names [sys.stdout] and [sys.stderr] are bound to the objects they were
    bound to before the call: when the snippet returns, when it raises an
    exception that is caught, and when it raises one that is let through.
    No stream object that existed before the call (object [o]) has
    received anything: what the snippet wrote through the two names went
    to objects created during the call.  The snippet was handed to the
    interpreter once. *)
Theorem execute_code_restores_the_streams :
  forall (python : interpreter) (code : string) (w : world) (o : obj),
    (o < next_obj w)%nat ->
    sys_stdout (fst (fastapi_executor.execute_code python code w)) = sys_stdout w
    /\ sys_stderr (fst (fastapi_executor.execute_code python code w)) = sys_stderr w
    /\ heap (fst (fastapi_executor.execute_code python code w)) o = heap w o
    /\ exec_log (fst (fastapi_executor.execute_code python code w))
       = exec_log w ++ [code].
Proof.
  intros python code w o Ho.
  unfold fastapi_executor.execute_code, exec. cbn [new_stream].
  set (w2 := logged _ code).
  assert (Hp : private_from (next_obj w) (heap w)
                 (fold_left do_action (actions (python EmptyGlobals code)) w2)).
  { apply actions_private. unfold private_from, w2; simpl. repeat split; try lia.
    intros o' Ho'. unfold update.
    destruct (Nat.eqb_spec o' (S (next_obj w))); [lia|].
    destruct (Nat.eqb_spec o' (next_obj w)); [lia|reflexivity]. }
  destruct Hp as (_ & _ & _ & Hheap).
  cbn [fst rebind sys_stdout sys_stderr heap exec_log].
  repeat split.
  - apply Hheap. exact Ho.
  - rewrite actions_keep_log. reflexivity.
Qed.

Lemma execute_code_restores_the_streams_witness :
  sys_stdout (fst (fastapi_executor.execute_code
                     (failing_with division_by_zero) "print(1/0)" quiet_world))
  = sys_stdout quiet_world
  /\ sys_stderr (fst (fastapi_executor.execute_code
                        (failing_with division_by_zero) "print(1/0)" quiet_world))
     = sys_stderr quiet_world
  /\ heap (fst (fastapi_executor.execute_code
                  (failing_with division_by_zero) "print(1/0)" quiet_world)) 0%nat
     = heap quiet_world 0%nat
  /\ exec_log (fst (fastapi_executor.execute_code
                      (failing_with division_by_zero) "print(1/0)" quiet_world))
     = exec_log quiet_world ++ ["print(1/0)"].
Proof.
  apply (execute_code_restores_the_streams
           (failing_with division_by_zero) "print(1/0)" quiet_world 0%nat).
  simpl. lia.
Defined.

(** What a snippet that only writes and returns leaves in the result: the
    text it wrote through [sys.stdout]. *)
Lemma execute_code_captures_output (python : interpreter) (code : string) (w : world) :
  forallb is_write (actions (python EmptyGlobals code)) = true ->
  ending (python EmptyGlobals code) = Ok tt ->
  snd (fastapi_executor.execute_code python code w)
  = Ok (fastapi_executor.mk_dict true
          (written Stdout (actions (python EmptyGlobals code))) "").
Proof.
  intros Hw Hend.
  unfold fastapi_executor.execute_code, exec. cbn [new_stream].
  set (w2 := logged _ code).
  destruct (writes_accumulate _ w2 Hw) as (H1 & _ & H3 & H4).
  { unfold w2; simpl. lia. }
  cbn [snd]. rewrite Hend, H1.
  unfold w2 in H3, H4 |- *. simpl in H3, H4 |- *.
  rewrite H4, H3. unfold update. rewrite Nat.eqb_refl.
  destruct (Nat.eqb_spec (next_obj w) (S (next_obj w))); [lia|]. reflexivity.
Qed.

End Streams.

Section Denylist.
Import PyRuntime Spec sandbox_executor.

(** When the snippet does not open with [#], the safety loop refuses it as
    soon as it holds one of the names enumerated, whatever the order of
    enumeration, and the interpreter is not called. *)
Lemma execute_code_refuses_denylisted (order : list string) (python : interpreter)
    (elapsed : Q) (code : string) (w : world) (name : string) :
  In name order ->
  PyStr.contains code name = true ->
  PyStr.startswith (PyStr.strip code) "#" = false ->
  exists restricted,
    In restricted order
    /\ PyStr.contains code restricted = true
    /\ SafeCodeExecutor.execute_code order python elapsed code w
       = (w, Ok (mk_dict false ""
                   (Some ("Restricted function '" ++ restricted ++ "' not allowed")%string)
                   elapsed)).
Proof.
  intros Hin Hc Hs. unfold SafeCodeExecutor.execute_code.
  destruct (find (SafeCodeExecutor.refused code) order) as [restricted|] eqn:Hf.
  - apply find_some in Hf. destruct Hf as [Hr Hp].
    exists restricted. split; [exact Hr|]. split; [|reflexivity].
    unfold SafeCodeExecutor.refused in Hp. apply andb_prop in Hp. tauto.
  - exfalso. apply (find_none _ _ Hf) in Hin.
    unfold SafeCodeExecutor.refused in Hin. rewrite Hc, Hs in Hin. discriminate.
Qed.

(** A snippet that opens with [#] passes the safety loop, whatever it
    holds. *)
Lemma comment_first_passes (order : list string) (code : string) :
  PyStr.startswith (PyStr.strip code) "#" = true ->
  find (SafeCodeExecutor.refused code) order = None.
Proof.
  intros Hs. induction order as [|r order IH]; simpl; [reflexivity|].
  unfold SafeCodeExecutor.refused at 1. rewrite Hs, andb_false_r. exact IH.
Qed.

(** C7. The snippet [commented_eval] holds a call of the denylisted [eval]
    on its third line, which is not a comment.  Because its first line is
    one, [SafeCodeExecutor.execute_code] does not refuse it, whatever the
    order in which the denylist is enumerated: the snippet is handed to the
    interpreter, and as the interpreter defines the function and prints,
    the executor reports success.  The specification requires a refusal naming
    [eval] before anything is executed. *)
Theorem execute_code_runs_denylisted_code_after_a_comment :
  forall (order : list string) (python : interpreter) (elapsed : Q) (w : world),
    In "eval" SafeCodeExecutor.restricted_functions
    /\ PyStr.contains commented_eval "eval" = true
    /\ PyStr.split_lines commented_eval
       = ["# helper"; "def twice(s):"; "    return eval(s) * 2"; "print('ready')"]
    /\ find (SafeCodeExecutor.refused commented_eval) order = None
    /\ exec_log (fst (SafeCodeExecutor.execute_code order python elapsed commented_eval w))
       = exec_log w ++ [commented_eval]
    /\ snd (SafeCodeExecutor.execute_code order runs_commented_eval elapsed
              commented_eval quiet_world)
       = Ok (mk_dict true ("ready" ++ PyStr.nl)%string None elapsed).
Proof.
  intros order python elapsed w.
  assert (Hpass : find (SafeCodeExecutor.refused commented_eval) order = None)
    by (apply comment_first_passes; reflexivity).
  split; [simpl; tauto|]. split; [reflexivity|]. split; [reflexivity|].
  split; [exact Hpass|].
  unfold SafeCodeExecutor.execute_code. rewrite Hpass.
  unfold exec. cbn [new_stream]. split.
  - destruct (ending (python RestrictedGlobals commented_eval)) as [u|e];
      [|destruct (is_Exception e)];
      cbn [fst rebind exec_log]; rewrite actions_keep_log; reflexivity.
  - reflexivity.
Qed.

(** Without the comment line the same code is refused. *)
Example execute_code_refuses_the_same_code_without_comment :
  SafeCodeExecutor.execute_code SafeCodeExecutor.restricted_functions
    runs_commented_eval 0 (PyStr.drop 9 commented_eval) quiet_world
  = (quiet_world,
     Ok (mk_dict false "" (Some "Restricted function 'eval' not allowed") 0)).
Proof. reflexivity. Qed.

End Denylist.

(** ** Strings and lines *)
Section Lines.
Import PyStr.

Lemma split_lines_nonempty (s : string) : split_lines s <> [].
Proof.
  destruct s as [|c s]; simpl; [discriminate|].
  destruct (Ascii.eqb c newline); [discriminate|].
  destruct (split_lines s); discriminate.
Qed.

(** [split] and [join] on the newline are inverse. *)
Lemma join_split_lines (s : string) : join nl (split_lines s) = s.
Proof.
  induction s as [|c s IH]; [reflexivity|].
  simpl. destruct (Ascii.eqb_spec c newline) as [->|Hc].
  - unfold join in *. simpl.
    destruct (split_lines s) as [|l ls] eqn:Hs;
      [exfalso; exact (split_lines_nonempty s Hs)|].
    rewrite IH. reflexivity.
  - unfold join in *.
    destruct (split_lines s) as [|l ls] eqn:Hs;
      [exfalso; exact (split_lines_nonempty s Hs)|].
    simpl in *. destruct ls as [|l' ls]; simpl in *; rewrite <- IH; reflexivity.
Qed.

Lemma length_append (a b : string) :
  String.length (a ++ b) = (String.length a + String.length b)%nat.
Proof. induction a as [|c a IH]; simpl; [|rewrite IH]; reflexivity. Qed.

Lemma length_concat (sep : string) (ls : list string) :
  ls <> [] ->
  (String.length (String.concat sep ls) + String.length sep)%nat
  = list_sum (map (fun l => (String.length l + String.length sep)%nat) ls).
Proof.
  induction ls as [|l ls IH]; intros Hne; [contradiction|].
  destruct ls as [|l' ls].
  - simpl. lia.
  - assert (Hne' : l' :: ls <> []) by discriminate.
    specialize (IH Hne').
    change (String.concat sep (l :: l' :: ls))
      with (l ++ sep ++ String.concat sep (l' :: ls))%string.
    rewrite !length_append.
    change (map (fun l0 => (String.length l0 + String.length sep)%nat) (l :: l' :: ls))
      with ((String.length l + String.length sep)%nat
            :: map (fun l0 => (String.length l0 + String.length sep)%nat) (l' :: ls)).
    cbn [list_sum fold_right]. unfold list_sum in IH. lia.
Qed.

(** Inserting a line makes the joined text longer by the line and one
    separator. *)
Lemma length_join_insert (x : string) (ls : list string) (i : nat) :
  ls <> [] ->
  String.length (join nl (list_insert i x ls))
  = (String.length (join nl ls) + String.length x + 1)%nat.
Proof.
  intros Hne. unfold join, list_insert.
  assert (Hins : firstn i ls ++ x :: skipn i ls <> [])
    by (destruct (firstn i ls); discriminate).
  pose proof (length_concat nl _ Hins) as H1.
  pose proof (length_concat nl _ Hne) as H2.
  rewrite map_app, list_sum_app in H1. cbn [map list_sum fold_right] in H1.
  rewrite <- (firstn_skipn i ls) in H2 at 2.
  rewrite map_app, list_sum_app in H2.
  unfold list_sum in *. simpl String.length in *. lia.
Qed.

Lemma prefix_lower (p s : string) :
  prefix p s = true -> prefix (lower p) (lower s) = true.
Proof.
  revert s. induction p as [|c p IH]; intros s H; [destruct s; reflexivity|].
  destruct s as [|d s]; [discriminate|]. simpl in *.
  destruct (ascii_dec c d) as [->|Hne]; [|discriminate].
  destruct (ascii_dec (lower_char d) (lower_char d)); [|contradiction].
  apply IH. exact H.
Qed.

(** A text found in a message is found in lower case in the lowered
    message. *)
Lemma contains_lower (s sub : string) :
  contains s sub = true -> contains (lower s) (lower sub) = true.
Proof.
  induction s as [|c s IH]; cbn [contains lower]; intros H.
  - apply orb_prop in H. destruct H as [H|H]; [|discriminate].
    pose proof (prefix_lower _ _ H) as H'. cbn [lower] in H'.
    rewrite H'. reflexivity.
  - apply orb_prop in H. destruct H as [H|H].
    + pose proof (prefix_lower _ _ H) as H'. cbn [lower] in H'.
      rewrite H'. reflexivity.
    + rewrite (IH H). apply orb_true_r.
Qed.

End Lines.

(** ** The rectifier engine *)
Section RectifierEngine.
Import CodeRectifier Spec.

Variables (p : parser) (reply : ai_reply) (code error_message : string).

Lemma first_fix_total (ty : string) (patterns : list (string * fix_func)) :
  Forall (fun entry => forall e, snd entry code error_message = Raise e ->
                                 is_Exception e = true) patterns ->
  exists res, first_fix patterns code error_message ty = Ok res.
Proof.
  induction 1 as [|[pattern f] rest Hf _ IH]; simpl; [eauto|].
  destruct (triggers pattern error_message ty); [|exact IH].
  destruct (f code error_message) as [r|e] eqn:Hr; [eauto|].
  simpl in Hf. rewrite (Hf e Hr). exact IH.
Qed.

(** The pattern step returns unless the parser raises outside
    [Exception]. *)
Lemma pattern_fixes_return (ty : string) :
  parser_behaves p code = true ->
  exists res, _apply_pattern_fixes p code error_message ty = Ok res.
Proof.
  intros Hp. apply first_fix_total. unfold error_patterns.
  repeat constructor; simpl; intros e H; try discriminate.
  unfold _analyze_syntax_error in H. unfold parser_behaves in Hp.
  destruct (p code) as [u|e0]; [discriminate|].
  destruct (is_SyntaxError e0).
  - destruct (PyStr.contains _ _); [discriminate|].
    destruct (PyStr.contains _ _); discriminate.
  - inversion H; subst. exact Hp.
Qed.

Lemma all_str_map_JStr (l : list string) : all_str (map JStr l) = Some l.
Proof. induction l as [|x l IH]; simpl; [|rewrite IH]; reflexivity. Qed.

Lemma all_str_app (a b : list jval) (x y : list string) :
  all_str a = Some x -> all_str b = Some y -> all_str (a ++ b) = Some (x ++ y).
Proof.
  revert x. induction a as [|v a IH]; simpl; intros x Ha Hb.
  - inversion Ha; subst. exact Hb.
  - destruct v; try discriminate.
    destruct (all_str a) as [r|]; [|discriminate].
    inversion Ha; subst. rewrite (IH r eq_refl Hb). reflexivity.
Qed.

Lemma all_str_chars (s : string) : exists l, all_str (chars s) = Some l.
Proof.
  induction s as [|c s [l IH]]; simpl; [eauto|]. rewrite IH. eauto.
Qed.

Lemma all_str_keys (l : list (string * jval)) :
  forall seen, exists r, all_str (nodup_keys seen l) = Some r.
Proof.
  induction l as [|[k v] l IH]; intros seen; simpl; [eauto|].
  destruct (existsb (String.eqb k) seen); [apply IH|].
  simpl. destruct (IH (k :: seen)) as [r Hr]. rewrite Hr. eauto.
Qed.

Lemma jget_object (l : list (string * jval)) (k : string) (d : jval) :
  jget (JObj l) k d = Ok (field_or (JObj l) k d).
Proof.
  unfold jget, field_or, field. destruct (assoc_last k l); reflexivity.
Qed.

(** The [success] field of a response is computed from the code it
    carries. *)
Lemma make_response_success (fc : jval) (ch : list jval) (an : ErrorAnalysis)
    (conf : Q) (r : CodeRectificationResponse) :
  make_response (jtruthy fc && negb (jeq_str fc code)) fc ch an conf = Ok r ->
  success r = changed (rectified_code r) code
  /\ rectified_code r = as_code fc
  /\ confidence_score r = conf.
Proof.
  unfold make_response. destruct (all_str ch); [|discriminate].
  destruct fc; try discriminate; intros H; inversion H; subst; simpl; auto.
Qed.

Lemma make_response_returns (b : bool) (fc : jval) (ch : list jval)
    (an : ErrorAnalysis) (conf : Q) (strs : list string) :
  code_field_ok (Some fc) = true ->
  all_str ch = Some strs ->
  exists r, make_response b fc ch an conf = Ok r.
Proof.
  intros Hc Hs. unfold make_response. rewrite Hs.
  destruct fc; try discriminate; eauto.
Qed.

(** A well-formed reply makes the escalation return a code that is a
    string or null, and changes that are strings. *)
Lemma escalate_returns (an : ErrorAnalysis) (rc : string) (ch : list string) (conf : Q) :
  reply_well_formed reply = true ->
  exists fc fch fconf strs,
    escalate reply code error_message an rc ch conf = Ok (fc, fch, fconf)
    /\ code_field_ok (Some fc) = true
    /\ all_str fch = Some strs.
Proof.
  intros Hwf.
  assert (Hkeep : exists fc fch fconf strs,
             Ok (JStr rc, map JStr ch, conf) = Ok (fc, fch, fconf)
             /\ code_field_ok (Some fc) = true /\ all_str fch = Some strs).
  { exists (JStr rc), (map JStr ch), conf, ch.
    split; [reflexivity|]. split; [reflexivity|apply all_str_map_JStr]. }
  unfold escalate, _ai_rectify_code.
  destruct reply as [e|v|content]; simpl in Hwf.
  - rewrite Hwf. simpl. exact Hkeep.
  - destruct v as [ |b|q|s|l|l]; cbn [bind]; cbv iota in Hwf;
      try (apply negb_true_iff in Hwf; rewrite Hwf; exact Hkeep).
    destruct (jtruthy (JObj l)) eqn:Ht; [|exact Hkeep].
    rewrite jget_object. cbn [bind].
    destruct (jtruthy (field_or (JObj l) "success" (JBool false))) eqn:Hs;
      [|exact Hkeep].
    simpl in Hwf. apply andb_prop in Hwf. destruct Hwf as [Hwf Hconf].
    apply andb_prop in Hwf. destruct Hwf as [Hcode Hchanges].
    rewrite !jget_object. simpl bind.
    unfold field_or. unfold field in *.
    assert (Hiter : exists more strs,
               jiter (match assoc_last "changes" l with
                      | Some x => x
                      | None => JArr []
                      end) = Ok more /\ all_str more = Some strs).
    { destruct (assoc_last "changes" l) as [[ | | |s|a|o]|]; try discriminate; simpl.
      - destruct (all_str_chars s) as [r Hr].
        eexists _, _; split; [reflexivity|exact Hr].
      - simpl in Hchanges. destruct (all_str a) as [r|] eqn:Hr; [|discriminate].
        eexists _, _; split; [reflexivity|exact Hr].
      - destruct (all_str_keys o []) as [r Hr].
        eexists _, _; split; [reflexivity|exact Hr].
      - eexists _, _; split; reflexivity. }
    destruct Hiter as (more & strs & Hmore & Hstrs). rewrite Hmore. simpl bind.
    assert (Hnum : exists q,
               as_number (match assoc_last "confidence" l with
                          | Some x => x
                          | None => JNum 0.5
                          end) = Ok q).
    { destruct (assoc_last "confidence" l) as [[ |b|q| | | ]|]; try discriminate;
        simpl; eauto. }
    destruct Hnum as [q Hq]. rewrite Hq. simpl bind.
    eexists _, _, _, _. split; [reflexivity|]. split.
    + destruct (assoc_last "code" l) as [[ | | | | | ]|]; try discriminate; reflexivity.
    + apply all_str_app; [apply all_str_map_JStr|exact Hstrs].
  - destruct (PyStr.search_fenced_code content) as [group|]; simpl.
    + eexists _, _, _, _. split; [reflexivity|]. split; [reflexivity|].
      apply all_str_app; [apply all_str_map_JStr|reflexivity].
    + exact Hkeep.
Qed.

(** C5. For every code string and error message, and every behaviour of
    the parser and of the escalation, the response [rectify_code] returns
    has [success] true exactly when the rectified code it carries is not
    empty and differs from the original code.  [rectify_code] returns a
    response whenever the parser does not raise outside [Exception] and the
    escalation reply is well formed; it raises only otherwise. *)
Theorem rectify_code_success_iff_code_changed :
  match rectify_code p reply code error_message with
  | Ok r => success r = changed (rectified_code r) code
  | Raise _ => parser_behaves p code && reply_well_formed reply = false
  end.
Proof.
  unfold rectify_code.
  destruct (_apply_pattern_fixes p code error_message
              (error_type (_analyze_error error_message code)))
    as [[[rc ch] conf]|e] eqn:Hfix; cbn [bind].
  - destruct (needs_escalation rc conf).
    + destruct (escalate reply code error_message _ rc ch conf)
        as [[[fc fch] fconf]|e] eqn:Hesc; cbn [bind].
      * destruct (make_response _ fc fch _ fconf) as [r|e] eqn:Hm.
        -- apply make_response_success in Hm. tauto.
        -- destruct (reply_well_formed reply) eqn:Hwf; [|apply andb_false_r].
           exfalso.
           destruct (escalate_returns (_analyze_error error_message code) rc ch conf Hwf)
             as (fc' & fch' & fconf' & strs & Hesc' & Hc & Hs).
           rewrite Hesc in Hesc'. inversion Hesc'; subst.
           destruct (make_response_returns
                       (jtruthy fc' && negb (jeq_str fc' code)) fc' fch'
                       (_analyze_error error_message code) fconf' strs Hc Hs) as [r Hr].
           rewrite Hr in Hm. discriminate.
      * destruct (reply_well_formed reply) eqn:Hwf; [|apply andb_false_r].
        exfalso.
        destruct (escalate_returns (_analyze_error error_message code) rc ch conf Hwf)
          as (fc' & fch' & fconf' & strs & Hesc' & _).
        rewrite Hesc in Hesc'. discriminate.
    + cbn [bind]. unfold make_response. rewrite all_str_map_JStr.
      reflexivity.
  - destruct (parser_behaves p code) eqn:Hp; [|reflexivity].
    exfalso.
    destruct (pattern_fixes_return (error_type (_analyze_error error_message code)) Hp)
      as [res Hres].
    rewrite Hfix in Hres. discriminate.
Qed.

End RectifierEngine.

Section Escalation.
Import CodeRectifier Spec.

Variables (p : parser) (reply : ai_reply) (code error_message : string).

Lemma as_number_of (v : jval) (q : Q) : as_number v = Ok q -> q = number_of v.
Proof.
  destruct v as [ |[|]| | | | ]; simpl; intros H; inversion H; reflexivity.
Qed.

Lemma add_colons_unchanged (lines : list string) :
  forall i, snd (add_colons i lines) = [] -> fst (add_colons i lines) = lines.
Proof.
  induction lines as [|line rest IH]; intros i; [reflexivity|].
  cbn [add_colons]. specialize (IH (S i)).
  destruct (add_colons (S i) rest) as [lines' changes].
  destruct (_ && _); cbn [fst snd] in *; intros H; [discriminate|].
  rewrite (IH H). reflexivity.
Qed.

Lemma normalize_indentation_unchanged (lines : list string) :
  forall normalized changes,
    snd (normalize_indentation lines normalized changes) = [] ->
    changes = []
    /\ fst (normalize_indentation lines normalized changes) = normalized ++ lines.
Proof.
  induction lines as [|line rest IH]; intros normalized changes; cbn [normalize_indentation].
  - cbn [fst snd]. intros H. rewrite app_nil_r. auto.
  - destruct (PyStr.truthy (PyStr.strip line)).
    + destruct (PyStr.contains _ _).
      * intros H. apply IH in H. destruct H as [H _].
        destruct changes; discriminate.
      * intros H. apply IH in H. rewrite <- app_assoc in H. exact H.
    + intros H. apply IH in H. rewrite <- app_assoc in H. exact H.
Qed.

(** A fix function that answers with a confidence below 0.7 answers with
    the code it was given. *)
Lemma low_confidence_fix_is_no_fix (source message : string) (r : FixResult) :
  In r [_fix_future_imports source message;
        _fix_invalid_syntax source message;
        _fix_indentation_error source message;
        _fix_name_error source message;
        no_fix source] ->
  Qlt_bool (fix_confidence r) 0.7 = true ->
  fix_code r = source.
Proof.
  intros Hin Hlow. cbn [In] in Hin.
  destruct Hin as [<-|[<-|[<-|[<-|[<-|[]]]]]].
  - unfold _fix_future_imports in *.
    destruct (separate_future_imports _ _ _ _ _) as [[shebang fi] ol].
    discriminate.
  - unfold _fix_invalid_syntax in *.
    pose proof (add_colons_unchanged (PyStr.split_lines source) 0%nat) as Hu.
    destruct (add_colons 0 (PyStr.split_lines source)) as [lines' changes].
    cbn [fst snd fix_code fix_confidence] in *.
    destruct changes; [|discriminate].
    rewrite (Hu eq_refl). apply join_split_lines.
  - unfold _fix_indentation_error in *.
    pose proof (normalize_indentation_unchanged (PyStr.split_lines source) [] []) as Hu.
    destruct (normalize_indentation (PyStr.split_lines source) [] []) as [lines' changes].
    cbn [fst snd fix_code fix_confidence] in *.
    destruct changes; [|discriminate].
    destruct (Hu eq_refl) as [_ Hl]. rewrite Hl. apply join_split_lines.
  - unfold _fix_name_error in *.
    destruct (PyStr.search_undefined_name message); [|reflexivity].
    destruct (lookup _ _); [discriminate|reflexivity].
  - reflexivity.
Qed.

Lemma first_fix_low_confidence (ty det : string) (ch : list string) (conf : Q)
    (patterns : list (string * fix_func)) :
  Forall (fun entry => forall r, snd entry code error_message = Ok r ->
                                 Qlt_bool (fix_confidence r) 0.7 = true ->
                                 fix_code r = code) patterns ->
  first_fix patterns code error_message ty = Ok (det, ch, conf) ->
  Qlt_bool conf 0.7 = true ->
  det = code.
Proof.
  induction 1 as [|[pattern f] rest Hf _ IH]; cbn [first_fix].
  - intros H _. inversion H. reflexivity.
  - destruct (triggers pattern error_message ty); [|exact IH].
    destruct (f code error_message) as [r|e] eqn:Hr.
    + intros H Hlow. inversion H; subst. apply (Hf r Hr Hlow).
    + destruct (is_Exception e); [exact IH|discriminate].
Qed.

(** Hence a pattern step that ends with a confidence below 0.7 has left
    the code as it was. *)
Lemma low_confidence_means_unchanged (ty det : string) (ch : list string) (conf : Q) :
  _apply_pattern_fixes p code error_message ty = Ok (det, ch, conf) ->
  Qlt_bool conf 0.7 = true ->
  det = code.
Proof.
  unfold _apply_pattern_fixes. apply first_fix_low_confidence.
  unfold error_patterns.
  repeat constructor; cbn [snd]; unfold pure_fix; intros r Hr Hlow.
  2:{ unfold _analyze_syntax_error in Hr.
      destruct (p code) as [u|e]; [inversion Hr; reflexivity|].
      destruct (is_SyntaxError e); [|discriminate].
      destruct (PyStr.contains _ _).
      - inversion Hr; subst r.
        apply (low_confidence_fix_is_no_fix code (exn_str e)); [|exact Hlow].
        right; left; reflexivity.
      - destruct (PyStr.contains _ _); inversion Hr; subst r.
        + apply (low_confidence_fix_is_no_fix code (exn_str e)); [|exact Hlow].
          right; right; left; reflexivity.
        + reflexivity. }
  all: inversion Hr; subst r;
    apply (low_confidence_fix_is_no_fix code error_message); [|exact Hlow];
    cbn [In];
    first [ left; reflexivity
          | right; left; reflexivity
          | right; right; left; reflexivity
          | right; right; right; left; reflexivity
          | right; right; right; right; left; reflexivity ].
Qed.

(** C6, as stated, fails on its last part.  For the message of a
    [TypeError] the catalog entry [TypeError] is selected and its fix
    function returns the code it was given, with confidence 0: the
    deterministic code is not empty.  The escalation is consulted because
    of the confidence, and the code it proposes becomes the rectified code
    returned. *)
Lemma escalation_code_replaces_deterministic_code :
  triggers "TypeError" type_error_message
           (error_type (_analyze_error type_error_message adds_text)) = true
  /\ _fix_type_error adds_text type_error_message = mk_fix adds_text [] 0
  /\ _apply_pattern_fixes parses adds_text type_error_message
       (error_type (_analyze_error type_error_message adds_text))
     = Ok (adds_text, [], 0)
  /\ PyStr.truthy adds_text = true
  /\ needs_escalation adds_text 0 = true
  /\ rectify_code parses (ContentJson advice) adds_text type_error_message
     = Ok (mk_response true (Some "print(1 + int('1'))") ["converted the string"]
             (_analyze_error type_error_message adds_text) 0.9).
Proof. vm_compute. repeat split; reflexivity. Qed.

(** C6, amended.  Let the pattern step give the code [det] with confidence
    [conf], and let [rectify_code] return the response [r].  The escalation
    is consulted exactly when [conf < 0.7] or [det] is empty.  If it is
    consulted and its result is truthy and reports success, the confidence
    returned is the escalation's (0.5 if it has none) when that is greater
    than [conf] and [conf] otherwise, and the code returned is the
    escalation's ["code"] whenever it has that key, whether [det] is empty
    or not; [det] is returned when the key is missing.  In every other
    case [r] carries [det] and [conf].  A code [det] that comes with a
    confidence below 0.7 is the original code: what the escalation's code
    replaces is then never a fix. *)
Theorem escalation_result_supersedes_deterministic_fix :
  match _apply_pattern_fixes p code error_message
          (error_type (_analyze_error error_message code)),
        rectify_code p reply code error_message with
  | Ok (det, _, conf), Ok r =>
      (if Qlt_bool conf 0.7 then det = code else True)
      /\ (if Qlt_bool conf 0.7 || negb (PyStr.truthy det) then
            match _ai_rectify_code reply code error_message
                    (_analyze_error error_message code) with
            | Ok ai =>
                if jtruthy ai && jtruthy (field_or ai "success" (JBool false)) then
                  rectified_code r = as_code (field_or ai "code" (JStr det))
                  /\ confidence_score r
                     = (if Qlt_bool conf (number_of (field_or ai "confidence" (JNum 0.5)))
                        then number_of (field_or ai "confidence" (JNum 0.5))
                        else conf)
                else rectified_code r = Some det /\ confidence_score r = conf
            | Raise _ => False
            end
          else rectified_code r = Some det /\ confidence_score r = conf)
  | _, _ => True
  end.
Proof.
  unfold rectify_code.
  destruct (_apply_pattern_fixes p code error_message
              (error_type (_analyze_error error_message code)))
    as [[[det ch] conf]|e] eqn:Hfix; [|exact I].
  cbn [bind]. unfold needs_escalation.
  assert (Hlow : if Qlt_bool conf 0.7 then det = code else True).
  { destruct (Qlt_bool conf 0.7) eqn:Hc; [|exact I].
    exact (low_confidence_means_unchanged _ _ _ _ Hfix Hc). }
  destruct (Qlt_bool conf 0.7 || negb (PyStr.truthy det)); cbn [bind].
  - unfold escalate.
    destruct (_ai_rectify_code reply code error_message
                (_analyze_error error_message code)) as [ai|e]; cbn [bind];
      [|exact I].
    destruct (jtruthy ai) eqn:Ht; cbn [andb bind].
    + destruct ai as [ |b|q|s|l|l]; try (cbn [jget bind]; exact I).
      rewrite jget_object. cbn [bind].
      destruct (jtruthy (field_or (JObj l) "success" (JBool false))); cbn [bind].
      * rewrite !jget_object. cbn [bind].
        destruct (jiter (field_or (JObj l) "changes" (JArr []))) as [more|e];
          cbn [bind]; [|exact I].
        destruct (as_number (field_or (JObj l) "confidence" (JNum 0.5)))
          as [q|e] eqn:Hq; cbn [bind]; [|exact I].
        apply as_number_of in Hq. subst q.
        destruct (make_response _ _ _ _ _) as [r|e] eqn:Hm; [|exact I].
        apply make_response_success in Hm. unfold py_max in Hm. tauto.
      * destruct (make_response _ _ _ _ _) as [r|e] eqn:Hm; [|exact I].
        apply make_response_success in Hm. simpl in Hm. tauto.
    + destruct (make_response _ _ _ _ _) as [r|e] eqn:Hm; [|exact I].
      apply make_response_success in Hm. simpl in Hm. tauto.
  - destruct (make_response _ _ _ _ _) as [r|e] eqn:Hm; [|exact I].
    apply make_response_success in Hm. simpl in Hm. tauto.
Qed.

End Escalation.

Section MissingImport.
Import CodeRectifier Spec.

(** The loop of [_fix_name_error] computes the position after the last
    future import of the leading block. *)
Lemma find_insert_idx_spec (lines : list string) :
  forall i idx,
    find_insert_idx lines i idx
    = match after_last_future (leading_block lines) with
      | O => idx
      | S k => (i + S k)%nat
      end.
Proof.
  unfold leading_block.
  induction lines as [|line rest IH]; intros i idx; [reflexivity|].
  cbn [find_insert_idx first_code_line]. unfold skippable, is_comment_or_blank.
  fold (is_future line).
  destruct (is_future line) eqn:Hf; cbn [orb].
  - cbn [firstn after_last_future]. rewrite Hf, IH.
    destruct (after_last_future (firstn (first_code_line rest) rest)); lia.
  - destruct (PyStr.startswith (PyStr.strip line) "#"
              || negb (PyStr.truthy (PyStr.strip line))).
    + cbn [firstn after_last_future]. rewrite Hf, IH.
      destruct (after_last_future (firstn (first_code_line rest) rest)); lia.
    + reflexivity.
Qed.

Lemma after_last_future_bound (block : list string) :
  (after_last_future block <= List.length block)%nat.
Proof.
  induction block as [|line rest IH]; simpl; [lia|].
  destruct (after_last_future rest); [destruct (is_future line)|]; lia.
Qed.

(** no future import is left behind the position computed *)
Lemma after_last_future_is_last (block : list string) :
  forallb (fun line => negb (is_future line))
          (skipn (after_last_future block) block) = true.
Proof.
  induction block as [|line rest IH]; [reflexivity|].
  cbn [after_last_future].
  destruct (after_last_future rest) as [|k] eqn:Hk.
  - destruct (is_future line) eqn:Hf.
    + exact IH.
    + cbn [skipn forallb]. rewrite Hf. exact IH.
  - exact IH.
Qed.

Lemma first_code_line_bound (lines : list string) :
  (first_code_line lines <= List.length lines)%nat.
Proof.
  induction lines as [|line rest IH]; simpl; [lia|].
  destruct (skippable line); simpl; lia.
Qed.

Lemma nth_error_list_insert (A : Type) (x : A) (l : list A) (i : nat) :
  (i <= List.length l)%nat -> nth_error (PyStr.list_insert i x l) i = Some x.
Proof.
  intros Hi. unfold PyStr.list_insert.
  rewrite nth_error_app2; rewrite firstn_length_le by exact Hi; [|lia].
  rewrite Nat.sub_diag. reflexivity.
Qed.

Lemma forallb_firstn_le (A : Type) (f : A -> bool) (l : list A) :
  forall n m,
    (n <= m)%nat ->
    forallb f (firstn m l) = true -> forallb f (firstn n l) = true.
Proof.
  induction l as [|x l IH]; intros n m Hnm H.
  - destruct n; reflexivity.
  - destruct n as [|n]; [reflexivity|].
    destruct m as [|m]; [lia|].
    cbn [firstn forallb] in *. apply andb_prop in H. destruct H as [Hx Hl].
    rewrite Hx. apply (IH n m); [lia|exact Hl].
Qed.

(** The fix function itself understands the bare message: it is the
    selection of the catalog entry that needs the kind to be named. *)
Lemma fix_name_error_on_bare_message (code : string) :
  _fix_name_error code "name 'math' is not defined"
  = mk_fix (PyStr.join PyStr.nl
              (PyStr.list_insert (find_insert_idx (PyStr.split_lines code) 0 0)
                                 "import math" (PyStr.split_lines code)))
           ["Added missing import: import math"] 0.9.
Proof. reflexivity. Qed.

(** C8, as stated, fails: the message [name 'math' is not defined] does not
    mention [NameError], the error kind is [Unknown], no catalog entry is
    selected, and the pattern step returns the code unchanged with
    confidence 0; with an escalation that brings nothing, so does
    [rectify_code]. *)
Lemma bare_message_selects_no_fix :
  error_type (_analyze_error "name 'math' is not defined" "print(math.pi)") = "Unknown"
  /\ _apply_pattern_fixes parses "print(math.pi)" "name 'math' is not defined" "Unknown"
     = Ok ("print(math.pi)", [], 0)
  /\ rectify_code parses (ContentText "sorry") "print(math.pi)"
       "name 'math' is not defined"
     = Ok (mk_response false (Some "print(math.pi)") []
             (_analyze_error "name 'math' is not defined" "print(math.pi)") 0).
Proof. vm_compute. repeat split; reflexivity. Qed.

(** C8, amended.  For every code string, when the rectifier is invoked with
    the error message [NameError: name 'math' is not defined], the pattern
    step inserts the line [import math] and returns confidence 0.9.  The
    line is inserted at index [idx], just after the last future import of
    the leading block of comment, blank and future-import lines, hence at
    or before the first line that is none of these ([first_code_line]);
    behind it the leading block holds no future import; every other line
    keeps its order.  [rectify_code] returns that code with [success] true
    and confidence 0.9, without consulting the escalation. *)
Theorem name_error_inserts_import_math :
  forall (p : parser) (reply : ai_reply) (code : string),
    let lines := PyStr.split_lines code in
    let idx := find_insert_idx lines 0 0 in
    let fixed := PyStr.join PyStr.nl (PyStr.list_insert idx "import math" lines) in
    _apply_pattern_fixes p code name_error_message
      (error_type (_analyze_error name_error_message code))
    = Ok (fixed, ["Added missing import: import math"], 0.9)
    /\ idx = after_last_future (leading_block lines)
    /\ (idx <= first_code_line lines)%nat
    /\ nth_error (PyStr.list_insert idx "import math" lines) idx = Some "import math"
    /\ forallb skippable (firstn idx lines) = true
    /\ forallb (fun line => negb (is_future line))
               (skipn idx (leading_block lines)) = true
    /\ rectify_code p reply code name_error_message
       = Ok (mk_response true (Some fixed) ["Added missing import: import math"]
               (_analyze_error name_error_message code) 0.9).
Proof.
  intros p reply code lines idx fixed.
  assert (Hfix : _apply_pattern_fixes p code name_error_message
                   (error_type (_analyze_error name_error_message code))
                 = Ok (fixed, ["Added missing import: import math"], 0.9))
    by reflexivity.
  assert (Hidx : idx = after_last_future (leading_block lines)).
  { unfold idx. rewrite find_insert_idx_spec.
    destruct (after_last_future (leading_block lines)); reflexivity. }
  assert (Hblock : List.length (leading_block lines) = first_code_line lines).
  { unfold leading_block. apply firstn_length_le. apply first_code_line_bound. }
  assert (Hle : (idx <= first_code_line lines)%nat).
  { rewrite Hidx, <- Hblock. apply after_last_future_bound. }
  assert (Hskip : forall ls, forallb skippable (firstn (first_code_line ls) ls) = true).
  { induction ls as [|l ls IHls]; [reflexivity|]. cbn [first_code_line].
    destruct (skippable l) eqn:Hl; [|reflexivity].
    cbn [firstn forallb]. rewrite Hl. exact IHls. }
  split; [exact Hfix|]. split; [exact Hidx|]. split; [exact Hle|].
  split.
  { apply nth_error_list_insert.
    pose proof (first_code_line_bound lines). lia. }
  split.
  { apply (forallb_firstn_le _ _ _ idx (first_code_line lines) Hle). apply Hskip. }
  split.
  { rewrite Hidx. apply after_last_future_is_last. }
  unfold rectify_code. rewrite Hfix. cbn [bind].
  assert (Hlen : String.length fixed = (String.length code + 11 + 1)%nat).
  { unfold fixed. rewrite length_join_insert by apply split_lines_nonempty.
    unfold lines. rewrite join_split_lines. reflexivity. }
  assert (Htruthy : PyStr.truthy fixed = true).
  { destruct fixed; [simpl in Hlen; lia|reflexivity]. }
  assert (Hne : (fixed =? code)%string = false).
  { apply String.eqb_neq. intros Heq. rewrite Heq in Hlen. lia. }
  unfold needs_escalation. rewrite Htruthy.
  replace (Qlt_bool 0.9 0.7) with false by reflexivity.
  cbn [orb negb bind]. unfold make_response. cbn [map all_str jtruthy jeq_str].
  rewrite Htruthy, Hne. reflexivity.
Qed.

End MissingImport.

Section FailedEscalation.
Import CodeRectifier CodeGeneratorWorkflow Spec.

Lemma not_mentioned (error_message pattern : string) :
  negb (PyStr.contains (PyStr.lower error_message) (PyStr.lower pattern)) = true ->
  PyStr.contains error_message pattern = false.
Proof.
  intros H. apply negb_true_iff in H.
  destruct (PyStr.contains error_message pattern) eqn:Hc; [|reflexivity].
  apply contains_lower in Hc. rewrite Hc in H. discriminate.
Qed.

(** An error of an unrecognized kind met with a codeless escalation: the
    engine returns the original code, with [success] false and confidence
    0. *)
Lemma rectify_unrecognized (p : parser) (reply : ai_reply) (code error_message : string) :
  unrecognized error_message = true ->
  codeless reply = true ->
  rectify_code p reply code error_message
  = Ok (mk_response false (Some code) [] (_analyze_error error_message code) 0).
Proof.
  intros Hu Hc.
  unfold unrecognized, pattern_names in Hu.
  cbn [map fst error_patterns forallb] in Hu.
  repeat (apply andb_prop in Hu; let H := fresh "Hp" in destruct Hu as [H Hu]).
  assert (Hty : error_type (_analyze_error error_message code) = "Unknown").
  { unfold _analyze_error. cbn [error_type].
    rewrite !not_mentioned by assumption. reflexivity. }
  unfold rectify_code. rewrite Hty.
  assert (Hfix : _apply_pattern_fixes p code error_message "Unknown"
                 = Ok (code, [], 0)).
  { unfold _apply_pattern_fixes, error_patterns. cbn [first_fix]. unfold triggers.
    repeat match goal with
           | H : negb (PyStr.contains _ ?pat) = true |- context [PyStr.contains _ ?pat] =>
               apply negb_true_iff in H; rewrite H
           end.
    reflexivity. }
  rewrite Hfix. cbn [bind].
  replace (needs_escalation code 0) with true by reflexivity.
  unfold escalate, _ai_rectify_code.
  destruct reply as [e|v|content]; try discriminate.
  simpl in Hc. destruct (PyStr.search_fenced_code content); [discriminate|].
  cbn. rewrite String.eqb_refl, andb_false_r. reflexivity.
Qed.

(** C9, as stated, fails.  The code [print(1/0)] fails with an error no
    catalog entry recognizes and the escalation answers text without code:
    the rectifier runs once, not three times; the run ends with one attempt
    counted and the error [Rectification failed: ...], not the message of
    the ceiling; and the status reported is ["completed"]. *)
Lemma codeless_reply_stops_after_one_attempt :
  unrecognized (exn_traceback division_by_zero) = true
  /\ codeless (ContentText "sorry") = true
  /\ map step_node
         (fst (drive recursion_limit
                 (steady "print(1/0)" (ContentText "sorry")
                         (failing_with division_by_zero))
                 0 generator (initial_state "divide" None)))
     = [generator; checker; executor; rectifier]
  /\ snd (drive recursion_limit
            (steady "print(1/0)" (ContentText "sorry") (failing_with division_by_zero))
            0 generator (initial_state "divide" None))
     = ReachedEnd failed_execution
  /\ rectification_attempts failed_execution = 1%Z
  /\ er_error (execution_results failed_execution)
     = Some ("Rectification failed: " ++ exn_traceback division_by_zero)%string
  /\ run (steady "print(1/0)" (ContentText "sorry") (failing_with division_by_zero))
         "divide" None
     = Ok (_process_final_result failed_execution)
  /\ workflow_status (_process_final_result failed_execution) = "completed".
Proof. vm_compute. repeat split; reflexivity. Qed.

(** From the executor on: the executor records the failure, the rectifier
    counts one attempt and routes to [END], and the loop stops. *)
Lemma failed_escalation_from_executor :
  forall (env : nat -> collaborators) (k limit : nat) (s : CodeGenerationState)
         (results : ExecutionResults) (e : string),
    PyStr.truthy (active_code s) = true ->
    CodeExecutorNode.dispatch (execution (env k)) (active_code s) = Ok results ->
    succeeded results = false ->
    er_error results = Some e ->
    PyStr.truthy e = true ->
    unrecognized e = true ->
    codeless (ai (env (S k))) = true ->
    (rectification_attempts s < 3)%Z ->
    drive (S (S limit)) env k executor s
    = ([mk_step executor (Ok (recorded results s));
        mk_step rectifier (Ok (given_up e results s))],
       ReachedEnd (given_up e results s)).
Proof.
  intros env k limit s results e Hcode Hrun Hfail Herr He Hu Hc Hlt.
  set (s1 := recorded results s). set (s2 := given_up e results s).
  assert (Hhas : has_error results = true)
    by (unfold has_error; rewrite Herr; exact He).
  assert (H1 : CodeExecutorNode._execute (execution (env k)) s = Ok s1).
  { unfold CodeExecutorNode._execute. rewrite Hcode, Hrun. cbn [negb].
    rewrite Hfail, Hhas. reflexivity. }
  assert (Hactive : active_code s1 = active_code s) by reflexivity.
  assert (H2 : CodeRectifierNode._execute (ast_parse (env (S k))) (ai (env (S k))) s1
               = Ok s2).
  { unfold CodeRectifierNode._execute.
    assert (Hmsg : CodeRectifierNode.error_message_of s1 = e).
    { unfold CodeRectifierNode.error_message_of, s1, recorded.
      cbn [execution_results with_current_node with_execution_results].
      rewrite Hhas, Herr. reflexivity. }
    rewrite Hmsg, Hactive, He, Hcode. cbn [negb orb].
    replace (rectification_attempts s1 >=? 3)%Z with false
      by (symmetry; rewrite Z.geb_leb; apply Z.leb_gt; exact Hlt).
    rewrite (rectify_unrecognized _ _ _ _ Hu Hc). reflexivity. }
  cbn [drive run_node]. rewrite H1.
  replace (edges executor (route executor s1)) with (Some (Next rectifier))
    by reflexivity.
  cbn [drive run_node]. rewrite H2.
  replace (edges rectifier (route rectifier s2)) with (Some Finish).
  - reflexivity.
  - cbn [route]. unfold _route_from_rectifier.
    destruct (_ || _); reflexivity.
Qed.

(** C9, amended.  Take any run, and in it any invocation [k] of the
    executor, in state [s], on code that fails with an error [e] no catalog
    entry recognizes; let the escalation that follows answer text that is
    neither JSON nor holds a fenced code block.  Then the workflow performs
    one escalation: after the executor the drive loop invokes the rectifier
    once and stops.  The state [invoke] returns has [current_node = END],
    one more attempt counted than [s], and the error message
    [Rectification failed: e]; [run] finalizes that state. *)
Theorem failed_escalation_ends_the_run :
  forall (env : nat -> collaborators) (user_prompt : string)
         (requirements : option string) (k : nat) (s : CodeGenerationState)
         (results : ExecutionResults) (e : string),
    reaches env (initial_state user_prompt requirements) k executor s ->
    PyStr.truthy (active_code s) = true ->
    CodeExecutorNode.dispatch (execution (env k)) (active_code s) = Ok results ->
    succeeded results = false ->
    er_error results = Some e ->
    PyStr.truthy e = true ->
    unrecognized e = true ->
    codeless (ai (env (S k))) = true ->
    skipn k (fst (drive recursion_limit env 0 generator
                    (initial_state user_prompt requirements)))
    = [mk_step executor (Ok (recorded results s));
       mk_step rectifier (Ok (given_up e results s))]
    /\ invoke env (initial_state user_prompt requirements)
       = Ok (given_up e results s)
    /\ run env user_prompt requirements
       = Ok (_process_final_result (given_up e results s))
    /\ current_node (given_up e results s) = END
    /\ rectification_attempts (given_up e results s)
       = (rectification_attempts s + 1)%Z
    /\ er_error (execution_results (given_up e results s))
       = Some ("Rectification failed: " ++ e)%string.
Proof.
  intros env user_prompt requirements k s results e
         Hreach Hcode Hrun Hfail Herr He Hu Hc.
  destruct (reached_budget env (initial_state user_prompt requirements) k executor s
              eq_refl Hreach) as [Hk Ha].
  assert (Hk8 : (k <= 8)%nat) by (unfold budget in Hk; lia).
  destruct (drive_from_reached env _ k executor s Hreach (recursion_limit - k))
    as [prefix [Hlen Hdrive]].
  replace (k + (recursion_limit - k))%nat with recursion_limit in Hdrive
    by (unfold recursion_limit; lia).
  replace (recursion_limit - k)%nat with (S (S (recursion_limit - k - 2))) in Hdrive
    by (unfold recursion_limit; lia).
  rewrite (failed_escalation_from_executor env k _ s results e
             Hcode Hrun Hfail Herr He Hu Hc (proj2 Ha)) in Hdrive.
  cbn [fst snd] in Hdrive.
  assert (Hinvoke : invoke env (initial_state user_prompt requirements)
                    = Ok (given_up e results s))
    by (unfold invoke; rewrite Hdrive; reflexivity).
  split.
  { rewrite Hdrive. cbn [fst]. rewrite skipn_app, <- Hlen, skipn_all, Nat.sub_diag.
    reflexivity. }
  split; [exact Hinvoke|].
  split; [unfold run; rewrite Hinvoke; reflexivity|].
  repeat split.
Qed.

Lemma failed_escalation_ends_the_run_witness :
  skipn 2 (fst (drive recursion_limit
                  (steady "print(1/0)" (ContentText "sorry")
                          (failing_with division_by_zero))
                  0 generator (initial_state "divide" None)))
  = [mk_step executor (Ok (recorded division_results checked));
     mk_step rectifier (Ok failed_execution)]
  /\ invoke (steady "print(1/0)" (ContentText "sorry") (failing_with division_by_zero))
            (initial_state "divide" None)
     = Ok failed_execution
  /\ run (steady "print(1/0)" (ContentText "sorry") (failing_with division_by_zero))
         "divide" None
     = Ok (_process_final_result failed_execution)
  /\ current_node failed_execution = END
  /\ rectification_attempts failed_execution = (rectification_attempts checked + 1)%Z
  /\ er_error (execution_results failed_execution)
     = Some ("Rectification failed: " ++ exn_traceback division_by_zero)%string.
Proof.
  apply (failed_escalation_ends_the_run
           (steady "print(1/0)" (ContentText "sorry") (failing_with division_by_zero))
           "divide" None 2%nat checked division_results
           (exn_traceback division_by_zero));
    try reflexivity.
  apply (reaches_next _ _ 1%nat checker
           (with_current_node syntax_checker
              (with_generated_code "print(1/0)" (initial_state "divide" None))));
    try reflexivity.
  apply (reaches_next _ _ 0%nat generator (initial_state "divide" None));
    try reflexivity.
  apply reaches_entry.
Defined.

End FailedEscalation.

(** ** The scenarios of the specification, evaluated *)
Section Scenarios.
Import CodeRectifier CodeGeneratorWorkflow Spec.

(** A future import placed after other statements is moved to the top,
    after the shebang line, with confidence 0.95. *)
Example future_import_is_moved_first :
  _apply_pattern_fixes parses
    ("#!/usr/bin/env python3" ++ PyStr.nl ++ "import os" ++ PyStr.nl
     ++ "from __future__ import annotations")%string
    "SyntaxError: from __future__ imports must occur at the beginning of the file"
    "SyntaxError"
  = Ok (("#!/usr/bin/env python3" ++ PyStr.nl
         ++ "from __future__ import annotations" ++ PyStr.nl ++ "import os")%string,
        ["Moved __future__ imports to the beginning of the file"], 0.95).
Proof. vm_compute. reflexivity. Qed.

(** A line starting with [if ] and lacking its colon gets one, with
    confidence 0.8. *)
Example missing_colon_is_added :
  _fix_invalid_syntax ("if x > 0" ++ PyStr.nl ++ "    print(x)")%string "invalid syntax"
  = mk_fix ("if x > 0:" ++ PyStr.nl ++ "    print(x)")%string
           ["Added missing colon on line 1"] 0.8.
Proof. vm_compute. reflexivity. Qed.

(** A run whose code executes at the first attempt: three node
    invocations, none of the rectifier, no attempt counted, status
    ["completed"]. *)
Example first_attempt_succeeds :
  map step_node
      (fst (drive recursion_limit
              (steady "print(1)" (ContentText "sorry") (printing ("1" ++ PyStr.nl)%string))
              0 generator (initial_state "print one" None)))
  = [generator; checker; executor]
  /\ match run (steady "print(1)" (ContentText "sorry") (printing ("1" ++ PyStr.nl)%string))
              "print one" None with
     | Ok report =>
         workflow_status report = "completed"
         /\ rectification_attempts (final_state report) = 0%Z
         /\ current_node (final_state report) = END
     | Raise _ => False
     end.
Proof. vm_compute. repeat split; reflexivity. Qed.

End Scenarios.

(** * Further properties of the code *)

(** ** Lines *)
Section MoreLines.
Import PyStr Vocabulary.

Lemma split_lines_single (s : string) : forallb single_line (split_lines s) = true.
Proof.
  induction s as [|c s IH]; [reflexivity|].
  cbn [split_lines]. destruct (Ascii.eqb c newline) eqn:Hc.
  - cbn [forallb single_line]. exact IH.
  - destruct (split_lines s) as [|l ls]; cbn [forallb single_line] in *;
      rewrite Hc; [reflexivity|exact IH].
Qed.

Lemma split_single_line (s : string) :
  single_line s = true -> split_lines s = [s].
Proof.
  induction s as [|c s IH]; [reflexivity|].
  cbn [single_line split_lines]. intros H. apply andb_prop in H. destruct H as [Hc Hs].
  apply negb_true_iff in Hc. rewrite Hc, (IH Hs). reflexivity.
Qed.

Lemma split_lines_append (a b : string) :
  single_line a = true ->
  split_lines (a ++ nl ++ b) = a :: split_lines b.
Proof.
  induction a as [|c a IH]; intros H.
  - reflexivity.
  - cbn [single_line] in H. apply andb_prop in H. destruct H as [Hc Ha].
    apply negb_true_iff in Hc.
    change ((String c a ++ nl ++ b)%string) with (String c (a ++ nl ++ b)%string).
    cbn [split_lines]. rewrite Hc, (IH Ha). reflexivity.
Qed.

(** Joining lines that hold no newline and splitting again gives the lines
    back. *)
Lemma split_join_lines (ls : list string) :
  ls <> [] ->
  forallb single_line ls = true ->
  split_lines (join nl ls) = ls.
Proof.
  unfold join.
  induction ls as [|l ls IH]; intros Hne Hall; [contradiction|].
  cbn [forallb] in Hall. apply andb_prop in Hall. destruct Hall as [Hl Hls].
  destruct ls as [|l' ls].
  - simpl. apply split_single_line. exact Hl.
  - change (String.concat nl (l :: l' :: ls))
      with (l ++ nl ++ String.concat nl (l' :: ls))%string.
    rewrite (split_lines_append _ _ Hl), IH; [reflexivity|discriminate|exact Hls].
Qed.

End MoreLines.

(** ** The deterministic fixes of the rectifier *)
Section FutureImports.
Import PyStr CodeRectifier Vocabulary.

Lemma separate_later (lines : list string) :
  forall i shebang futures others,
    separate_future_imports (S i) lines shebang futures others
    = (shebang,
       futures ++ filter imports_future lines,
       others ++ filter (fun l => negb (imports_future l)) lines).
Proof.
  induction lines as [|line rest IH]; intros i shebang futures others.
  - cbn. rewrite !app_nil_r. reflexivity.
  - cbn [separate_future_imports Nat.eqb andb filter].
    fold (imports_future line). destruct (imports_future line); cbn [negb].
    + rewrite IH, <- app_assoc. reflexivity.
    + rewrite IH, <- app_assoc. reflexivity.
Qed.

Lemma filter_partition_permutation (A : Type) (f : A -> bool) (l : list A) :
  Permutation l (filter f l ++ filter (fun x => negb (f x)) l).
Proof.
  induction l as [|x l IH]; [constructor|].
  cbn [filter]. destruct (f x); cbn [negb app].
  - constructor. exact IH.
  - apply Permutation_cons_app. exact IH.
Qed.

Lemma future_first_permutation (lines : list string) :
  Permutation lines (future_first lines).
Proof.
  destruct lines as [|first rest]; [constructor|].
  unfold future_first. destruct (startswith first "#!").
  - constructor. apply filter_partition_permutation.
  - apply filter_partition_permutation.
Qed.

Lemma filter_all (A : Type) (f : A -> bool) (l : list A) :
  forallb f l = true -> filter f l = l.
Proof.
  induction l as [|x l IH]; [reflexivity|].
  cbn [forallb filter]. intros H. apply andb_prop in H. destruct H as [Hx Hl].
  rewrite Hx, (IH Hl). reflexivity.
Qed.

Lemma filter_none (A : Type) (f : A -> bool) (l : list A) :
  forallb (fun x => negb (f x)) l = true -> filter f l = [].
Proof.
  induction l as [|x l IH]; [reflexivity|].
  cbn [forallb filter]. intros H. apply andb_prop in H. destruct H as [Hx Hl].
  apply negb_true_iff in Hx. rewrite Hx. exact (IH Hl).
Qed.

Lemma forallb_filter_self (A : Type) (f : A -> bool) (l : list A) :
  forallb f (filter f l) = true.
Proof.
  induction l as [|x l IH]; [reflexivity|].
  cbn [filter]. destruct (f x) eqn:Hx; [cbn [forallb]; rewrite Hx|]; exact IH.
Qed.

(** already ordered lines stay as they are *)
Lemma partition_ordered (futures others : list string) :
  forallb imports_future futures = true ->
  forallb (fun l => negb (imports_future l)) others = true ->
  filter imports_future (futures ++ others)
  ++ filter (fun l => negb (imports_future l)) (futures ++ others)
  = futures ++ others.
Proof.
  intros Hf Ho. rewrite !filter_app.
  rewrite (filter_all _ _ _ Hf), (filter_none _ _ _ Ho), (filter_all _ _ _ Ho).
  rewrite (filter_none _ (fun l => negb (imports_future l)) futures).
  - rewrite app_nil_r. reflexivity.
  - clear Ho. induction futures as [|x futures IH]; [reflexivity|].
    cbn [forallb] in *. apply andb_prop in Hf. destruct Hf as [Hx Hrest].
    rewrite Hx, (IH Hrest). reflexivity.
Qed.

Lemma future_first_idempotent (lines : list string) :
  future_first (future_first lines) = future_first lines.
Proof.
  pose proof (forallb_filter_self _ imports_future) as Hf.
  pose proof (forallb_filter_self _ (fun l => negb (imports_future l))) as Ho.
  destruct lines as [|first rest]; [reflexivity|].
  destruct (startswith first "#!") eqn:Hs.
  - assert (E : future_first (first :: rest)
                = first :: filter imports_future rest
                        ++ filter (fun l => negb (imports_future l)) rest)
      by (unfold future_first; rewrite Hs; reflexivity).
    rewrite E. unfold future_first. rewrite Hs.
    rewrite (partition_ordered _ _ (Hf rest) (Ho rest)). reflexivity.
  - assert (E : future_first (first :: rest)
                = filter imports_future (first :: rest)
                  ++ filter (fun l => negb (imports_future l)) (first :: rest))
      by (unfold future_first; rewrite Hs; reflexivity).
    rewrite E.
    pose proof (partition_ordered _ _ (Hf (first :: rest)) (Ho (first :: rest))) as Hpart.
    destruct (filter imports_future (first :: rest)
              ++ filter (fun l => negb (imports_future l)) (first :: rest))
      as [|h tl] eqn:Hout; [reflexivity|].
    unfold future_first. destruct (startswith h "#!") eqn:Hh; [|exact Hpart].
    cbn [filter] in Hpart.
    destruct (imports_future h) eqn:Hfh; cbn [negb app] in Hpart; [exact Hpart|].
    exfalso. cbn [filter] in Hout.
    destruct (imports_future first) eqn:Hff; cbn [negb app] in Hout.
    + inversion Hout; subst h. rewrite Hff in Hfh. discriminate.
    + destruct (filter imports_future rest) as [|g gs] eqn:Hg.
      * cbn [app] in Hout. inversion Hout; subst h. rewrite Hs in Hh. discriminate.
      * cbn [app] in Hout. inversion Hout; subst h.
        pose proof (Hf rest) as Hall. rewrite Hg in Hall. cbn [forallb] in Hall.
        rewrite Hfh in Hall. discriminate.
Qed.

Lemma forallb_permutation (A : Type) (f : A -> bool) (l l' : list A) :
  Permutation l l' -> forallb f l = true -> forallb f l' = true.
Proof.
  intros Hp H. apply forallb_forall. intros x Hx.
  apply (proj1 (forallb_forall f l) H). apply Permutation_sym in Hp.
  exact (Permutation_in x Hp Hx).
Qed.

(** The lines [_fix_future_imports] returns are the lines it was given,
    ordered by [future_first]. *)
Lemma future_imports_lines (code error_message : string) :
  split_lines (fix_code (_fix_future_imports code error_message))
  = future_first (split_lines code).
Proof.
  assert (Hjoin : fix_code (_fix_future_imports code error_message)
                  = join nl (future_first (split_lines code))).
  { unfold _fix_future_imports, future_first.
    destruct (split_lines code) as [|first rest]; [reflexivity|].
    cbn [separate_future_imports Nat.eqb andb].
    destruct (startswith first "#!") eqn:Hs.
    - rewrite separate_later. cbn [app fix_code].
      assert (Ht : truthy first = true) by (destruct first; [discriminate|reflexivity]).
      rewrite Ht. reflexivity.
    - fold (imports_future first). cbn [filter].
      destruct (imports_future first); rewrite separate_later; reflexivity. }
  rewrite Hjoin. apply split_join_lines.
  - intros Hnil.
    pose proof (future_first_permutation (split_lines code)) as Hp.
    rewrite Hnil in Hp. apply Permutation_sym, Permutation_nil in Hp.
    exact (split_lines_nonempty code Hp).
  - apply (forallb_permutation _ _ _ _ (future_first_permutation (split_lines code))).
    apply split_lines_single.
Qed.

(** X1.  [_fix_future_imports] only reorders: the lines of its result are
    a permutation of the lines of the code; they are the shebang line, if
    the first line is one, then the lines holding a future import, then the
    other lines, each group in its original order; and applying the fix to
    its own result changes nothing. *)
Theorem fix_future_imports_reorders :
  forall (code error_message error_message' : string),
    let fixed := fix_code (_fix_future_imports code error_message) in
    split_lines fixed = future_first (split_lines code)
    /\ Permutation (split_lines code) (split_lines fixed)
    /\ (exists shebang futures others,
           split_lines fixed = shebang ++ futures ++ others
           /\ (List.length shebang <= 1)%nat
           /\ forallb imports_future futures = true
           /\ forallb (fun l => negb (imports_future l)) others = true)
    /\ fix_code (_fix_future_imports fixed error_message') = fixed.
Proof.
  intros code error_message error_message' fixed.
  pose proof (future_imports_lines code error_message) as Hlines.
  fold fixed in Hlines.
  split; [exact Hlines|]. split.
  { rewrite Hlines. apply future_first_permutation. }
  split.
  { rewrite Hlines. unfold future_first.
    destruct (split_lines code) as [|first rest].
    - exists [], [], []. repeat split; auto.
    - destruct (startswith first "#!").
      + exists [first], (filter imports_future rest),
          (filter (fun l => negb (imports_future l)) rest).
        repeat split; [simpl; lia|apply forallb_filter_self|].
        apply (forallb_filter_self _ (fun l => negb (imports_future l))).
      + exists [], (filter imports_future (first :: rest)),
          (filter (fun l => negb (imports_future l)) (first :: rest)).
        repeat split; [simpl; lia|apply forallb_filter_self|].
        apply (forallb_filter_self _ (fun l => negb (imports_future l))). }
  rewrite <- (join_split_lines (fix_code (_fix_future_imports fixed error_message'))).
  rewrite future_imports_lines, Hlines, future_first_idempotent, <- Hlines.
  apply join_split_lines.
Qed.

End FutureImports.

Section MissingColons.
Import PyStr CodeRectifier Vocabulary.

Lemma truthy_append_colon (a : string) : truthy (a ++ ":") = true.
Proof. destruct a; reflexivity. Qed.

Lemma rstrip_append_colon (a : string) : rstrip (a ++ ":") = (a ++ ":")%string.
Proof.
  induction a as [|c a IH]; [reflexivity|].
  change ((String c a ++ ":")%string) with (String c (a ++ ":")%string).
  cbn [rstrip]. rewrite IH, truthy_append_colon, andb_false_r. reflexivity.
Qed.

Lemma lstrip_append_colon (a : string) : lstrip (a ++ ":") = (lstrip a ++ ":")%string.
Proof.
  induction a as [|c a IH]; [reflexivity|].
  change ((String c a ++ ":")%string) with (String c (a ++ ":")%string).
  cbn [lstrip]. destruct (isspace c); [exact IH|reflexivity].
Qed.

Lemma endswith_append_colon (a : string) : endswith (a ++ ":") ":" = true.
Proof.
  induction a as [|c a IH]; [reflexivity|].
  change ((String c a ++ ":")%string) with (String c (a ++ ":")%string).
  cbn [endswith]. rewrite IH. apply orb_true_r.
Qed.

(** a line that got its colon does not lack one *)
Lemma with_colon_settled (line : string) : lacks_colon (with_colon line) = false.
Proof.
  unfold with_colon. destruct (lacks_colon line) eqn:Hl; [|exact Hl].
  unfold lacks_colon, strip.
  rewrite lstrip_append_colon, rstrip_append_colon, endswith_append_colon.
  apply andb_false_r.
Qed.

Lemma single_line_append (a b : string) :
  single_line a = true -> single_line b = true -> single_line (a ++ b) = true.
Proof.
  induction a as [|c a IH]; intros Ha Hb; [exact Hb|].
  cbn [single_line] in *. apply andb_prop in Ha. destruct Ha as [Hc Ha].
  change ((String c a ++ b)%string) with (String c (a ++ b)%string).
  cbn [single_line]. rewrite Hc, (IH Ha Hb). reflexivity.
Qed.

Lemma add_colons_spec (lines : list string) :
  forall i,
    fst (add_colons i lines) = map with_colon lines
    /\ List.length (snd (add_colons i lines)) = List.length (filter lacks_colon lines).
Proof.
  induction lines as [|line rest IH]; intros i; [split; reflexivity|].
  cbn [add_colons map filter]. destruct (IH (S i)) as [H1 H2].
  destruct (add_colons (S i) rest) as [lines' changes]. cbn [fst snd] in *.
  unfold with_colon. fold (lacks_colon line).
  destruct (lacks_colon line); cbn [fst snd List.length]; rewrite H1, H2; split; reflexivity.
Qed.

(** the lines [_fix_invalid_syntax] returns *)
Lemma invalid_syntax_lines (code error_message : string) :
  split_lines (fix_code (_fix_invalid_syntax code error_message))
  = map with_colon (split_lines code).
Proof.
  unfold _fix_invalid_syntax.
  pose proof (add_colons_spec (split_lines code) 0%nat) as [H1 _].
  destruct (add_colons 0 (split_lines code)) as [lines' changes].
  cbn [fst fix_code] in *. rewrite H1. apply split_join_lines.
  - pose proof (split_lines_nonempty code).
    destruct (split_lines code); [contradiction|discriminate].
  - pose proof (split_lines_single code) as Hs. clear H1.
    induction (split_lines code) as [|l ls IHl]; [reflexivity|].
    cbn [forallb map] in *. apply andb_prop in Hs. destruct Hs as [Hl Hls].
    rewrite (IHl Hls), andb_true_r. unfold with_colon.
    destruct (lacks_colon l); [|exact Hl].
    apply single_line_append; [exact Hl|reflexivity].
Qed.

(** X2.  [_fix_invalid_syntax] keeps every line in its place: the lines of
    its result are the lines of the code, each either unchanged or with one
    colon appended, the latter exactly for the lines that start with a
    control keyword and do not end with a colon.  It records one change per
    line changed and returns confidence 0.8 if a line changed, 0 if none
    did.  Applied to its own result it changes nothing and returns
    confidence 0. *)
Theorem fix_invalid_syntax_appends_colons :
  forall (code error_message error_message' : string),
    let lines := split_lines code in
    let result := _fix_invalid_syntax code error_message in
    split_lines (fix_code result) = map with_colon lines
    /\ List.length (fix_changes result) = List.length (filter lacks_colon lines)
    /\ fix_confidence result
       = (match filter lacks_colon lines with [] => 0 | _ => 0.8 end)
    /\ _fix_invalid_syntax (fix_code result) error_message'
       = mk_fix (fix_code result) [] 0.
Proof.
  intros code error_message error_message' lines result.
  pose proof (invalid_syntax_lines code error_message) as Hlines.
  fold result lines in Hlines.
  split; [exact Hlines|].
  assert (Hcount : List.length (fix_changes result)
                   = List.length (filter lacks_colon lines)
                   /\ fix_confidence result
                      = (match filter lacks_colon lines with [] => 0 | _ => 0.8 end)).
  { unfold result, _fix_invalid_syntax. fold lines.
    pose proof (add_colons_spec lines 0%nat) as [_ H2].
    destruct (add_colons 0 lines) as [lines' changes].
    cbn [snd fix_changes fix_confidence] in *. split; [exact H2|].
    destruct changes, (filter lacks_colon lines); try discriminate; reflexivity. }
  split; [tauto|]. split; [tauto|].
  unfold _fix_invalid_syntax at 1. rewrite Hlines.
  pose proof (add_colons_spec (map with_colon lines) 0%nat) as [H1 H2].
  assert (Hnone : filter lacks_colon (map with_colon lines) = []).
  { clear. induction lines as [|l ls IHl]; [reflexivity|].
    cbn [map filter]. rewrite with_colon_settled. exact IHl. }
  rewrite Hnone in H2.
  pose proof (add_colons_unchanged (map with_colon lines) 0%nat) as Hu.
  destruct (add_colons 0 (map with_colon lines)) as [lines' changes].
  cbn [fst snd] in *. destruct changes; [|discriminate].
  rewrite (Hu eq_refl), <- Hlines, join_split_lines. reflexivity.
Qed.

End MissingColons.

Section TabIndentation.
Import PyStr CodeRectifier Vocabulary.

Lemma all_spaces_append (a b : string) :
  all_spaces a = true -> all_spaces b = true -> all_spaces (a ++ b) = true.
Proof.
  induction a as [|c a IH]; intros Ha Hb; [exact Hb|].
  cbn [all_spaces] in Ha. apply andb_prop in Ha. destruct Ha as [Hc Ha].
  change ((String c a ++ b)%string) with (String c (a ++ b)%string).
  cbn [all_spaces]. rewrite Hc, (IH Ha Hb). reflexivity.
Qed.

Lemma all_spaces_repeat (s : string) (n : nat) :
  all_spaces s = true -> all_spaces (repeat_str s n) = true.
Proof.
  intros Hs. induction n as [|n IH]; [reflexivity|].
  cbn [repeat_str]. apply all_spaces_append; assumption.
Qed.

Lemma lstrip_all_spaces (a t : string) :
  all_spaces a = true -> lstrip (a ++ t) = lstrip t.
Proof.
  induction a as [|c a IH]; intros Ha; [reflexivity|].
  cbn [all_spaces] in Ha. apply andb_prop in Ha. destruct Ha as [Hc Ha].
  apply Ascii.eqb_eq in Hc. subst c.
  change ((String " " a ++ t)%string) with (String " " (a ++ t)%string).
  cbn [lstrip]. change (isspace " ") with true. cbv iota. exact (IH Ha).
Qed.

Lemma lstrip_idempotent (t : string) : lstrip (lstrip t) = lstrip t.
Proof.
  induction t as [|c t IH]; [reflexivity|].
  cbn [lstrip]. destruct (isspace c) eqn:Hc; [exact IH|].
  cbn [lstrip]. rewrite Hc. reflexivity.
Qed.

Lemma take_append (a t : string) : take (String.length a) (a ++ t) = a.
Proof.
  induction a as [|c a IH]; [destruct t; reflexivity|].
  change ((String c a ++ t)%string) with (String c (a ++ t)%string).
  cbn [String.length take]. rewrite IH. reflexivity.
Qed.

Lemma indent_of_spaces (a t : string) :
  all_spaces a = true -> indent_of (a ++ lstrip t) = a.
Proof.
  intros Ha. unfold indent_of.
  rewrite (lstrip_all_spaces a (lstrip t) Ha), lstrip_idempotent, length_append.
  replace (String.length a + String.length (lstrip t) - String.length (lstrip t))%nat
    with (String.length a) by lia.
  apply take_append.
Qed.

Lemma spaces_hold_no_tab (a : string) :
  all_spaces a = true -> contains a (String tab "") = false.
Proof.
  induction a as [|c a IH]; intros Ha; [reflexivity|].
  cbn [all_spaces] in Ha. apply andb_prop in Ha. destruct Ha as [Hc Ha].
  apply Ascii.eqb_eq in Hc. subst c.
  cbn [contains]. rewrite (IH Ha). reflexivity.
Qed.

Lemma spaces_single_line (a : string) : all_spaces a = true -> single_line a = true.
Proof.
  induction a as [|c a IH]; intros Ha; [reflexivity|].
  cbn [all_spaces] in Ha. apply andb_prop in Ha. destruct Ha as [Hc Ha].
  apply Ascii.eqb_eq in Hc. subst c.
  cbn [single_line]. rewrite (IH Ha). reflexivity.
Qed.

Lemma lstrip_single_line (t : string) : single_line t = true -> single_line (lstrip t) = true.
Proof.
  induction t as [|c t IH]; intros Ht; [reflexivity|].
  cbn [lstrip]. destruct (isspace c); [|exact Ht].
  cbn [single_line] in Ht. apply andb_prop in Ht. apply IH, Ht.
Qed.

Lemma new_indent_spaces (tabs spaces : nat) :
  all_spaces (repeat_str "    " tabs ++ repeat_str " " spaces) = true.
Proof. apply all_spaces_append; apply all_spaces_repeat; reflexivity. Qed.

Lemma normalized_eq (line : string) :
  tab_indented line = true ->
  normalized line
  = ((repeat_str "    " (count (indent_of line) tab)
      ++ repeat_str " " (count (indent_of line) " "%char))
     ++ lstrip line)%string.
Proof.
  intros H. unfold normalized. rewrite H.
  generalize (repeat_str "    " (count (indent_of line) tab)) as a.
  intros a. induction a as [|c a IH]; [reflexivity|].
  cbn [String.append]. f_equal. exact IH.
Qed.

(** a normalized line keeps its content *)
Lemma normalized_content (line : string) : lstrip (normalized line) = lstrip line.
Proof.
  destruct (tab_indented line) eqn:H.
  - rewrite (normalized_eq line H), lstrip_all_spaces by apply new_indent_spaces.
    apply lstrip_idempotent.
  - unfold normalized. rewrite H. reflexivity.
Qed.

(** a normalized line has no tab in its indentation *)
Lemma normalized_settled (line : string) : tab_indented (normalized line) = false.
Proof.
  destruct (tab_indented line) eqn:H.
  - rewrite (normalized_eq line H). unfold tab_indented.
    rewrite indent_of_spaces by apply new_indent_spaces.
    rewrite spaces_hold_no_tab by apply new_indent_spaces.
    apply andb_false_r.
  - unfold normalized. rewrite H. exact H.
Qed.

Lemma normalized_single_line (line : string) :
  single_line line = true -> single_line (normalized line) = true.
Proof.
  intros Hl. destruct (tab_indented line) eqn:H.
  - rewrite (normalized_eq line H). apply single_line_append.
    + apply spaces_single_line, new_indent_spaces.
    + apply lstrip_single_line, Hl.
  - unfold normalized. rewrite H. exact Hl.
Qed.

Lemma normalize_indentation_spec (lines : list string) :
  forall acc changes,
    fst (normalize_indentation lines acc changes) = acc ++ map normalized lines
    /\ List.length (snd (normalize_indentation lines acc changes))
       = (List.length changes + List.length (filter tab_indented lines))%nat.
Proof.
  induction lines as [|line rest IH]; intros acc changes.
  - cbn [normalize_indentation map filter fst snd List.length].
    rewrite app_nil_r. split; [reflexivity|lia].
  - cbn [normalize_indentation map filter].
    unfold normalized, tab_indented at 1 3. fold (indent_of line).
    destruct (truthy (strip line)); cbn [andb].
    + destruct (contains (indent_of line) (String tab "")).
      * match goal with |- context [normalize_indentation rest ?a ?c] =>
          destruct (IH a c) as [H1 H2] end.
        rewrite H1, H2, <- app_assoc, length_app. cbn [List.length app].
        generalize (repeat_str "    " (count (indent_of line) tab)) as a.
        intros a. split; [|lia]. do 2 f_equal.
        induction a as [|c a IHa]; [reflexivity|].
        cbn [String.append]. f_equal. exact IHa.
      * destruct (IH (acc ++ [line]) changes) as [H1 H2].
        rewrite H1, H2, <- app_assoc. split; reflexivity.
    + destruct (IH (acc ++ [line]) changes) as [H1 H2].
      rewrite H1, H2, <- app_assoc. split; reflexivity.
Qed.

Lemma indentation_lines (code error_message : string) :
  split_lines (fix_code (_fix_indentation_error code error_message))
  = map normalized (split_lines code).
Proof.
  unfold _fix_indentation_error.
  pose proof (normalize_indentation_spec (split_lines code) [] []) as [H1 _].
  destruct (normalize_indentation (split_lines code) [] []) as [lines' changes].
  cbn [fst fix_code app] in *. rewrite H1. clear H1. apply split_join_lines.
  - pose proof (split_lines_nonempty code).
    destruct (split_lines code); [contradiction|discriminate].
  - pose proof (split_lines_single code) as Hs.
    induction (split_lines code) as [|l ls IHl]; [reflexivity|].
    cbn [forallb map] in *. apply andb_prop in Hs. destruct Hs as [Hl Hls].
    rewrite (IHl Hls), (normalized_single_line l Hl). reflexivity.
Qed.

(** X3.  [_fix_indentation_error] keeps every line in its place and keeps
    what follows each line's leading whitespace; a line is rewritten exactly
    when it is not blank and has a tab in its leading whitespace, and no
    line of the result is such a line.  It records one change per line
    rewritten and returns confidence 0.8 if a line was rewritten, 0 if none
    was.  Applied to its own result it changes nothing and returns
    confidence 0. *)
Theorem fix_indentation_error_replaces_tabs :
  forall (code error_message error_message' : string),
    let lines := split_lines code in
    let result := _fix_indentation_error code error_message in
    split_lines (fix_code result) = map normalized lines
    /\ map lstrip (split_lines (fix_code result)) = map lstrip lines
    /\ forallb (fun line => negb (tab_indented line)) (split_lines (fix_code result)) = true
    /\ List.length (fix_changes result) = List.length (filter tab_indented lines)
    /\ fix_confidence result
       = (match filter tab_indented lines with [] => 0 | _ => 0.8 end)
    /\ _fix_indentation_error (fix_code result) error_message'
       = mk_fix (fix_code result) [] 0.
Proof.
  intros code error_message error_message' lines result.
  pose proof (indentation_lines code error_message) as Hlines.
  fold result lines in Hlines.
  split; [exact Hlines|].
  split.
  { rewrite Hlines, map_map. apply map_ext. exact normalized_content. }
  split.
  { rewrite Hlines. clear. induction lines as [|l ls IHl]; [reflexivity|].
    cbn [map forallb]. rewrite normalized_settled, IHl. reflexivity. }
  assert (Hcount : List.length (fix_changes result)
                   = List.length (filter tab_indented lines)
                   /\ fix_confidence result
                      = (match filter tab_indented lines with [] => 0 | _ => 0.8 end)).
  { unfold result, _fix_indentation_error. fold lines.
    pose proof (normalize_indentation_spec lines [] []) as [_ H2].
    destruct (normalize_indentation lines [] []) as [lines' changes].
    cbn [snd fix_changes fix_confidence List.length plus] in *. split; [exact H2|].
    destruct changes, (filter tab_indented lines); try discriminate; reflexivity. }
  split; [tauto|]. split; [tauto|].
  unfold _fix_indentation_error at 1. rewrite Hlines.
  pose proof (normalize_indentation_spec (map normalized lines) [] []) as [_ H2].
  assert (Hnone : filter tab_indented (map normalized lines) = []).
  { clear. induction lines as [|l ls IHl]; [reflexivity|].
    cbn [map filter]. rewrite normalized_settled. exact IHl. }
  rewrite Hnone in H2.
  pose proof (normalize_indentation_unchanged (map normalized lines) [] []) as Hu.
  destruct (normalize_indentation (map normalized lines) [] []) as [lines' changes].
  cbn [fst snd List.length plus] in *. destruct changes; [|discriminate].
  destruct (Hu eq_refl) as [_ Hu']. cbn [app] in Hu'.
  rewrite Hu', <- Hlines, join_split_lines. reflexivity.
Qed.

End TabIndentation.

(** ** The pattern step and the escalation *)
Section PatternStep.
Import PyStr CodeRectifier Spec Vocabulary.

(** what a fix function of the catalog answers: the code it was given, no
    change and confidence 0; or a change and one of the three levels *)
Lemma fix_outcome (source message : string) (r : FixResult) :
  In r [_fix_future_imports source message;
        _fix_invalid_syntax source message;
        _fix_indentation_error source message;
        _fix_name_error source message;
        no_fix source] ->
  (fix_changes r = [] /\ fix_confidence r = 0 /\ fix_code r = source)
  \/ (fix_changes r <> [] /\ In (fix_confidence r) fix_levels).
Proof.
  intros Hin. cbn [In] in Hin.
  destruct Hin as [<-|[<-|[<-|[<-|[<-|[]]]]]].
  - right. unfold _fix_future_imports.
    destruct (separate_future_imports _ _ _ _ _) as [[shebang fi] ol].
    cbn. split; [discriminate|auto].
  - unfold _fix_invalid_syntax.
    pose proof (add_colons_unchanged (split_lines source) 0%nat) as Hu.
    destruct (add_colons 0 (split_lines source)) as [lines' changes].
    cbn [fst snd fix_code fix_confidence fix_changes] in *.
    destruct changes.
    + left. rewrite (Hu eq_refl), join_split_lines. auto.
    + right. split; [discriminate|cbn; auto].
  - unfold _fix_indentation_error.
    pose proof (normalize_indentation_unchanged (split_lines source) [] []) as Hu.
    destruct (normalize_indentation (split_lines source) [] []) as [lines' changes].
    cbn [fst snd fix_code fix_confidence fix_changes] in *.
    destruct changes.
    + left. destruct (Hu eq_refl) as [_ Hl]. rewrite Hl. cbn [app].
      rewrite join_split_lines. auto.
    + right. split; [discriminate|cbn; auto].
  - unfold _fix_name_error.
    destruct (search_undefined_name message); [|left; cbn; auto].
    destruct (lookup _ _); [|left; cbn; auto].
    right. cbn. split; [discriminate|auto].
  - left. cbn. auto.
Qed.

Lemma first_fix_outcome (P : string * list string * Q -> Prop)
    (code error_message ty : string) (patterns : list (string * fix_func))
    (res : string * list string * Q) :
  Forall (fun entry => forall r, snd entry code error_message = Ok r ->
                                 P (fix_code r, fix_changes r, fix_confidence r))
         patterns ->
  P (code, [], 0) ->
  first_fix patterns code error_message ty = Ok res ->
  P res.
Proof.
  intros Hall Hnone. induction Hall as [|[pattern f] rest Hf _ IH]; cbn [first_fix].
  - intros H. inversion H; subst. exact Hnone.
  - destruct (triggers pattern error_message ty); [|exact IH].
    destruct (f code error_message) as [r|e] eqn:Hr.
    + intros H. inversion H; subst. apply (Hf r Hr).
    + destruct (is_Exception e); [exact IH|discriminate].
Qed.

Lemma pattern_fixes_outcome (p : parser) (code error_message ty det : string)
    (ch : list string) (conf : Q) :
  _apply_pattern_fixes p code error_message ty = Ok (det, ch, conf) ->
  (ch = [] /\ conf = 0 /\ det = code) \/ (ch <> [] /\ In conf fix_levels).
Proof.
  unfold _apply_pattern_fixes.
  apply (first_fix_outcome
           (fun res => (snd (fst res) = [] /\ snd res = 0 /\ fst (fst res) = code)
                       \/ (snd (fst res) <> [] /\ In (snd res) fix_levels)));
    [|left; cbn; auto].
  unfold error_patterns.
  repeat match goal with
         | |- Forall _ (_ :: _) => apply Forall_cons
         | |- Forall _ [] => apply Forall_nil
         end; cbn [snd fst]; unfold pure_fix; intros r Hr.
  2:{ unfold _analyze_syntax_error in Hr.
      destruct (p code) as [u|e]; [inversion Hr; left; cbn; auto|].
      destruct (is_SyntaxError e); [|discriminate].
      destruct (contains _ _).
      - inversion Hr; subst r. apply (fix_outcome code (exn_str e)).
        right; left; reflexivity.
      - destruct (contains _ _); inversion Hr; subst r.
        + apply (fix_outcome code (exn_str e)). right; right; left; reflexivity.
        + left; cbn; auto. }
  all: inversion Hr; subst r; apply (fix_outcome code error_message); cbn [In];
    first [ left; reflexivity
          | right; left; reflexivity
          | right; right; left; reflexivity
          | right; right; right; left; reflexivity
          | right; right; right; right; left; reflexivity ].
Qed.

Lemma levels_are_confident (conf : Q) :
  In conf fix_levels -> Qlt_bool conf 0.7 = false.
Proof.
  unfold fix_levels. cbn [In]. intros [<-|[<-|[<-|[]]]]; reflexivity.
Qed.

(** [rectify_code] when the escalation is not consulted *)
Lemma rectify_code_without_escalation (p : parser) (reply : ai_reply)
    (code error_message det : string) (ch : list string) (conf : Q) :
  _apply_pattern_fixes p code error_message
    (error_type (_analyze_error error_message code)) = Ok (det, ch, conf) ->
  needs_escalation det conf = false ->
  rectify_code p reply code error_message
  = Ok (mk_response (negb (det =? code)) (Some det) ch
          (_analyze_error error_message code) conf).
Proof.
  intros Hfix Hesc. unfold rectify_code. rewrite Hfix. cbn [bind].
  rewrite Hesc. cbn [bind]. unfold make_response. rewrite all_str_map_JStr.
  cbn [jtruthy jeq_str].
  unfold needs_escalation in Hesc. apply orb_false_elim in Hesc.
  destruct Hesc as [_ Ht]. apply negb_false_iff in Ht. rewrite Ht. reflexivity.
Qed.

(** X4.  The pattern step ends in one of two ways: no fix function
    recorded a change, the code is the original and the confidence is 0;
    or a change was recorded and the confidence is 0.8, 0.9 or 0.95.  So
    the test [confidence < 0.7 or not rectified_code] asks whether no
    change was recorded or the code is empty; and when it fails,
    [rectify_code] returns the result of the pattern step whatever the
    model would have replied. *)
Theorem confident_fix_needs_no_model :
  forall (p : parser) (code error_message : string),
    parser_behaves p code = true ->
    exists det ch conf,
      _apply_pattern_fixes p code error_message
        (error_type (_analyze_error error_message code)) = Ok (det, ch, conf)
      /\ ((ch = [] /\ conf = 0 /\ det = code) \/ (ch <> [] /\ In conf fix_levels))
      /\ needs_escalation det conf
         = match ch with [] => true | _ => negb (truthy det) end
      /\ (needs_escalation det conf = false ->
          forall reply,
            rectify_code p reply code error_message
            = Ok (mk_response (negb (det =? code)) (Some det) ch
                    (_analyze_error error_message code) conf)).
Proof.
  intros p code error_message Hp.
  destruct (pattern_fixes_return p code error_message
              (error_type (_analyze_error error_message code)) Hp)
    as [[[det ch] conf] Hfix].
  exists det, ch, conf. split; [exact Hfix|].
  pose proof (pattern_fixes_outcome _ _ _ _ _ _ _ Hfix) as Hout.
  split; [exact Hout|]. split.
  - unfold needs_escalation. destruct Hout as [(-> & -> & _)|[Hch Hconf]].
    + reflexivity.
    + rewrite (levels_are_confident conf Hconf).
      destruct ch; [contradiction|reflexivity].
  - intros Hesc reply. apply rectify_code_without_escalation; assumption.
Qed.

Lemma confident_fix_needs_no_model_witness :
  exists det ch conf,
    _apply_pattern_fixes parses "print(math.pi)" name_error_message
      (error_type (_analyze_error name_error_message "print(math.pi)"))
    = Ok (det, ch, conf)
    /\ ((ch = [] /\ conf = 0 /\ det = "print(math.pi)")
        \/ (ch <> [] /\ In conf fix_levels))
    /\ needs_escalation det conf
       = match ch with [] => true | _ => negb (truthy det) end
    /\ (needs_escalation det conf = false ->
        forall reply,
          rectify_code parses reply "print(math.pi)" name_error_message
          = Ok (mk_response (negb (det =? "print(math.pi)")) (Some det) ch
                  (_analyze_error name_error_message "print(math.pi)") conf)).
Proof.
  apply (confident_fix_needs_no_model parses "print(math.pi)" name_error_message).
  reflexivity.
Defined.

Lemma future_first_of_nonempty (code error_message : string) :
  truthy code = true ->
  truthy (fix_code (_fix_future_imports code error_message)) = true.
Proof.
  intros Hc.
  destruct (fix_code (_fix_future_imports code error_message)) as [|c s] eqn:Hf;
    [|reflexivity].
  exfalso.
  pose proof (future_imports_lines code error_message) as Hl.
  rewrite Hf in Hl. cbn [split_lines] in Hl.
  pose proof (future_first_permutation (split_lines code)) as Hp.
  rewrite <- Hl in Hp. apply Permutation_sym, Permutation_length_1_inv in Hp.
  pose proof (join_split_lines code) as Hj. rewrite Hp in Hj.
  rewrite <- Hj in Hc. discriminate.
Qed.

(** X5.  A message that holds the text of the first catalog entry is
    answered by [_fix_future_imports] alone: [rectify_code] returns the
    reordered code with confidence 0.95 and never consults the model nor
    the parser.  When the lines of the code are already in the order the
    fix produces, the response carries the original code and [success] is
    false. *)
Theorem future_import_message_needs_no_model :
  forall (p : parser) (reply : ai_reply) (code error_message : string),
    truthy code = true ->
    contains (lower error_message) future_import_text = true ->
    let fixed := fix_code (_fix_future_imports code error_message) in
    rectify_code p reply code error_message
    = Ok (mk_response (negb (fixed =? code)) (Some fixed) [moved_text]
            (_analyze_error error_message code) 0.95)
    /\ (future_first (split_lines code) = split_lines code ->
        rectify_code p reply code error_message
        = Ok (mk_response false (Some code) [moved_text]
                (_analyze_error error_message code) 0.95)).
Proof.
  intros p reply code error_message Hc Hm fixed.
  assert (Hfix : _apply_pattern_fixes p code error_message
                   (error_type (_analyze_error error_message code))
                 = Ok (fixed, [moved_text], 0.95)).
  { unfold _apply_pattern_fixes, error_patterns. cbn [first_fix]. unfold triggers at 1.
    change (lower "from __future__ imports must occur at the beginning")
      with future_import_text.
    rewrite Hm. cbn [orb]. unfold pure_fix. unfold fixed, _fix_future_imports.
    destruct (separate_future_imports _ _ _ _ _) as [[shebang fi] ol]. reflexivity. }
  assert (Hesc : needs_escalation fixed 0.95 = false).
  { unfold needs_escalation, fixed.
    rewrite (future_first_of_nonempty code error_message Hc). reflexivity. }
  pose proof (rectify_code_without_escalation p reply _ _ _ _ _ Hfix Hesc) as Hr.
  split; [exact Hr|].
  intros Hordered.
  assert (Hsame : fixed = code).
  { rewrite <- (join_split_lines fixed). unfold fixed.
    rewrite future_imports_lines, Hordered. apply join_split_lines. }
  rewrite Hr, Hsame, String.eqb_refl. reflexivity.
Qed.

Lemma future_import_message_needs_no_model_witness :
  let code := ("x = 1; from __future__ import division" ++ nl ++ "print(x / 2)")%string in
  let error_message :=
    "SyntaxError: from __future__ imports must occur at the beginning of the file" in
  let fixed := fix_code (_fix_future_imports code error_message) in
  rectify_code parses (ContentText "sorry") code error_message
  = Ok (mk_response (negb (fixed =? code)) (Some fixed) [moved_text]
          (_analyze_error error_message code) 0.95)
  /\ (future_first (split_lines code) = split_lines code ->
      rectify_code parses (ContentText "sorry") code error_message
      = Ok (mk_response false (Some code) [moved_text]
              (_analyze_error error_message code) 0.95)).
Proof.
  apply (future_import_message_needs_no_model parses (ContentText "sorry")
           ("x = 1; from __future__ import division" ++ nl ++ "print(x / 2)")%string
           "SyntaxError: from __future__ imports must occur at the beginning of the file");
    reflexivity.
Defined.

(** X6.  An escalation that brings nothing leaves the result of the
    pattern step: when the model call raises an [Exception], or the reply
    is text without a fenced block or falsy JSON, [rectify_code] returns
    the code, the changes and the confidence of the pattern step; and when
    no fix function recorded a change this is the original code with
    [success] false and confidence 0. *)
Theorem silent_escalation_keeps_the_pattern_result :
  forall (p : parser) (reply : ai_reply) (code error_message det : string)
         (ch : list string) (conf : Q),
    _apply_pattern_fixes p code error_message
      (error_type (_analyze_error error_message code)) = Ok (det, ch, conf) ->
    silent reply = true ->
    rectify_code p reply code error_message
    = Ok (mk_response (truthy det && negb (det =? code)) (Some det) ch
            (_analyze_error error_message code) conf)
    /\ (ch = [] ->
        rectify_code p reply code error_message
        = Ok (mk_response false (Some code) []
                (_analyze_error error_message code) 0)).
Proof.
  intros p reply code error_message det ch conf Hfix Hs.
  assert (Hr : rectify_code p reply code error_message
               = Ok (mk_response (truthy det && negb (det =? code)) (Some det) ch
                       (_analyze_error error_message code) conf)).
  { unfold rectify_code. rewrite Hfix. cbn [bind].
    assert (Hesc : escalate reply code error_message
                     (_analyze_error error_message code) det ch conf
                   = Ok (JStr det, map JStr ch, conf)).
    { unfold escalate, _ai_rectify_code.
      destruct reply as [e|v|content]; cbn [silent] in Hs.
      - rewrite Hs. reflexivity.
      - cbn [bind]. apply negb_true_iff in Hs. rewrite Hs. reflexivity.
      - destruct (search_fenced_code content); [discriminate|reflexivity]. }
    rewrite Hesc.
    destruct (needs_escalation det conf); cbn [bind];
      unfold make_response; rewrite all_str_map_JStr; reflexivity. }
  split; [exact Hr|].
  intros ->. rewrite Hr.
  destruct (pattern_fixes_outcome _ _ _ _ _ _ _ Hfix) as [(_ & -> & ->)|[Hch _]];
    [|contradiction].
  rewrite String.eqb_refl, andb_false_r. reflexivity.
Qed.

Lemma silent_escalation_keeps_the_pattern_result_witness :
  rectify_code parses (InvokeRaises (raised RuntimeError "connection lost"))
    adds_text type_error_message
  = Ok (mk_response (truthy adds_text && negb (adds_text =? adds_text)) (Some adds_text) []
          (_analyze_error type_error_message adds_text) 0)
  /\ (@nil string = [] ->
      rectify_code parses (InvokeRaises (raised RuntimeError "connection lost"))
        adds_text type_error_message
      = Ok (mk_response false (Some adds_text) []
              (_analyze_error type_error_message adds_text) 0)).
Proof.
  apply (silent_escalation_keeps_the_pattern_result parses
           (InvokeRaises (raised RuntimeError "connection lost"))
           adds_text type_error_message adds_text [] 0);
    reflexivity.
Defined.

(** X7.  A reply that is not JSON but holds a fenced block: when the
    escalation is consulted, [rectify_code] returns the stripped content of
    the first block as the code, adds the change "AI-generated fixes
    applied" to those of the pattern step, and returns the greater of the
    pattern confidence and 0.7, which is 0.7 when no fix function recorded
    a change. *)
Theorem fenced_reply_becomes_the_code :
  forall (p : parser) (content group code error_message det : string)
         (ch : list string) (conf : Q),
    _apply_pattern_fixes p code error_message
      (error_type (_analyze_error error_message code)) = Ok (det, ch, conf) ->
    needs_escalation det conf = true ->
    search_fenced_code content = Some group ->
    rectify_code p (ContentText content) code error_message
    = Ok (mk_response (truthy (strip group) && negb (strip group =? code))
            (Some (strip group)) (ch ++ ["AI-generated fixes applied"])
            (_analyze_error error_message code) (py_max conf 0.7))
    /\ (ch = [] -> py_max conf 0.7 = 0.7).
Proof.
  intros p content group code error_message det ch conf Hfix Hesc Hg.
  split.
  - unfold rectify_code. rewrite Hfix. cbn [bind]. rewrite Hesc.
    unfold escalate, _ai_rectify_code. rewrite Hg.
    cbn. unfold make_response.
    rewrite (all_str_app (map JStr ch) [JStr "AI-generated fixes applied"]
               ch ["AI-generated fixes applied"]
               (all_str_map_JStr ch) eq_refl).
    reflexivity.
  - intros ->.
    destruct (pattern_fixes_outcome _ _ _ _ _ _ _ Hfix) as [(_ & -> & _)|[Hch _]];
      [reflexivity|contradiction].
Qed.

Lemma fenced_reply_becomes_the_code_witness :
  let content := ("Here you are:" ++ nl ++ "```python" ++ nl
                  ++ "print(1 + int('1'))" ++ nl ++ "```")%string in
  rectify_code parses (ContentText content) adds_text type_error_message
  = Ok (mk_response (truthy (strip "print(1 + int('1'))")
                     && negb (strip "print(1 + int('1'))" =? adds_text))
          (Some (strip "print(1 + int('1'))")) ([] ++ ["AI-generated fixes applied"])
          (_analyze_error type_error_message adds_text) (py_max 0 0.7))
  /\ (@nil string = [] -> py_max 0 0.7 = 0.7).
Proof.
  apply (fenced_reply_becomes_the_code parses
           ("Here you are:" ++ nl ++ "```python" ++ nl
            ++ "print(1 + int('1'))" ++ nl ++ "```")%string
           "print(1 + int('1'))" adds_text type_error_message adds_text [] 0);
    reflexivity.
Defined.

End PatternStep.

(** ** The nodes *)
Section GeneratorNode.
Import PyStr Vocabulary.

Lemma lstrip_no_lead (s : string) : no_lead (lstrip s) = true.
Proof.
  induction s as [|c s IH]; [reflexivity|].
  cbn [lstrip]. destruct (isspace c) eqn:Hc; [exact IH|].
  cbn [no_lead]. rewrite Hc. reflexivity.
Qed.

Lemma lstrip_of_no_lead (s : string) : no_lead s = true -> lstrip s = s.
Proof.
  destruct s as [|c s]; [reflexivity|].
  cbn [no_lead lstrip]. intros H. apply negb_true_iff in H. rewrite H. reflexivity.
Qed.

Lemma rstrip_no_lead (s : string) : no_lead s = true -> no_lead (rstrip s) = true.
Proof.
  destruct s as [|c s]; [reflexivity|].
  cbn [no_lead rstrip]. intros H. apply negb_true_iff in H. rewrite H.
  cbn [andb no_lead]. rewrite H. reflexivity.
Qed.

Lemma rstrip_idempotent (s : string) : rstrip (rstrip s) = rstrip s.
Proof.
  induction s as [|c s IH]; [reflexivity|].
  cbn [rstrip]. destruct (isspace c && negb (truthy (rstrip s))) eqn:Hc; [reflexivity|].
  cbn [rstrip]. rewrite IH, Hc. reflexivity.
Qed.

Lemma strip_idempotent (s : string) : strip (strip s) = strip s.
Proof.
  unfold strip.
  rewrite (lstrip_of_no_lead (rstrip (lstrip s)))
    by (apply rstrip_no_lead, lstrip_no_lead).
  apply rstrip_idempotent.
Qed.

Lemma endswith_append (a b : string) : endswith (a ++ b) b = true.
Proof.
  induction a as [|c a IH].
  - destruct b; cbn [String.append endswith]; rewrite String.eqb_refl; reflexivity.
  - change ((String c a ++ b)%string) with (String c (a ++ b)%string).
    cbn [endswith]. rewrite IH. apply orb_true_r.
Qed.

Lemma prefix_append (a b : string) : prefix a (a ++ b) = true.
Proof.
  induction a as [|c a IH]; [destruct b; reflexivity|].
  cbn [String.append prefix]. destruct (ascii_dec c c); [exact IH|contradiction].
Qed.

Lemma drop_last_append (a b : string) : drop_last (String.length b) (a ++ b) = a.
Proof.
  unfold drop_last. rewrite length_append.
  replace (String.length a + String.length b - String.length b)%nat
    with (String.length a) by lia.
  apply take_append.
Qed.

(** X8.  [CodeGeneratorNode._execute] removes one pair of markers: when the
    reply, stripped, is [```python], a body and [```], the code stored is
    the stripped body.  Whatever the reply, the code stored is stripped,
    the routing token is [syntax_checker], and no other key of the state
    changes. *)
Theorem generator_unwraps_the_python_fence :
  forall (content : string) (state : State.CodeGenerationState),
  exists code,
    CodeGeneratorNode._execute (Ok content) state
    = Ok (State.with_current_node State.syntax_checker
            (State.with_generated_code code state))
    /\ strip code = code
    /\ forall body,
         strip content = (python_fence ++ body ++ closing_fence)%string ->
         code = strip body.
Proof.
  intros content state. unfold CodeGeneratorNode._execute.
  eexists. split; [reflexivity|]. split; [apply strip_idempotent|].
  intros body Hb. rewrite Hb.
  change "```python" with python_fence. unfold startswith.
  rewrite prefix_append.
  change (drop 9 (python_fence ++ body ++ closing_fence))
    with ((body ++ closing_fence)%string).
  change "```" with closing_fence.
  rewrite endswith_append.
  change 3%nat with (String.length closing_fence).
  rewrite drop_last_append. reflexivity.
Qed.

Lemma generator_unwraps_the_python_fence_witness :
  exists code,
    CodeGeneratorNode._execute
      (Ok ("```python" ++ nl ++ "print(1)" ++ nl ++ "```" ++ nl)%string)
      (CodeGeneratorWorkflow.initial_state "one" None)
    = Ok (State.with_current_node State.syntax_checker
            (State.with_generated_code code
               (CodeGeneratorWorkflow.initial_state "one" None)))
    /\ strip code = code
    /\ code = strip (nl ++ "print(1)" ++ nl)%string.
Proof.
  destruct (generator_unwraps_the_python_fence
              ("```python" ++ nl ++ "print(1)" ++ nl ++ "```" ++ nl)%string
              (CodeGeneratorWorkflow.initial_state "one" None))
    as (code & H1 & H2 & H3).
  exists code. split; [exact H1|]. split; [exact H2|].
  apply H3. reflexivity.
Defined.

End GeneratorNode.

Section RectifierNode.
Import PyStr Spec Vocabulary.

(** every response of [rectify_code] marks whether the code changed *)
Lemma rectify_code_marks_change (p : CodeRectifier.parser) (reply : CodeRectifier.ai_reply)
    (code error_message : string) (r : CodeRectifier.CodeRectificationResponse) :
  CodeRectifier.rectify_code p reply code error_message = Ok r ->
  CodeRectifier.success r = changed (CodeRectifier.rectified_code r) code.
Proof.
  unfold CodeRectifier.rectify_code.
  destruct (CodeRectifier._apply_pattern_fixes p code error_message _) as [[[rc ch] conf]|e];
    cbn [bind]; [|discriminate].
  destruct (match CodeRectifier.needs_escalation rc conf with true => _ | false => _ end)
    as [[[fc fch] fconf]|e]; cbn [bind]; [|discriminate].
  intros Hm. apply make_response_success in Hm. tauto.
Qed.

Lemma has_error_message (s : CodeGenerationState) :
  has_error (execution_results s) = true ->
  truthy (CodeRectifierNode.error_message_of s) = true
  /\ er_error (execution_results s) = Some (CodeRectifierNode.error_message_of s).
Proof.
  unfold CodeRectifierNode.error_message_of, has_error.
  destruct (er_error (execution_results s)) as [e|]; [|discriminate].
  intros H. rewrite H. auto.
Qed.

(** a rectifier that routes back to the checker stored a non-empty code
    and left the execution results alone *)
Lemma rectifier_routes_back_with_code (p : CodeRectifier.parser) (reply : CodeRectifier.ai_reply)
    (s s' : CodeGenerationState) :
  CodeRectifierNode._execute p reply s = Ok s' ->
  current_node s' = syntax_checker ->
  truthy (active_code s') = true
  /\ rectified_code s' = active_code s'
  /\ execution_results s' = execution_results s.
Proof.
  unfold CodeRectifierNode._execute.
  destruct (_ || _).
  { intros H; inversion H; subst. discriminate. }
  destruct (rectification_attempts s >=? 3)%Z.
  { intros H; inversion H; subst. discriminate. }
  destruct (CodeRectifier.rectify_code p reply (active_code s) (CodeRectifierNode.error_message_of s))
    as [response|e].
  - destruct (CodeRectifier.rectified_code response) as [code|].
    + destruct (CodeRectifier.success response && truthy code) eqn:Hok;
        intros H; inversion H; subst; [|discriminate].
      intros _. apply andb_prop in Hok. destruct Hok as [_ Ht].
      unfold active_code.
      cbn [rectified_code generated_code with_current_node with_error_analysis
           with_rectification_attempts with_execution_errors with_generated_code
           with_rectified_code].
      rewrite Ht. cbn. auto.
    + intros H; inversion H; subst. discriminate.
  - destruct (is_Exception e); intros H; inversion H; subst. discriminate.
Qed.

(** X9.  What [CodeRectifierNode._execute] does to the code.  When it
    routes back to the syntax checker, the code it stored is not empty and
    differs from the code it was given; it is stored under both
    [rectified_code] and [generated_code]; [execution_errors] holds the one
    message that was worked on; one attempt is counted; and the execution
    results, with the error that was worked on, are left as they were.
    Otherwise it routes to [END] and the code is left as it was. *)
Theorem rectifier_node_changes_the_code_or_stops :
  forall (p : CodeRectifier.parser) (reply : CodeRectifier.ai_reply) (s s' : CodeGenerationState),
    CodeRectifierNode._execute p reply s = Ok s' ->
    (current_node s' = syntax_checker
     /\ truthy (active_code s') = true
     /\ active_code s' <> active_code s
     /\ rectified_code s' = active_code s'
     /\ generated_code s' = active_code s'
     /\ execution_errors s' = [CodeRectifierNode.error_message_of s]
     /\ rectification_attempts s' = (rectification_attempts s + 1)%Z
     /\ execution_results s' = execution_results s)
    \/ (current_node s' = END
        /\ generated_code s' = generated_code s
        /\ rectified_code s' = rectified_code s
        /\ execution_errors s' = execution_errors s
        /\ syntax_errors s' = syntax_errors s).
Proof.
  intros p reply s s'. unfold CodeRectifierNode._execute.
  destruct (_ || _).
  { intros H; inversion H; subst. right. cbn. auto. }
  destruct (rectification_attempts s >=? 3)%Z.
  { intros H; inversion H; subst. right. cbn. auto. }
  destruct (CodeRectifier.rectify_code p reply (active_code s) (CodeRectifierNode.error_message_of s))
    as [response|e] eqn:Hr.
  - apply rectify_code_marks_change in Hr.
    destruct (CodeRectifier.rectified_code response) as [code|].
    + destruct (CodeRectifier.success response && truthy code) eqn:Hok;
        intros H; inversion H; subst; [left|right; cbn; auto].
      apply andb_prop in Hok. destruct Hok as [Hs Ht].
      rewrite Hs in Hr. cbn [changed] in Hr. symmetry in Hr.
      apply andb_prop in Hr. destruct Hr as [_ Hne].
      apply negb_true_iff, String.eqb_neq in Hne.
      set (orig := active_code s) in *.
      set (message := CodeRectifierNode.error_message_of s) in *.
      unfold active_code.
      cbn [rectified_code generated_code with_current_node with_error_analysis
           with_rectification_attempts with_execution_errors with_generated_code
           with_rectified_code].
      rewrite Ht. cbn. repeat split; auto.
    + intros H; inversion H; subst. right. cbn. auto.
  - destruct (is_Exception e); intros H; inversion H; subst. right. cbn. auto.
Qed.

Lemma rectifier_node_changes_the_code_or_stops_witness :
  (current_node rectified_math = syntax_checker
   /\ truthy (active_code rectified_math) = true
   /\ active_code rectified_math <> active_code undefined_math
   /\ rectified_code rectified_math = active_code rectified_math
   /\ generated_code rectified_math = active_code rectified_math
   /\ execution_errors rectified_math = [CodeRectifierNode.error_message_of undefined_math]
   /\ rectification_attempts rectified_math
      = (rectification_attempts undefined_math + 1)%Z
   /\ execution_results rectified_math = execution_results undefined_math)
  \/ (current_node rectified_math = END
      /\ generated_code rectified_math = generated_code undefined_math
      /\ rectified_code rectified_math = rectified_code undefined_math
      /\ execution_errors rectified_math = execution_errors undefined_math
      /\ syntax_errors rectified_math = syntax_errors undefined_math).
Proof.
  apply (rectifier_node_changes_the_code_or_stops parses (CodeRectifier.ContentText "sorry")
           undefined_math rectified_math).
  vm_compute. reflexivity.
Defined.

(** X10.  After a rectification the formatter's work is lost, and a new
    diagnostic is not what the next rectification works on.  Let the
    rectifier route state [s] back to the syntax checker, and let the
    checker return: the code the next node takes is the code the rectifier
    stored, whatever black or autopep8 answered (their answer goes under
    [generated_code], which is read only when [rectified_code] is empty);
    and if [s] held an execution error, the message a rectifier invoked
    next works on is that same error, whatever flake8 reported. *)
Theorem after_rectification_the_checker_changes_nothing :
  forall (p : CodeRectifier.parser) (reply : CodeRectifier.ai_reply) (t : SyntaxCheckerNode.tools)
         (s s1 s2 : CodeGenerationState),
    CodeRectifierNode._execute p reply s = Ok s1 ->
    current_node s1 = syntax_checker ->
    SyntaxCheckerNode._execute t s1 = Ok s2 ->
    active_code s2 = active_code s1
    /\ (forall code' errors,
           SyntaxCheckerNode.check t (active_code s1) = Ok (code', errors) ->
           generated_code s2 = code' /\ syntax_errors s2 = errors)
    /\ (has_error (execution_results s) = true ->
        CodeRectifierNode.error_message_of s2 = CodeRectifierNode.error_message_of s).
Proof.
  intros p reply t s s1 s2 H1 Hnode H2.
  destruct (rectifier_routes_back_with_code p reply s s1 H1 Hnode)
    as (Ht & Hrc & Hres).
  assert (Hrt : truthy (rectified_code s1) = true) by (rewrite Hrc; exact Ht).
  unfold SyntaxCheckerNode._execute in H2. rewrite Ht in H2. cbn [negb] in H2.
  destruct (SyntaxCheckerNode.check t (active_code s1)) as [[code' errors]|e].
  - inversion H2; subst s2. clear H2.
    assert (Hact : forall n,
               active_code (with_current_node n
                              (with_syntax_errors errors (with_generated_code code' s1)))
               = active_code s1).
    { intros n. unfold active_code.
      cbn [rectified_code generated_code with_current_node with_syntax_errors
           with_generated_code].
      rewrite Hrt. reflexivity. }
    split; [apply Hact|]. split.
    + intros c' e' H. inversion H; subst. cbn. auto.
    + intros Hhas.
      unfold CodeRectifierNode.error_message_of.
      cbn [execution_results with_current_node with_syntax_errors with_generated_code].
      rewrite Hres, Hhas. reflexivity.
  - destruct (is_Exception e); [|discriminate].
    inversion H2; subst s2. clear H2.
    split; [unfold active_code; cbn; rewrite Hrt; reflexivity|].
    split; [intros c' e' H; discriminate|].
    intros Hhas. unfold CodeRectifierNode.error_message_of.
    cbn [execution_results with_current_node with_syntax_errors].
    rewrite Hres, Hhas. reflexivity.
Qed.

Lemma after_rectification_the_checker_changes_nothing_witness :
  active_code (Vocabulary.checked_with Vocabulary.formatting Vocabulary.rectified_math)
  = active_code Vocabulary.rectified_math
  /\ (forall code' errors,
         SyntaxCheckerNode.check Vocabulary.formatting
           (active_code Vocabulary.rectified_math) = Ok (code', errors) ->
         generated_code
           (Vocabulary.checked_with Vocabulary.formatting Vocabulary.rectified_math) = code'
         /\ syntax_errors
              (Vocabulary.checked_with Vocabulary.formatting Vocabulary.rectified_math)
            = errors)
  /\ (has_error (execution_results Vocabulary.undefined_math) = true ->
      CodeRectifierNode.error_message_of
        (Vocabulary.checked_with Vocabulary.formatting Vocabulary.rectified_math)
      = CodeRectifierNode.error_message_of Vocabulary.undefined_math).
Proof.
  apply (after_rectification_the_checker_changes_nothing Spec.parses
           (CodeRectifier.ContentText "sorry") Vocabulary.formatting
           Vocabulary.undefined_math Vocabulary.rectified_math
           (Vocabulary.checked_with Vocabulary.formatting Vocabulary.rectified_math));
    vm_compute; reflexivity.
Defined.

(** the formatter's layout is stored, and is not the code that runs *)
Example formatted_code_is_not_the_active_code :
  generated_code (Vocabulary.checked_with Vocabulary.formatting Vocabulary.rectified_math)
  = ("import math" ++ PyStr.nl ++ PyStr.nl ++ "print(math.pi)" ++ PyStr.nl)%string
  /\ active_code (Vocabulary.checked_with Vocabulary.formatting Vocabulary.rectified_math)
     = ("import math" ++ PyStr.nl ++ "print(math.pi)")%string.
Proof. vm_compute. split; reflexivity. Qed.

End RectifierNode.

(** ** Invariants of a run *)
Section RunInvariants.
Import PyStr CodeGeneratorWorkflow Spec Vocabulary.

Lemma critical_message (errors : list string) :
  SyntaxCheckerNode.critical errors = true -> truthy (join "; " errors) = true.
Proof.
  unfold SyntaxCheckerNode.critical, join.
  destruct errors as [|x [|y l]]; cbn [existsb String.concat].
  - discriminate.
  - rewrite orb_false_r. destruct x; [discriminate|reflexivity].
  - intros _. destruct x; reflexivity.
Qed.

Lemma reformatted_truthy (code : string) (run : Z * string) :
  truthy code = true -> truthy (SyntaxCheckerNode.reformatted code run) = true.
Proof.
  intros Hc. unfold SyntaxCheckerNode.reformatted.
  destruct (fst run =? 0)%Z; cbn [andb]; [|exact Hc].
  destruct (truthy (snd run)) eqn:Ht; [exact Ht|exact Hc].
Qed.

Lemma check_keeps_code (t : SyntaxCheckerNode.tools) (code code' : string)
    (errors : list string) :
  SyntaxCheckerNode.check t code = Ok (code', errors) ->
  truthy code = true ->
  truthy code' = true.
Proof.
  intros H Hc. unfold SyntaxCheckerNode.check in H.
  destruct (SyntaxCheckerNode.tempfile t); cbn [bind] in H; [|discriminate].
  destruct (match SyntaxCheckerNode.flake8 t with Ok _ => _ | Raise _ => _ end)
    as [syntax_errors|]; cbn [bind] in H; [|discriminate].
  destruct (negb (SyntaxCheckerNode.critical syntax_errors)).
  - destruct (SyntaxCheckerNode.black t) as [run|e].
    + cbn [bind] in H. inversion H; subst. apply reformatted_truthy, Hc.
    + destruct (is_tool_unavailable e); [|discriminate].
      destruct (SyntaxCheckerNode.autopep8 t) as [run|e'].
      * cbn [bind] in H. inversion H; subst. apply reformatted_truthy, Hc.
      * destruct (is_tool_unavailable e'); [|discriminate].
        cbn [bind] in H. inversion H; subst. exact Hc.
  - cbn [bind] in H. inversion H; subst. exact Hc.
Qed.

(** what the checker leaves when it does not end the run *)
Lemma checker_passes_code (t : SyntaxCheckerNode.tools) (s s' : CodeGenerationState) :
  SyntaxCheckerNode._execute t s = Ok s' ->
  current_node s' <> END ->
  truthy (active_code s') = true
  /\ (current_node s' = code_rectifier ->
      truthy (CodeRectifierNode.error_message_of s') = true).
Proof.
  unfold SyntaxCheckerNode._execute.
  destruct (truthy (active_code s)) eqn:Hc; cbn [negb].
  2:{ intros H; inversion H; subst. intros Hn. exfalso. apply Hn. reflexivity. }
  destruct (SyntaxCheckerNode.check t (active_code s)) as [[code' errors]|e] eqn:Hk.
  - intros H _. inversion H; subst s'. clear H.
    pose proof (check_keeps_code _ _ _ _ Hk Hc) as Hc'.
    split.
    + unfold active_code in *.
      cbn [rectified_code generated_code with_current_node with_syntax_errors
           with_generated_code].
      destruct (truthy (rectified_code s)); [exact Hc|exact Hc'].
    + cbn [current_node with_current_node].
      destruct (match errors with [] => false | _ => true end
                && SyntaxCheckerNode.critical errors) eqn:Hcrit.
      * intros _. apply andb_prop in Hcrit. destruct Hcrit as [_ Hcrit].
        unfold CodeRectifierNode.error_message_of.
        cbn [execution_results syntax_errors with_current_node with_syntax_errors
             with_generated_code].
        destruct (has_error (execution_results s)) eqn:Hhas.
        -- unfold has_error in Hhas.
           destruct (er_error (execution_results s)); [exact Hhas|discriminate].
        -- pose proof (critical_message errors Hcrit) as Hm.
           destruct errors; [discriminate|exact Hm].
      * destruct (List.length errors =? 0)%nat; discriminate.
  - destruct (is_Exception e); [|discriminate].
    intros H _. inversion H; subst s'. clear H. split.
    + exact Hc.
    + intros _. unfold CodeRectifierNode.error_message_of.
      cbn [execution_results syntax_errors with_current_node with_syntax_errors].
      destruct (has_error (execution_results s)) eqn:Hhas.
      * unfold has_error in Hhas.
        destruct (er_error (execution_results s)); [exact Hhas|discriminate].
      * reflexivity.
Qed.

(** what the executor leaves when it does not end the run *)
Lemma executor_passes_error (c : CodeExecutorNode.context) (s s' : CodeGenerationState) :
  CodeExecutorNode._execute c s = Ok s' ->
  current_node s' <> END ->
  truthy (active_code s') = true
  /\ truthy (CodeRectifierNode.error_message_of s') = true.
Proof.
  unfold CodeExecutorNode._execute.
  destruct (truthy (active_code s)) eqn:Hc; cbn [negb].
  2:{ intros H; inversion H; subst. intros Hn. exfalso. apply Hn. reflexivity. }
  destruct (CodeExecutorNode.dispatch c (active_code s)) as [r|e].
  - destruct (negb (succeeded r) && has_error r) eqn:Hfail;
      intros H Hn; inversion H; subst s'; [|exfalso; apply Hn; reflexivity].
    split; [exact Hc|].
    apply andb_prop in Hfail. destruct Hfail as [_ Hhas].
    apply (has_error_message
             (with_current_node code_rectifier (with_execution_results r s)) Hhas).
  - destruct (is_Exception e); [|discriminate].
    intros H _. inversion H; subst s'. split; [exact Hc|reflexivity].
Qed.

(** the states in which the executor and the rectifier are invoked hold a
    code, and those of the rectifier an error message *)
Lemma reached_with_code (env : nat -> collaborators) (s0 : CodeGenerationState)
    (k : nat) (n : node) (s : CodeGenerationState) :
  reaches env s0 k n s ->
  match n with
  | generator => k = 0%nat
  | checker => True
  | executor => truthy (active_code s) = true
  | rectifier =>
      truthy (active_code s) = true
      /\ truthy (CodeRectifierNode.error_message_of s) = true
  end.
Proof.
  intros H. inversion H as [|k' n0 sp s' n' Hreach Hrun Hedge]; subst; [reflexivity|].
  destruct n0; cbn [run_node route] in Hrun, Hedge.
  - unfold _route_from_generator in Hedge.
    destruct (current_node s) eqn:Hn; cbn [edges] in Hedge; inversion Hedge; subst.
    exact I.
  - unfold _route_from_syntax_checker in Hedge.
    assert (Hne : current_node s <> END)
      by (intros E; rewrite E in Hedge; discriminate).
    destruct (checker_passes_code _ _ _ Hrun Hne) as [Hc Hm].
    destruct (current_node s) eqn:Hn; cbn [edges] in Hedge; inversion Hedge; subst.
    + split; [exact Hc|apply Hm; reflexivity].
    + exact Hc.
  - unfold _route_from_rectifier in Hedge.
    destruct (_ || _); [discriminate|].
    destruct (rectifier_step _ _ _ _ Hrun) as [_ [[Hn _]|[Hn _]]];
      rewrite Hn in Hedge; inversion Hedge; subst. exact I.
  - unfold _route_from_executor in Hedge.
    assert (Hne : current_node s <> END)
      by (intros E; rewrite E in Hedge; discriminate).
    destruct (executor_passes_error _ _ _ Hrun Hne) as [Hc Hm].
    destruct (current_node s) eqn:Hn; cbn [edges] in Hedge; inversion Hedge; subst.
    split; assumption.
Qed.

(** X11.  In a run the rectifier is never invoked without work: the state
    it is given holds a non-empty code and a non-empty error message, so
    the exit [if not error_message or not original_code] is not taken; and
    in a run started with no attempt counted, every invocation of the
    rectifier that returns counts one attempt. *)
Theorem rectifier_is_never_invoked_without_work :
  forall (env : nat -> collaborators) (s0 : CodeGenerationState) (k : nat)
         (s : CodeGenerationState),
    reaches env s0 k rectifier s ->
    truthy (active_code s) = true
    /\ truthy (CodeRectifierNode.error_message_of s) = true
    /\ (rectification_attempts s0 = 0%Z ->
        forall s',
          run_node rectifier (env k) s = Ok s' ->
          rectification_attempts s' = (rectification_attempts s + 1)%Z).
Proof.
  intros env s0 k s Hreach.
  destruct (reached_with_code _ _ _ _ _ Hreach) as [Hc Hm].
  split; [exact Hc|]. split; [exact Hm|].
  intros H0 s'. destruct (reached_budget env s0 k rectifier s H0 Hreach) as [_ Ha].
  cbn [run_node]. unfold CodeRectifierNode._execute.
  rewrite Hc, Hm. cbn [negb orb].
  replace (rectification_attempts s >=? 3)%Z with false
    by (symmetry; rewrite Z.geb_leb; apply Z.leb_gt; lia).
  destruct (CodeRectifier.rectify_code _ _ _ _) as [response|e].
  - destruct (CodeRectifier.rectified_code response) as [code|].
    + destruct (_ && _); intros H; inversion H; subst; reflexivity.
    + intros H; inversion H; subst; reflexivity.
  - destruct (is_Exception e); intros H; inversion H; subst; reflexivity.
Qed.

Lemma math_run_reaches_the_rectifier :
  reaches math_run (initial_state "pi" None) 3 rectifier undefined_math.
Proof.
  apply (reaches_next _ _ 2%nat executor checked_math); try reflexivity.
  apply (reaches_next _ _ 1%nat checker generated_math); try reflexivity.
  apply (reaches_next _ _ 0%nat generator (initial_state "pi" None)); try reflexivity.
  apply reaches_entry.
Defined.

Lemma rectifier_is_never_invoked_without_work_witness :
  truthy (active_code undefined_math) = true
  /\ truthy (CodeRectifierNode.error_message_of undefined_math) = true
  /\ (rectification_attempts (initial_state "pi" None) = 0%Z ->
      forall s',
        run_node rectifier (math_run 3%nat) undefined_math = Ok s' ->
        rectification_attempts s' = (rectification_attempts undefined_math + 1)%Z).
Proof.
  apply (rectifier_is_never_invoked_without_work math_run (initial_state "pi" None)
           3%nat undefined_math).
  exact math_run_reaches_the_rectifier.
Defined.

End RunInvariants.

(** ** The shape of a run *)
Section RunShape.
Import PyStr CodeGeneratorWorkflow Spec Vocabulary.

Lemma drive_next (limit : nat) (env : nat -> collaborators) (k : nat) (n n' : node)
    (s s' : CodeGenerationState) :
  run_node n (env k) s = Ok s' ->
  edges n (route n s') = Some (Next n') ->
  drive (S limit) env k n s
  = (mk_step n (Ok s') :: fst (drive limit env (S k) n' s'),
     snd (drive limit env (S k) n' s')).
Proof.
  intros Hrun Hedge. cbn [drive]. rewrite Hrun, Hedge.
  destruct (drive limit env (S k) n' s'); reflexivity.
Qed.

Lemma drive_finish (limit : nat) (env : nat -> collaborators) (k : nat) (n : node)
    (s s' : CodeGenerationState) :
  run_node n (env k) s = Ok s' ->
  edges n (route n s') = Some Finish ->
  drive (S limit) env k n s = ([mk_step n (Ok s')], ReachedEnd s').
Proof.
  intros Hrun Hedge. cbn [drive]. rewrite Hrun, Hedge. reflexivity.
Qed.

Lemma drive_first (limit : nat) (env : nat -> collaborators) (k : nat) (n : node)
    (s : CodeGenerationState) :
  exists r rest, fst (drive (S limit) env k n s) = mk_step n r :: rest.
Proof.
  cbn [drive]. destruct (run_node n (env k) s) as [s'|e].
  - destruct (edges n (route n s')) as [[n'|]|].
    + destruct (drive limit env (S k) n' s') as [steps e].
      exists (Ok s'), steps. reflexivity.
    + exists (Ok s'), []. reflexivity.
    + exists (Ok s'), []. reflexivity.
  - exists (Raise e), []. reflexivity.
Qed.

Lemma invocations_cons (target : node) (st : step) (steps : list step) :
  invocations target (st :: steps)
  = ((if node_eqb (step_node st) target then 1 else 0) + invocations target steps)%nat.
Proof.
  unfold invocations. cbn [filter].
  destruct (node_eqb (step_node st) target); reflexivity.
Qed.

Lemma hop_visits (target n n' : node) (a a' : Z) :
  (0 <= a < 3)%Z ->
  hop n a n' a' ->
  ((if node_eqb n target then 1 else 0) + visits target n' a' <= visits target n a)%nat
  /\ (0 <= a' < 3)%Z.
Proof.
  intros Ha Hhop.
  destruct Hhop; destruct target; cbn [node_eqb visits]; split; lia.
Qed.

Lemma single_visit (target n : node) (a : Z) :
  (0 <= a < 3)%Z ->
  ((if node_eqb n target then 1 else 0) <= visits target n a)%nat.
Proof.
  intros Ha. destruct n, target; cbn [node_eqb visits]; lia.
Qed.

Lemma drive_visits (target : node) (limit : nat) :
  forall env k n s,
    (0 <= rectification_attempts s < 3)%Z ->
    (invocations target (fst (drive limit env k n s))
     <= visits target n (rectification_attempts s))%nat.
Proof.
  induction limit as [|limit IH]; intros env k n s Ha.
  - cbn. lia.
  - pose proof (single_visit target n _ Ha) as Hone.
    destruct (run_node n (env k) s) as [s'|e] eqn:Hrun.
    + destruct (step_destination _ _ _ _ Hrun) as [_ [_ [_ [Hf|[n' [Hn Hhop]]]]]].
      * rewrite (drive_finish _ _ _ _ _ _ Hrun Hf). cbn [fst].
        rewrite invocations_cons. cbn [step_node invocations filter List.length].
        unfold invocations. cbn. lia.
      * rewrite (drive_next _ _ _ _ _ _ _ Hrun Hn). cbn [fst].
        rewrite invocations_cons. cbn [step_node].
        destruct (hop_visits target _ _ _ _ Ha Hhop) as [Hv Ha'].
        specialize (IH env (S k) n' s' Ha'). lia.
    + cbn [drive]. rewrite Hrun. cbn [fst].
      rewrite invocations_cons. cbn [step_node]. unfold invocations at 1. cbn. lia.
Qed.

(** X12.  How often each node runs: in every run the code generator is
    invoked exactly once (no edge is ever followed back to it), and the
    syntax checker, the executor and the rectifier at most three times
    each. *)
Theorem each_node_runs_a_bounded_number_of_times :
  forall (env : nat -> collaborators) (user_prompt : string)
         (requirements : option string),
    let steps :=
      fst (drive recursion_limit env 0 generator (initial_state user_prompt requirements)) in
    invocations generator steps = 1%nat
    /\ (invocations checker steps <= 3)%nat
    /\ (invocations executor steps <= 3)%nat
    /\ (invocations rectifier steps <= 3)%nat.
Proof.
  intros env user_prompt requirements steps.
  assert (Ha : (0 <= rectification_attempts (initial_state user_prompt requirements) < 3)%Z)
    by (cbn; lia).
  pose proof (drive_visits generator recursion_limit env 0%nat generator _ Ha) as Hg.
  pose proof (drive_visits checker recursion_limit env 0%nat generator _ Ha) as Hc.
  pose proof (drive_visits executor recursion_limit env 0%nat generator _ Ha) as He.
  pose proof (drive_visits rectifier recursion_limit env 0%nat generator _ Ha) as Hr.
  fold steps in Hg, Hc, He, Hr. cbn [visits rectification_attempts initial_state] in *.
  repeat split; try lia.
  assert (Hfirst : (1 <= invocations generator steps)%nat).
  { unfold steps, recursion_limit.
    destruct (drive_first 24 env 0%nat generator
                (initial_state user_prompt requirements)) as (r & rest & ->).
    rewrite invocations_cons. cbn. lia. }
  lia.
Qed.

Lemma node_keeps_request (n : node) (c : collaborators) (s s' : CodeGenerationState) :
  run_node n c s = Ok s' ->
  user_prompt s' = user_prompt s /\ retry_count s' = retry_count s.
Proof.
  destruct n; cbn [run_node].
  - unfold CodeGeneratorNode._execute.
    destruct (model_invoke c) as [content|e];
      [|destruct (is_Exception e)]; intros H; inversion H; subst; cbn; auto.
  - unfold SyntaxCheckerNode._execute.
    destruct (negb _); [intros H; inversion H; subst; cbn; auto|].
    destruct (SyntaxCheckerNode.check _ _) as [[code' errors]|e];
      [|destruct (is_Exception e)]; intros H; inversion H; subst; cbn; auto.
  - unfold CodeRectifierNode._execute.
    destruct (_ || _); [intros H; inversion H; subst; cbn; auto|].
    destruct (_ >=? _)%Z; [intros H; inversion H; subst; cbn; auto|].
    destruct (CodeRectifier.rectify_code _ _ _ _) as [response|e].
    + destruct (CodeRectifier.rectified_code response) as [code|];
        [destruct (_ && _)|]; intros H; inversion H; subst; cbn; auto.
    + destruct (is_Exception e); intros H; inversion H; subst; cbn; auto.
  - unfold CodeExecutorNode._execute.
    destruct (negb _); [intros H; inversion H; subst; cbn; auto|].
    destruct (CodeExecutorNode.dispatch _ _) as [r|e];
      [|destruct (is_Exception e)]; intros H; inversion H; subst; cbn; auto.
Qed.

(** a property of the state that every node keeps holds of every state the
    loop records and of the state it ends in *)
Lemma drive_invariant (P : CodeGenerationState -> Prop) :
  (forall n c s s', P s -> run_node n c s = Ok s' -> P s') ->
  forall limit env k n s,
    P s ->
    Forall (fun st => match step_result st with Ok x => P x | Raise _ => True end)
           (fst (drive limit env k n s))
    /\ match snd (drive limit env k n s) with
       | ReachedEnd st | NoRoute st => P st
       | _ => True
       end.
Proof.
  intros HP. induction limit as [|limit IH]; intros env k n s Hs.
  - cbn. auto.
  - cbn [drive]. destruct (run_node n (env k) s) as [s'|e] eqn:Hrun.
    + pose proof (HP _ _ _ _ Hs Hrun) as Hs'.
      destruct (edges n (route n s')) as [[n'|]|].
      * specialize (IH env (S k) n' s' Hs').
        destruct (drive limit env (S k) n' s') as [steps e]. cbn [fst snd] in *.
        destruct IH as [Hall Hend]. split; [constructor; [exact Hs'|exact Hall]|exact Hend].
      * cbn [fst snd]. split; [constructor; [exact Hs'|constructor]|exact Hs'].
      * cbn [fst snd]. split; [constructor; [exact Hs'|constructor]|exact Hs'].
    + cbn [fst snd]. split; [constructor; [exact I|constructor]|exact I].
Qed.

(** X13.  No node touches the request or the retry counter: every state a
    run records, and the state of the report [run] returns, holds the
    prompt the run was started with and [retry_count = 0].  So the guard
    [retry_count >= 3] of [_route_from_rectifier] never decides: in those
    states the routing function answers [END] exactly when the node's token
    is [END] or three attempts are counted. *)
Theorem run_keeps_the_prompt_and_never_retries :
  forall (env : nat -> collaborators) (user_prompt : string)
         (requirements : option string),
    Forall (fun st =>
              match step_result st with
              | Ok x =>
                  State.user_prompt x = user_prompt
                  /\ retry_count x = 0%Z
                  /\ _route_from_rectifier x
                     = (if (rectification_attempts x >=? 3)%Z then END else current_node x)
              | Raise _ => True
              end)
           (fst (drive recursion_limit env 0 generator
                   (initial_state user_prompt requirements)))
    /\ match run env user_prompt requirements with
       | Ok rep =>
           State.user_prompt (final_state rep) = user_prompt
           /\ retry_count (final_state rep) = 0%Z
       | Raise _ => True
       end.
Proof.
  intros env user_prompt requirements.
  destruct (drive_invariant
              (fun x => State.user_prompt x = user_prompt /\ retry_count x = 0%Z)
              (fun n c s s' Hs Hrun =>
                 let '(conj H1 H2) := node_keeps_request n c s s' Hrun in
                 conj (eq_trans H1 (proj1 Hs)) (eq_trans H2 (proj2 Hs)))
              recursion_limit env 0%nat generator
              (initial_state user_prompt requirements)
              (conj eq_refl eq_refl)) as [Hall Hend].
  split.
  - eapply Forall_impl; [|exact Hall].
    intros st. cbv beta. destruct (step_result st) as [x|]; [|auto].
    intros [H1 H2]. split; [exact H1|]. split; [exact H2|].
    unfold _route_from_rectifier. rewrite H2. reflexivity.
  - unfold run, invoke.
    destruct (snd (drive recursion_limit env 0 generator
                     (initial_state user_prompt requirements))) as [st|e|st|];
      cbn [outcome run_body].
    + cbn. exact Hend.
    + destruct (is_Exception e); cbn; auto.
    + cbn. auto.
    + cbn. auto.
Qed.

(** X14.  When the model call of the generator raises an [Exception], the
    run consists of that one invocation: the state records the error
    [Code generation failed: ...], [run] returns its report with status
    ["failed"], an analysis of a failed execution, and no [error_message]
    key. *)
Theorem model_failure_fails_the_run :
  forall (env : nat -> collaborators) (user_prompt : string)
         (requirements : option string) (e : exn),
    model_invoke (env 0%nat) = Raise e ->
    is_Exception e = true ->
    let s := generation_failed e (initial_state user_prompt requirements) in
    drive recursion_limit env 0 generator (initial_state user_prompt requirements)
    = ([mk_step generator (Ok s)], ReachedEnd s)
    /\ run env user_prompt requirements = Ok (_process_final_result s)
    /\ workflow_status (_process_final_result s) = "failed"
    /\ error_message (_process_final_result s) = None
    /\ final_result (_process_final_result s)
       = Report "" "" (execution_results s)
           (ExecutionFailed (Some ("Code generation failed: " ++ exn_str e)%string) 0 false)
           0.
Proof.
  intros env user_prompt requirements e Hm He s.
  assert (Hdrive : drive recursion_limit env 0 generator
                     (initial_state user_prompt requirements)
                   = ([mk_step generator (Ok s)], ReachedEnd s)).
  { unfold recursion_limit. apply drive_finish; [|reflexivity].
    cbn [run_node]. unfold CodeGeneratorNode._execute. rewrite Hm, He. reflexivity. }
  split; [exact Hdrive|].
  split; [unfold run, invoke; rewrite Hdrive; reflexivity|].
  repeat split.
Qed.

Lemma model_failure_fails_the_run_witness :
  let e := raised RuntimeError "rate limit" in
  let s := generation_failed e (initial_state "one" None) in
  drive recursion_limit model_down 0 generator (initial_state "one" None)
  = ([mk_step generator (Ok s)], ReachedEnd s)
  /\ run model_down "one" None = Ok (_process_final_result s)
  /\ workflow_status (_process_final_result s) = "failed"
  /\ error_message (_process_final_result s) = None
  /\ final_result (_process_final_result s)
     = Report "" "" (execution_results s)
         (ExecutionFailed (Some ("Code generation failed: " ++ exn_str e)%string) 0 false)
         0.
Proof.
  apply (model_failure_fails_the_run model_down "one" None
           (raised RuntimeError "rate limit")); reflexivity.
Defined.

(** X15.  When the model answers nothing but whitespace, the run consists
    of two invocations: the generator stores an empty code, the checker
    records [No code to check] and ends the run; nothing is executed, and
    [run] returns status ["failed"]. *)
Theorem empty_reply_fails_the_run :
  forall (env : nat -> collaborators) (user_prompt : string)
         (requirements : option string) (content : string),
    model_invoke (env 0%nat) = Ok content ->
    strip content = "" ->
    let s := nothing_to_check (initial_state user_prompt requirements) in
    map step_node
        (fst (drive recursion_limit env 0 generator
                (initial_state user_prompt requirements)))
    = [generator; checker]
    /\ run env user_prompt requirements = Ok (_process_final_result s)
    /\ workflow_status (_process_final_result s) = "failed"
    /\ syntax_errors s = ["No code to check"]
    /\ execution_results s = no_results.
Proof.
  intros env user_prompt requirements content Hm Hc s.
  set (s0 := initial_state user_prompt requirements).
  set (s1 := with_current_node syntax_checker (with_generated_code "" s0)).
  assert (H1 : run_node generator (env 0%nat) s0 = Ok s1).
  { cbn [run_node]. unfold CodeGeneratorNode._execute. rewrite Hm, Hc. reflexivity. }
  assert (H2 : run_node checker (env 1%nat) s1 = Ok s) by reflexivity.
  assert (Hdrive : drive recursion_limit env 0 generator s0
                   = ([mk_step generator (Ok s1); mk_step checker (Ok s)], ReachedEnd s)).
  { unfold recursion_limit.
    rewrite (drive_next _ _ _ _ checker _ _ H1 eq_refl).
    rewrite (drive_finish _ _ _ _ _ _ H2 eq_refl). reflexivity. }
  split; [rewrite Hdrive; reflexivity|].
  split; [unfold run, invoke; fold s0; rewrite Hdrive; reflexivity|].
  repeat split.
Qed.

Lemma empty_reply_fails_the_run_witness :
  let s := nothing_to_check (initial_state "one" None) in
  map step_node
      (fst (drive recursion_limit
              (steady nl (CodeRectifier.ContentText "sorry") (printing "1"))
              0 generator (initial_state "one" None)))
  = [generator; checker]
  /\ run (steady nl (CodeRectifier.ContentText "sorry") (printing "1")) "one" None
     = Ok (_process_final_result s)
  /\ workflow_status (_process_final_result s) = "failed"
  /\ syntax_errors s = ["No code to check"]
  /\ execution_results s = no_results.
Proof.
  apply (empty_reply_fails_the_run
           (steady nl (CodeRectifier.ContentText "sorry") (printing "1"))
           "one" None nl); reflexivity.
Defined.

End RunShape.

(** ** How a run ends *)
Section RunEndings.
Import PyStr CodeGeneratorWorkflow Spec Vocabulary.

Lemma node_keeps_code (n : node) (c : collaborators) (s s' : CodeGenerationState) :
  n <> generator ->
  run_node n c s = Ok s' ->
  truthy (active_code s) = true ->
  truthy (active_code s') = true.
Proof.
  intros Hn Hrun Hc. destruct n; [contradiction| | |]; cbn [run_node] in Hrun.
  - unfold SyntaxCheckerNode._execute in Hrun. rewrite Hc in Hrun. cbn [negb] in Hrun.
    destruct (SyntaxCheckerNode.check _ _) as [[code' errors]|e] eqn:Hk.
    + inversion Hrun; subst s'.
      pose proof (check_keeps_code _ _ _ _ Hk Hc) as Hc'.
      unfold active_code in *.
      cbn [rectified_code generated_code with_current_node with_syntax_errors
           with_generated_code].
      destruct (truthy (rectified_code s)); [exact Hc|exact Hc'].
    + destruct (is_Exception e); inversion Hrun; subst s'. exact Hc.
  - unfold CodeRectifierNode._execute in Hrun.
    destruct (_ || _); [inversion Hrun; subst; exact Hc|].
    destruct (_ >=? _)%Z; [inversion Hrun; subst; exact Hc|].
    destruct (CodeRectifier.rectify_code _ _ _ _) as [response|e].
    + destruct (CodeRectifier.rectified_code response) as [code|].
      * destruct (CodeRectifier.success response && truthy code) eqn:Hok;
          inversion Hrun; subst; [|exact Hc].
        apply andb_prop in Hok. destruct Hok as [_ Ht].
        unfold active_code.
        cbn [rectified_code generated_code with_current_node with_error_analysis
             with_rectification_attempts with_execution_errors with_generated_code
             with_rectified_code].
        rewrite Ht. exact Ht.
      * inversion Hrun; subst; exact Hc.
    + destruct (is_Exception e); inversion Hrun; subst; exact Hc.
  - unfold CodeExecutorNode._execute in Hrun. rewrite Hc in Hrun. cbn [negb] in Hrun.
    destruct (CodeExecutorNode.dispatch _ _) as [r|e];
      [|destruct (is_Exception e)]; inversion Hrun; subst; exact Hc.
Qed.

Lemma drive_keeps_code (limit : nat) :
  forall env k n s,
    n <> generator ->
    truthy (active_code s) = true ->
    match snd (drive limit env k n s) with
    | ReachedEnd st => truthy (active_code st) = true
    | _ => True
    end.
Proof.
  induction limit as [|limit IH]; intros env k n s Hn Hc; [exact I|].
  destruct (run_node n (env k) s) as [s'|e] eqn:Hrun.
  - pose proof (node_keeps_code _ _ _ _ Hn Hrun Hc) as Hc'.
    destruct (step_destination _ _ _ _ Hrun) as [_ [_ [_ [Hf|[n' [He Hhop]]]]]].
    + rewrite (drive_finish _ _ _ _ _ _ Hrun Hf). exact Hc'.
    + rewrite (drive_next _ _ _ _ _ _ _ Hrun He). cbn [snd].
      apply IH; [|exact Hc'].
      inversion Hhop; subst; discriminate.
  - cbn [drive]. rewrite Hrun. exact I.
Qed.

(** X16.  A successful execution ends the run, whichever attempt it is:
    when the executor is invoked in a run and its back end reports success,
    the loop stops after that invocation, and [run] returns the report of
    the state with those results: status ["completed"], the analysis of a
    successful execution, and the code that was executed as final code. *)
Theorem successful_execution_completes_the_run :
  forall (env : nat -> collaborators) (user_prompt : string)
         (requirements : option string) (k : nat) (s : CodeGenerationState)
         (results : ExecutionResults),
    reaches env (initial_state user_prompt requirements) k executor s ->
    CodeExecutorNode.dispatch (execution (env k)) (active_code s) = Ok results ->
    succeeded results = true ->
    List.length (fst (drive recursion_limit env 0 generator
                        (initial_state user_prompt requirements))) = S k
    /\ invoke env (initial_state user_prompt requirements) = Ok (executed results s)
    /\ run env user_prompt requirements = Ok (_process_final_result (executed results s))
    /\ workflow_status (_process_final_result (executed results s)) = "completed"
    /\ final_result (_process_final_result (executed results s))
       = Report (active_code s) (explanation_of (active_code s)) results
           ExecutionSucceeded (List.length (syntax_errors s)).
Proof.
  intros env user_prompt requirements k s results Hreach Hrun Hok.
  pose proof (reached_with_code _ _ _ _ _ Hreach) as Hcode. cbv beta iota in Hcode.
  destruct (reached_budget env (initial_state user_prompt requirements) k executor s
              eq_refl Hreach) as [Hk _].
  assert (Hk8 : (k <= 8)%nat) by (unfold budget in Hk; lia).
  destruct (drive_from_reached env _ k executor s Hreach (recursion_limit - k))
    as [prefix [Hlen Hdrive]].
  replace (k + (recursion_limit - k))%nat with recursion_limit in Hdrive
    by (unfold recursion_limit; lia).
  replace (recursion_limit - k)%nat with (S (recursion_limit - k - 1)) in Hdrive
    by (unfold recursion_limit; lia).
  assert (Hstep : run_node executor (env k) s = Ok (executed results s)).
  { cbn [run_node]. unfold CodeExecutorNode._execute.
    rewrite Hcode, Hrun. cbn [negb]. rewrite Hok. reflexivity. }
  rewrite (drive_finish _ _ _ _ _ _ Hstep eq_refl) in Hdrive. cbn [fst snd] in Hdrive.
  assert (Hinvoke : invoke env (initial_state user_prompt requirements)
                    = Ok (executed results s))
    by (unfold invoke; rewrite Hdrive; reflexivity).
  split; [rewrite Hdrive; cbn [fst]; rewrite length_app; cbn; lia|].
  split; [exact Hinvoke|].
  split; [unfold run; rewrite Hinvoke; reflexivity|].
  split.
  - rewrite workflow_status_completed_iff.
    unfold executed. cbn [execution_results with_current_node with_execution_results].
    rewrite Hok. reflexivity.
  - unfold _process_final_result, executed.
    cbn [final_result execution_results with_current_node with_execution_results].
    rewrite Hok. reflexivity.
Qed.

Lemma one_run_reaches_the_executor :
  reaches one_run (initial_state "one" None) 2 executor checked_one.
Proof.
  apply (reaches_next _ _ 1%nat checker generated_one); try reflexivity.
  apply (reaches_next _ _ 0%nat generator (initial_state "one" None)); try reflexivity.
  apply reaches_entry.
Defined.

Lemma successful_execution_completes_the_run_witness :
  List.length (fst (drive recursion_limit one_run 0 generator (initial_state "one" None)))
  = 3%nat
  /\ invoke one_run (initial_state "one" None) = Ok (executed one_results checked_one)
  /\ run one_run "one" None
     = Ok (_process_final_result (executed one_results checked_one))
  /\ workflow_status (_process_final_result (executed one_results checked_one))
     = "completed"
  /\ final_result (_process_final_result (executed one_results checked_one))
     = Report (active_code checked_one) (explanation_of (active_code checked_one))
         one_results ExecutionSucceeded (List.length (syntax_errors checked_one)).
Proof.
  apply (successful_execution_completes_the_run one_run "one" None 2%nat
           checked_one one_results);
    [exact one_run_reaches_the_executor|reflexivity|reflexivity].
Defined.

(** X17.  Once a run has passed the syntax checker it is reported as
    completed: if [run] returns a report after three or more node
    invocations, the state holds a non-empty code and the status is
    ["completed"], whatever the executor and the rectifier recorded.  The
    status ["failed"] is returned only by runs of one or two invocations
    and by the handler of [run]. *)
Theorem run_past_the_checker_is_reported_completed :
  forall (env : nat -> collaborators) (user_prompt : string)
         (requirements : option string) (rep : FinalReport),
    run env user_prompt requirements = Ok rep ->
    (3 <= List.length (fst (drive recursion_limit env 0 generator
                              (initial_state user_prompt requirements))))%nat ->
    truthy (active_code (final_state rep)) = true
    /\ workflow_status rep = "completed"
    /\ error_message rep = None.
Proof.
  intros env user_prompt requirements rep Hrep Hlen.
  set (s0 := initial_state user_prompt requirements) in *.
  assert (Hend : exists st,
             snd (drive recursion_limit env 0 generator s0) = ReachedEnd st
             /\ truthy (active_code st) = true).
  { unfold recursion_limit in *.
    destruct (run_node generator (env 0%nat) s0) as [s1|e] eqn:H1.
    2:{ cbn [drive] in Hlen. rewrite H1 in Hlen. cbn in Hlen. lia. }
    destruct (step_destination _ _ _ _ H1) as [_ [_ [_ [Hf|[n1 [He1 Hhop1]]]]]].
    { rewrite (drive_finish _ _ _ _ _ _ H1 Hf) in Hlen. cbn in Hlen. lia. }
    rewrite (drive_next _ _ _ _ _ _ _ H1 He1) in Hlen |- *. cbn [fst snd] in Hlen |- *.
    assert (n1 = checker) by (inversion Hhop1; reflexivity). subst n1.
    destruct (run_node checker (env 1%nat) s1) as [s2|e] eqn:H2.
    2:{ cbn [drive] in Hlen. rewrite H2 in Hlen. cbn in Hlen. lia. }
    destruct (step_destination _ _ _ _ H2) as [_ [_ [_ [Hf|[n2 [He2 Hhop2]]]]]].
    { rewrite (drive_finish _ _ _ _ _ _ H2 Hf) in Hlen. cbn in Hlen. lia. }
    rewrite (drive_next _ _ _ _ _ _ _ H2 He2). cbn [snd].
    assert (Hne : current_node s2 <> END).
    { intros E. cbn [route] in He2. unfold _route_from_syntax_checker in He2.
      rewrite E in He2. discriminate. }
    destruct (checker_passes_code _ _ _ H2 Hne) as [Hc2 _].
    assert (Hn2 : n2 <> generator) by (inversion Hhop2; subst; discriminate).
    pose proof (drive_keeps_code 23 env 2%nat n2 s2 Hn2 Hc2) as Hkeep.
    assert (Hb : (budget n2 (rectification_attempts s2) <= 23)%nat).
    { destruct (step_destination _ _ _ _ H1) as [_ [Ha1 _]].
      destruct (step_destination _ _ _ _ H2) as [_ [Ha2 _]].
      assert (rectification_attempts s1 = 0%Z)
        by (inversion Hhop1; subst; cbn in *; lia).
      assert (rectification_attempts s2 = 0%Z)
        by (inversion Hhop2; subst; cbn in *; lia).
      destruct n2; unfold budget; lia. }
    destruct (drive_within_budget 23 env 2%nat n2 s2 Hb) as [_ Hstop].
    destruct (snd (drive 23 env 2 n2 s2)) as [st|e|st|] eqn:Hsnd.
    - exists st. split; [reflexivity|exact Hkeep].
    - exfalso. unfold run, invoke, recursion_limit in Hrep. fold s0 in Hrep.
      rewrite (drive_next _ _ _ _ _ _ _ H1 He1) in Hrep. cbn [snd] in Hrep.
      rewrite (drive_next _ _ _ _ _ _ _ H2 He2) in Hrep. cbn [snd] in Hrep.
      rewrite Hsnd in Hrep. cbn [outcome run_body] in Hrep.
      cbn [stops_properly] in Hstop. rewrite Hstop in Hrep. discriminate.
    - contradiction.
    - contradiction. }
  destruct Hend as (st & Hsnd & Hc).
  unfold run, invoke in Hrep. fold s0 in Hrep. rewrite Hsnd in Hrep.
  cbn [outcome run_body] in Hrep. inversion Hrep; subst rep.
  split; [exact Hc|]. split; [|reflexivity].
  rewrite workflow_status_completed_iff, Hc, orb_true_r. reflexivity.
Qed.

Lemma run_past_the_checker_is_reported_completed_witness :
  truthy (active_code (final_state (_process_final_result failed_execution))) = true
  /\ workflow_status (_process_final_result failed_execution) = "completed"
  /\ error_message (_process_final_result failed_execution) = None.
Proof.
  apply (run_past_the_checker_is_reported_completed
           (steady "print(1/0)" (CodeRectifier.ContentText "sorry")
                   (failing_with division_by_zero))
           "divide" None (_process_final_result failed_execution)).
  - vm_compute. reflexivity.
  - vm_compute. lia.
Defined.

End RunEndings.

(** ** The execution back ends *)
Section BackEnds.
Import PyStr PyRuntime Spec Vocabulary.
Import sandbox_executor.

Lemma find_none_of (A : Type) (f : A -> bool) (l : list A) :
  (forall x, In x l -> f x = false) -> find f l = None.
Proof.
  induction l as [|x l IH]; intros H; [reflexivity|].
  cbn [find]. rewrite (H x (or_introl eq_refl)).
  apply IH. intros y Hy. apply H. right. exact Hy.
Qed.

Lemma find_permutation (A : Type) (f : A -> bool) (l l' : list A) (x : A) :
  Permutation l l' ->
  find f l = Some x ->
  exists y, find f l' = Some y /\ In y l /\ f y = true.
Proof.
  intros Hp Hx. apply find_some in Hx. destruct Hx as [Hin Hfx].
  destruct (find f l') as [y|] eqn:Hy.
  - exists y. split; [reflexivity|]. apply find_some in Hy. destruct Hy as [Hy Hfy].
    split; [|exact Hfy]. apply Permutation_sym in Hp. exact (Permutation_in y Hp Hy).
  - exfalso. pose proof (find_none f l' Hy x (Permutation_in x Hp Hin)) as Hn.
    rewrite Hfx in Hn. discriminate.
Qed.

(** X18.  [SafeCodeExecutor.execute_code] enumerates a set, whose order is
    not fixed.  The order decides nothing but the name in the message of a
    refusal: for two enumerations of the same names, the streams are left
    in the same state, and the results agree on [success], [output] and
    [execution_time]; either they are equal, or both are refusals, each
    naming a name of the set that the safety test refuses. *)
Theorem enumeration_order_decides_only_the_name_refused :
  forall (order order' : list string) (python : interpreter) (elapsed : Q)
         (code : string) (w : world),
    Permutation order order' ->
    fst (SafeCodeExecutor.execute_code order python elapsed code w)
    = fst (SafeCodeExecutor.execute_code order' python elapsed code w)
    /\ match snd (SafeCodeExecutor.execute_code order python elapsed code w),
             snd (SafeCodeExecutor.execute_code order' python elapsed code w) with
       | Ok d, Ok d' =>
           success d = success d'
           /\ output d = output d'
           /\ execution_time d = execution_time d'
           /\ (error d = error d'
               \/ exists r r',
                    In r order /\ In r' order
                    /\ SafeCodeExecutor.refused code r = true
                    /\ SafeCodeExecutor.refused code r' = true
                    /\ error d = Some (refusal r)
                    /\ error d' = Some (refusal r'))
       | Raise e, Raise e' => e = e'
       | _, _ => False
       end.
Proof.
  intros order order' python elapsed code w Hp.
  unfold SafeCodeExecutor.execute_code.
  destruct (find (SafeCodeExecutor.refused code) order) as [r|] eqn:Hr.
  - destruct (find_permutation _ _ _ _ _ Hp Hr) as (r' & Hr' & Hin' & Hf').
    rewrite Hr'. cbn [fst snd success output execution_time error].
    apply find_some in Hr. destruct Hr as [Hin Hf].
    split; [reflexivity|]. repeat split.
    right. exists r, r'. repeat split; assumption.
  - assert (Hr' : find (SafeCodeExecutor.refused code) order' = None).
    { apply find_none_of. intros x Hx.
      apply (find_none _ _ Hr). apply Permutation_sym in Hp.
      exact (Permutation_in x Hp Hx). }
    rewrite Hr'.
    match goal with
    | |- fst ?T = fst ?T /\ _ => destruct (snd T) as [d|e]
    end; split; try reflexivity; repeat split. left. reflexivity.
Qed.

Lemma enumeration_order_decides_only_the_name_refused_witness :
  fst (SafeCodeExecutor.execute_code ["eval"; "input"] (printing "1") 0
         "eval(input())" quiet_world)
  = fst (SafeCodeExecutor.execute_code ["input"; "eval"] (printing "1") 0
           "eval(input())" quiet_world)
  /\ match snd (SafeCodeExecutor.execute_code ["eval"; "input"] (printing "1") 0
                  "eval(input())" quiet_world),
           snd (SafeCodeExecutor.execute_code ["input"; "eval"] (printing "1") 0
                  "eval(input())" quiet_world) with
     | Ok d, Ok d' =>
         success d = success d'
         /\ output d = output d'
         /\ execution_time d = execution_time d'
         /\ (error d = error d'
             \/ exists r r',
                  In r ["eval"; "input"] /\ In r' ["eval"; "input"]
                  /\ SafeCodeExecutor.refused "eval(input())" r = true
                  /\ SafeCodeExecutor.refused "eval(input())" r' = true
                  /\ error d = Some (refusal r)
                  /\ error d' = Some (refusal r'))
     | Raise e, Raise e' => e = e'
     | _, _ => False
     end.
Proof.
  apply (enumeration_order_decides_only_the_name_refused
           ["eval"; "input"] ["input"; "eval"] (printing "1") 0
           "eval(input())" quiet_world).
  apply perm_swap.
Defined.

(** the two enumerations give two messages *)
Example the_name_refused_depends_on_the_order :
  snd (SafeCodeExecutor.execute_code ["eval"; "input"] (printing "1") 0
         "eval(input())" quiet_world)
  = Ok (mk_dict false "" (Some "Restricted function 'eval' not allowed") 0)
  /\ snd (SafeCodeExecutor.execute_code ["input"; "eval"] (printing "1") 0
            "eval(input())" quiet_world)
     = Ok (mk_dict false "" (Some "Restricted function 'input' not allowed") 0).
Proof. vm_compute. split; reflexivity. Qed.

(** X19.  What the executor node records for a snippet that raises an
    [Exception] depends on the back end.  In a web context the error is the
    traceback, which names the kind of the exception; with the fallback
    executor, in a command line context, it is [Execution error: ] followed
    by [str(e)].  In both, what the snippet had printed is dropped. *)
Theorem the_error_recorded_depends_on_the_back_end :
  forall (c : CodeExecutorNode.context) (code : string) (e : exn),
    (forall g, ending (CodeExecutorNode.python c g code) = Raise e) ->
    is_Exception e = true ->
    (CodeExecutorNode.is_fastapi_context c || CodeExecutorNode.running_loop c = true ->
     CodeExecutorNode.dispatch c code
     = Ok (mk_results (Some false) (Some "") (Some (exn_traceback e))
             (Some (CodeExecutorNode.execution_time c))))
    /\ (CodeExecutorNode.is_fastapi_context c || CodeExecutorNode.running_loop c = false ->
        forall order,
          CodeExecutorNode.sandbox c = Fallback order ->
          find (SafeCodeExecutor.refused code) order = None ->
          CodeExecutorNode.dispatch c code
          = Ok (mk_results (Some false) (Some "")
                  (Some ("Execution error: " ++ exn_str e)%string)
                  (Some (CodeExecutorNode.execution_time c)))).
Proof.
  intros c code e Hend He. split.
  - intros Hweb. unfold CodeExecutorNode.dispatch. rewrite Hweb.
    unfold fastapi_executor.execute_code, exec. cbn [new_stream].
    cbn [snd]. rewrite (Hend EmptyGlobals), He. reflexivity.
  - intros Hcli order Hs Hfind. unfold CodeExecutorNode.dispatch. rewrite Hcli.
    unfold execute_code_async. rewrite Hs.
    unfold SafeCodeExecutor.execute_code. rewrite Hfind.
    unfold exec. cbn [new_stream]. rewrite (Hend RestrictedGlobals), He.
    reflexivity.
Qed.

Lemma the_error_recorded_depends_on_the_back_end_witness :
  (CodeExecutorNode.is_fastapi_context (web_context (failing_with math_undefined))
   || CodeExecutorNode.running_loop (web_context (failing_with math_undefined)) = true ->
   CodeExecutorNode.dispatch (web_context (failing_with math_undefined)) "print(math.pi)"
   = Ok (mk_results (Some false) (Some "") (Some (exn_traceback math_undefined))
           (Some (CodeExecutorNode.execution_time
                    (web_context (failing_with math_undefined))))))
  /\ (CodeExecutorNode.is_fastapi_context (web_context (failing_with math_undefined))
      || CodeExecutorNode.running_loop (web_context (failing_with math_undefined)) = false ->
      forall order,
        CodeExecutorNode.sandbox (web_context (failing_with math_undefined))
        = Fallback order ->
        find (SafeCodeExecutor.refused "print(math.pi)") order = None ->
        CodeExecutorNode.dispatch (web_context (failing_with math_undefined))
          "print(math.pi)"
        = Ok (mk_results (Some false) (Some "")
                (Some ("Execution error: " ++ exn_str math_undefined)%string)
                (Some (CodeExecutorNode.execution_time
                         (web_context (failing_with math_undefined)))))).
Proof.
  apply (the_error_recorded_depends_on_the_back_end
           (web_context (failing_with math_undefined)) "print(math.pi)" math_undefined);
    [intros g; reflexivity|reflexivity].
Defined.

(** the same failure, as the rectifier meets it: the traceback selects the
    fix that adds the import, the message of the fallback executor selects
    none *)
Example the_fallback_message_selects_no_fix :
  CodeExecutorNode.dispatch (fallback_context (failing_with math_undefined))
    "print(math.pi)"
  = Ok (mk_results (Some false) (Some "")
          (Some "Execution error: name 'math' is not defined") (Some 0))
  /\ CodeRectifier._apply_pattern_fixes parses "print(math.pi)"
       "Execution error: name 'math' is not defined" "Unknown"
     = Ok ("print(math.pi)", [], 0)
  /\ CodeRectifier._apply_pattern_fixes parses "print(math.pi)"
       (exn_traceback math_undefined) "NameError"
     = Ok (("import math" ++ nl ++ "print(math.pi)")%string,
           ["Added missing import: import math"], 0.9).
Proof. vm_compute. repeat split; reflexivity. Qed.



End BackEnds.

(** ** The web endpoint *)
Section WebEndpoint.
Import PyStr CodeGeneratorWorkflow Spec Vocabulary.

Lemma marked_is_web (c : CodeExecutorNode.context) :
  CodeExecutorNode.is_fastapi_context (app.marked c) = true.
Proof.
  unfold CodeExecutorNode.is_fastapi_context, app.marked.
  cbn [CodeExecutorNode.has_fastapi_context CodeExecutorNode.thread_name].
  rewrite orb_true_r. reflexivity.
Qed.

Lemma marked_dispatch (c c' : CodeExecutorNode.context) (code : string) :
  CodeExecutorNode.python c = CodeExecutorNode.python c' ->
  CodeExecutorNode.streams c = CodeExecutorNode.streams c' ->
  CodeExecutorNode.execution_time c = CodeExecutorNode.execution_time c' ->
  CodeExecutorNode.dispatch (app.marked c) code
  = CodeExecutorNode.dispatch (app.marked c') code.
Proof.
  intros Hp Hs Ht. unfold CodeExecutorNode.dispatch.
  rewrite !marked_is_web. cbn [orb].
  unfold app.marked at 1 2 3 4 5 6.
  cbn [CodeExecutorNode.python CodeExecutorNode.streams CodeExecutorNode.execution_time].
  rewrite Hp, Hs, Ht. reflexivity.
Qed.

Lemma drive_ext (env env' : nat -> collaborators) :
  (forall k n s, run_node n (env k) s = run_node n (env' k) s) ->
  forall limit k n s, drive limit env k n s = drive limit env' k n s.
Proof.
  intros Hext. induction limit as [|limit IH]; intros k n s; [reflexivity|].
  cbn [drive]. rewrite Hext.
  destruct (run_node n (env' k) s) as [s'|e]; [|reflexivity].
  destruct (edges n (route n s')) as [[n'|]|]; [|reflexivity|reflexivity].
  rewrite IH. reflexivity.
Qed.

(** X21.  A request to [/generate] never reaches the sandbox.  The worker
    thread is marked, so every invocation of the executor takes the
    in-process back end: the answer of the endpoint does not depend on the
    module-level sandbox executor, on the event loop, on the name of the
    thread, nor on whether a loop is running.  And no exception of the run
    reaches the handler of the endpoint: [run] lets no [Exception]
    through. *)
Theorem web_requests_never_reach_the_sandbox :
  forall (env env' : nat -> collaborators) (prompt requirements : string),
    (forall k,
        model_invoke (env k) = model_invoke (env' k)
        /\ lint (env k) = lint (env' k)
        /\ ast_parse (env k) = ast_parse (env' k)
        /\ ai (env k) = ai (env' k)
        /\ CodeExecutorNode.python (execution (env k))
           = CodeExecutorNode.python (execution (env' k))
        /\ CodeExecutorNode.streams (execution (env k))
           = CodeExecutorNode.streams (execution (env' k))
        /\ CodeExecutorNode.execution_time (execution (env k))
           = CodeExecutorNode.execution_time (execution (env' k))) ->
    app.generate_code true env prompt requirements
    = app.generate_code true env' prompt requirements
    /\ forall error final,
         app.generate_code true env prompt requirements
         <> Ok (app.JSONResponse500 error final).
Proof.
  intros env env' prompt requirements Hsame.
  assert (Hnode : forall k n s,
             run_node n (app.in_worker env k) s = run_node n (app.in_worker env' k) s).
  { intros k n s. destruct (Hsame k) as (H1 & H2 & H3 & H4 & H5 & H6 & H7).
    destruct n; unfold app.in_worker;
      cbn [run_node model_invoke lint ast_parse ai execution].
    - rewrite H1. reflexivity.
    - rewrite H2. reflexivity.
    - rewrite H3, H4. reflexivity.
    - unfold CodeExecutorNode._execute.
      rewrite (marked_dispatch _ _ (active_code s) H5 H6 H7). reflexivity. }
  split.
  - unfold app.generate_code, app.run_workflow, run, invoke. cbn [negb].
    rewrite (drive_ext _ _ Hnode). reflexivity.
  - intros error final. unfold app.generate_code, app.run_workflow, run, run_body.
    cbn [negb].
    destruct (invoke _ _) as [st|e]; [discriminate|].
    destruct (is_Exception e) eqn:He; [discriminate|].
    rewrite He. discriminate.
Qed.

Lemma web_requests_never_reach_the_sandbox_witness :
  app.generate_code true
    (steady "print(1)" (CodeRectifier.ContentText "sorry") (printing "1"))
    "one" ""
  = app.generate_code true
      (fun _ => mk_collaborators (Ok "print(1)") no_tools parses
                  (CodeRectifier.ContentText "sorry")
                  (CodeExecutorNode.mk_context "MainThread" false true (printing "1")
                     quiet_world (sandbox_executor.Pyodide quiet_failure None)
                     (Raise (raised RuntimeError "no loop")) 1 0))
      "one" ""
  /\ forall error final,
       app.generate_code true
         (steady "print(1)" (CodeRectifier.ContentText "sorry") (printing "1"))
         "one" ""
       <> Ok (app.JSONResponse500 error final).
Proof.
  apply (web_requests_never_reach_the_sandbox
           (steady "print(1)" (CodeRectifier.ContentText "sorry") (printing "1"))
           (fun _ => mk_collaborators (Ok "print(1)") no_tools parses
                       (CodeRectifier.ContentText "sorry")
                       (CodeExecutorNode.mk_context "MainThread" false true (printing "1")
                          quiet_world (sandbox_executor.Pyodide quiet_failure None)
                          (Raise (raised RuntimeError "no loop")) 1 0))
           "one" "").
  intros k. repeat split.
Defined.

End WebEndpoint.

(** ** More on the fixes and the nodes *)
Section MissingImports.
Import PyStr CodeRectifier Spec Vocabulary.

Lemma lookup_in (k v : string) (d : list (string * string)) :
  lookup k d = Some v -> In v (map snd d).
Proof.
  induction d as [|[k' v'] d IH]; cbn [lookup map snd]; [discriminate|].
  destruct (k' =? k)%string.
  - intros H. inversion H. left. reflexivity.
  - intros H. right. apply IH, H.
Qed.

Lemma list_insert_single (i : nat) (x : string) (ls : list string) :
  single_line x = true ->
  forallb single_line ls = true ->
  forallb single_line (list_insert i x ls) = true.
Proof.
  intros Hx Hls. unfold list_insert.
  rewrite <- (firstn_skipn i ls) in Hls. rewrite forallb_app in Hls |- *.
  apply andb_prop in Hls. destruct Hls as [H1 H2].
  cbn [forallb]. rewrite H1, Hx, H2. reflexivity.
Qed.

Lemma list_insert_length (A : Type) (i : nat) (x : A) (ls : list A) :
  List.length (list_insert i x ls) = S (List.length ls).
Proof.
  unfold list_insert. rewrite length_app. cbn [List.length].
  rewrite <- (firstn_skipn i ls) at 3. rewrite length_app. lia.
Qed.

Lemma name_error_lines (code error_message name import_line : string) :
  search_undefined_name error_message = Some name ->
  lookup name common_imports = Some import_line ->
  split_lines (fix_code (_fix_name_error code error_message))
  = list_insert (find_insert_idx (split_lines code) 0 0) import_line (split_lines code).
Proof.
  intros Hn Hl. unfold _fix_name_error. rewrite Hn, Hl. cbn [fix_code].
  apply split_join_lines.
  - unfold list_insert. destruct (firstn _ _); discriminate.
  - apply list_insert_single; [|apply split_lines_single].
    apply lookup_in in Hl.
    assert (Hall : forallb single_line (map snd common_imports) = true) by reflexivity.
    exact (proj1 (forallb_forall _ _) Hall _ Hl).
Qed.

(** X22.  [_fix_name_error], for every name of its table: when the message
    names an undefined name that the table knows, the lines of the result
    are the lines of the code with the import line of the table inserted at
    the index the loop computes, with confidence 0.9.  The fix does not
    look whether the import is there already: the result has one line
    more than the code, and applying the fix to its own result adds the
    line once more. *)
Theorem fix_name_error_adds_a_line_every_time :
  forall (code error_message name import_line : string),
    search_undefined_name error_message = Some name ->
    lookup name common_imports = Some import_line ->
    let lines := split_lines code in
    let result := _fix_name_error code error_message in
    split_lines (fix_code result)
    = list_insert (find_insert_idx lines 0 0) import_line lines
    /\ fix_changes result = [("Added missing import: " ++ import_line)%string]
    /\ fix_confidence result = 0.9
    /\ List.length (split_lines (fix_code result)) = S (List.length lines)
    /\ List.length
         (split_lines (fix_code (_fix_name_error (fix_code result) error_message)))
       = S (S (List.length lines)).
Proof.
  intros code error_message name import_line Hn Hl lines result.
  pose proof (name_error_lines code error_message name import_line Hn Hl) as Hlines.
  fold lines result in Hlines.
  split; [exact Hlines|].
  split; [unfold result, _fix_name_error; rewrite Hn, Hl; reflexivity|].
  split; [unfold result, _fix_name_error; rewrite Hn, Hl; reflexivity|].
  split; [rewrite Hlines; apply list_insert_length|].
  rewrite (name_error_lines (fix_code result) error_message name import_line Hn Hl).
  rewrite list_insert_length, Hlines, list_insert_length. reflexivity.
Qed.

Lemma fix_name_error_adds_a_line_every_time_witness :
  let code := ("import numpy as np" ++ nl ++ "print(numpy.pi)")%string in
  let error_message := "NameError: name 'numpy' is not defined" in
  let lines := split_lines code in
  let result := _fix_name_error code error_message in
  split_lines (fix_code result)
  = list_insert (find_insert_idx lines 0 0) "import numpy as np" lines
  /\ fix_changes result = [("Added missing import: " ++ "import numpy as np")%string]
  /\ fix_confidence result = 0.9
  /\ List.length (split_lines (fix_code result)) = S (List.length lines)
  /\ List.length
       (split_lines (fix_code (_fix_name_error (fix_code result) error_message)))
     = S (S (List.length lines)).
Proof.
  apply (fix_name_error_adds_a_line_every_time
           ("import numpy as np" ++ nl ++ "print(numpy.pi)")%string
           "NameError: name 'numpy' is not defined" "numpy" "import numpy as np");
    reflexivity.
Defined.

End MissingImports.

Section CheckerNode.
Import PyStr Spec Vocabulary.

(** X23.  The syntax checker without its tools.  When flake8, black and
    autopep8 all time out or are not installed, the node reports no
    diagnostic, leaves the code as it is and routes it to the executor: the
    state it returns is the state it was given with the active code under
    [generated_code], no syntax errors, and the token [code_executor]. *)
Theorem checker_without_tools_passes_the_code :
  forall (t : SyntaxCheckerNode.tools) (s : CodeGenerationState),
    tools_unavailable t = true ->
    truthy (active_code s) = true ->
    SyntaxCheckerNode._execute t s
    = Ok (with_current_node code_executor
            (with_syntax_errors [] (with_generated_code (active_code s) s)))
    /\ active_code
         (with_current_node code_executor
            (with_syntax_errors [] (with_generated_code (active_code s) s)))
       = active_code s.
Proof.
  intros t s Ht Hc. split.
  - unfold SyntaxCheckerNode._execute, SyntaxCheckerNode.check.
    rewrite Hc. cbn [negb]. unfold tools_unavailable in Ht.
    destruct (SyntaxCheckerNode.tempfile t); [|discriminate].
    destruct (SyntaxCheckerNode.flake8 t) as [|e1]; [discriminate|].
    destruct (SyntaxCheckerNode.black t) as [|e2]; [discriminate|].
    destruct (SyntaxCheckerNode.autopep8 t) as [|e3]; [discriminate|].
    apply andb_prop in Ht. destruct Ht as [Ht H3].
    apply andb_prop in Ht. destruct Ht as [H1 H2].
    cbn [bind]. rewrite H1. cbn [bind SyntaxCheckerNode.critical existsb negb].
    rewrite H2, H3. reflexivity.
  - unfold active_code.
    cbn [rectified_code generated_code with_current_node with_syntax_errors
         with_generated_code].
    destruct (truthy (rectified_code s)); reflexivity.
Qed.

Lemma checker_without_tools_passes_the_code_witness :
  SyntaxCheckerNode._execute no_tools generated_one
  = Ok (with_current_node code_executor
          (with_syntax_errors []
             (with_generated_code (active_code generated_one) generated_one)))
  /\ active_code
       (with_current_node code_executor
          (with_syntax_errors []
             (with_generated_code (active_code generated_one) generated_one)))
     = active_code generated_one.
Proof.
  apply (checker_without_tools_passes_the_code no_tools generated_one); reflexivity.
Defined.

End CheckerNode.

Section StandardError.
Import PyStr PyRuntime Spec Vocabulary.
Import sandbox_executor.

Lemma string_app_nil (t : string) : (t ++ "")%string = t.
Proof. induction t as [|c t IH]; cbn; [|rewrite IH]; reflexivity. Qed.

Lemma string_app_assoc (a b c : string) : ((a ++ b) ++ c)%string = (a ++ b ++ c)%string.
Proof. induction a as [|x a IH]; cbn; [|rewrite IH]; reflexivity. Qed.

(** writing without rebinding, seen from both objects *)
Lemma writes_reach_both (l : list action) :
  forall w,
    forallb is_write l = true ->
    sys_stdout w <> sys_stderr w ->
    contents (heap (fold_left do_action l w) (sys_stdout w))
    = (contents (heap w (sys_stdout w)) ++ written Stdout l)%string
    /\ contents (heap (fold_left do_action l w) (sys_stderr w))
       = (contents (heap w (sys_stderr w)) ++ written Stderr l)%string.
Proof.
  induction l as [|a l IH]; intros w Hw Hne.
  - cbn. rewrite !string_app_nil. auto.
  - cbn [forallb] in Hw. apply andb_prop in Hw. destruct Hw as [Ha Hl].
    destruct a as [which text|]; [|discriminate].
    cbn [fold_left do_action].
    destruct (IH (write w (bound w which) text) Hl) as [H1 H2]; [exact Hne|].
    cbn [write sys_stdout sys_stderr heap] in H1, H2.
    rewrite H1, H2. unfold update.
    assert (Hne' : sys_stderr w <> sys_stdout w) by (intros E; apply Hne; symmetry; exact E).
    destruct which; cbn [bound written].
    + rewrite Nat.eqb_refl.
      destruct (Nat.eqb_spec (sys_stderr w) (sys_stdout w)); [contradiction|].
      cbn [contents]. rewrite string_app_assoc. auto.
    + rewrite Nat.eqb_refl.
      destruct (Nat.eqb_spec (sys_stdout w) (sys_stderr w)); [contradiction|].
      cbn [contents]. rewrite string_app_assoc. auto.
Qed.

Lemma length_zero_iff (t : string) : (String.length t =? 0)%nat = negb (truthy t).
Proof. destruct t; reflexivity. Qed.

Lemma safe_executor_reports_writes (order : list string) (python : interpreter)
    (elapsed : Q) (code : string) (w : world) :
  find (SafeCodeExecutor.refused code) order = None ->
  forallb is_write (actions (python RestrictedGlobals code)) = true ->
  ending (python RestrictedGlobals code) = Ok tt ->
  snd (SafeCodeExecutor.execute_code order python elapsed code w)
  = Ok (mk_dict (negb (truthy (written Stderr (actions (python RestrictedGlobals code)))))
          (if truthy (written Stdout (actions (python RestrictedGlobals code)))
           then written Stdout (actions (python RestrictedGlobals code))
           else "Code executed successfully (no output)")
          (if truthy (written Stderr (actions (python RestrictedGlobals code)))
           then Some (written Stderr (actions (python RestrictedGlobals code)))
           else None)
          elapsed).
Proof.
  intros Hfind Hw Hend.
  unfold SafeCodeExecutor.execute_code. rewrite Hfind.
  unfold exec. cbn [new_stream]. rewrite Hend.
  set (w2 := logged _ code).
  destruct (writes_reach_both _ w2 Hw) as [H1 H2].
  { unfold w2. simpl. lia. }
  unfold w2 in H1, H2 |- *. simpl in H1, H2 |- *.
  rewrite H1, H2. unfold update. rewrite !Nat.eqb_refl.
  destruct (Nat.eqb_spec (next_obj w) (S (next_obj w))); [lia|].
  simpl. rewrite length_zero_iff. reflexivity.
Qed.

(** X24.  With the fallback executor, text on the standard error counts as
    a failure.  For a snippet that passes the safety test, only writes to
    its two streams and returns, [SafeCodeExecutor.execute_code] reports
    what was written to the standard output (or a fixed text if nothing
    was), and [success] exactly when nothing was written to the standard
    error; the executor node, in a command line context, then sends code
    that ran to its end to the rectifier, with the text of the standard
    error as the error to fix. *)
Theorem stderr_text_counts_as_failure :
  forall (c : CodeExecutorNode.context) (s : CodeGenerationState) (order : list string),
    CodeExecutorNode.is_fastapi_context c || CodeExecutorNode.running_loop c = false ->
    CodeExecutorNode.sandbox c = Fallback order ->
    truthy (active_code s) = true ->
    find (SafeCodeExecutor.refused (active_code s)) order = None ->
    forallb is_write
      (actions (CodeExecutorNode.python c RestrictedGlobals (active_code s))) = true ->
    ending (CodeExecutorNode.python c RestrictedGlobals (active_code s)) = Ok tt ->
    let out :=
      written Stdout (actions (CodeExecutorNode.python c RestrictedGlobals (active_code s))) in
    let err :=
      written Stderr (actions (CodeExecutorNode.python c RestrictedGlobals (active_code s))) in
    let results :=
      mk_results (Some (negb (truthy err)))
        (Some (if truthy out then out else "Code executed successfully (no output)"))
        (if truthy err then Some err else None)
        (Some (CodeExecutorNode.execution_time c)) in
    CodeExecutorNode.dispatch c (active_code s) = Ok results
    /\ (truthy err = true ->
        CodeExecutorNode._execute c s = Ok (recorded results s)
        /\ CodeRectifierNode.error_message_of (recorded results s) = err)
    /\ (truthy err = false -> CodeExecutorNode._execute c s = Ok (executed results s)).
Proof.
  intros c s order Hcli Hs Hcode Hfind Hw Hend out err results.
  assert (Hd : CodeExecutorNode.dispatch c (active_code s) = Ok results).
  { unfold CodeExecutorNode.dispatch. rewrite Hcli.
    unfold execute_code_async. rewrite Hs.
    rewrite (surjective_pairing (SafeCodeExecutor.execute_code _ _ _ _ _)).
    cbn [snd].
    rewrite (safe_executor_reports_writes order _ _ _ _ Hfind Hw Hend).
    reflexivity. }
  split; [exact Hd|]. split.
  - intros Herr.
    assert (Hres : negb (succeeded results) && has_error results = true)
      by (unfold results, succeeded, has_error; cbn [er_success er_error];
          rewrite Herr; cbn; rewrite ?Herr; reflexivity).
    split.
    + unfold CodeExecutorNode._execute. rewrite Hcode, Hd. cbn [negb].
      rewrite Hres. reflexivity.
    + unfold CodeRectifierNode.error_message_of, recorded, results, has_error.
      cbn [execution_results with_current_node with_execution_results er_error].
      rewrite Herr. cbn. rewrite ?Herr. reflexivity.
  - intros Herr.
    assert (Hres : negb (succeeded results) && has_error results = false)
      by (unfold results, succeeded, has_error; cbn [er_success er_error];
          rewrite Herr; reflexivity).
    unfold CodeExecutorNode._execute. rewrite Hcode, Hd. cbn [negb].
    rewrite Hres. reflexivity.
Qed.

Lemma stderr_text_counts_as_failure_witness :
  let c := fallback_context (warning_with "1" "DeprecationWarning: old") in
  let out := written Stdout (actions (CodeExecutorNode.python c RestrictedGlobals
                                        (active_code checked_one))) in
  let err := written Stderr (actions (CodeExecutorNode.python c RestrictedGlobals
                                        (active_code checked_one))) in
  let results :=
    mk_results (Some (negb (truthy err)))
      (Some (if truthy out then out else "Code executed successfully (no output)"))
      (if truthy err then Some err else None)
      (Some (CodeExecutorNode.execution_time c)) in
  CodeExecutorNode.dispatch c (active_code checked_one) = Ok results
  /\ (truthy err = true ->
      CodeExecutorNode._execute c checked_one = Ok (recorded results checked_one)
      /\ CodeRectifierNode.error_message_of (recorded results checked_one) = err)
  /\ (truthy err = false ->
      CodeExecutorNode._execute c checked_one = Ok (executed results checked_one)).
Proof.
  apply (stderr_text_counts_as_failure
           (fallback_context (warning_with "1" "DeprecationWarning: old"))
           checked_one SafeCodeExecutor.restricted_functions);
    reflexivity.
Defined.

End StandardError.

(** ** More on the pattern step *)
Section PatternStepLines.
Import PyStr CodeRectifier Spec Vocabulary.

Lemma fix_line_count (source message : string) (r : FixResult) :
  In r [_fix_future_imports source message;
        _fix_invalid_syntax source message;
        _fix_indentation_error source message;
        _fix_name_error source message;
        no_fix source] ->
  List.length (split_lines (fix_code r)) = List.length (split_lines source)
  \/ (List.length (split_lines (fix_code r)) = S (List.length (split_lines source))
      /\ fix_confidence r = 0.9).
Proof.
  intros Hin. cbn [In] in Hin.
  destruct Hin as [<-|[<-|[<-|[<-|[<-|[]]]]]].
  - left. rewrite future_imports_lines. symmetry.
    apply Permutation_length, future_first_permutation.
  - left. rewrite invalid_syntax_lines. apply length_map.
  - left. rewrite indentation_lines. apply length_map.
  - unfold _fix_name_error.
    destruct (search_undefined_name message) as [name|] eqn:Hn; [|left; reflexivity].
    destruct (lookup name common_imports) as [import_line|] eqn:Hl; [|left; reflexivity].
    right. split; [|reflexivity].
    pose proof (name_error_lines source message name import_line Hn Hl) as H.
    unfold _fix_name_error in H. rewrite Hn, Hl in H. rewrite H.
    apply list_insert_length.
  - left. reflexivity.
Qed.

(** X25.  The pattern step never removes a line: the code it returns has
    as many lines as the code it was given, or one more; and one more only
    with confidence 0.9, the confidence of the fix that adds an import. *)
Theorem pattern_fixes_never_remove_a_line :
  forall (p : parser) (code error_message ty det : string) (ch : list string) (conf : Q),
    _apply_pattern_fixes p code error_message ty = Ok (det, ch, conf) ->
    List.length (split_lines det) = List.length (split_lines code)
    \/ (List.length (split_lines det) = S (List.length (split_lines code))
        /\ conf = 0.9).
Proof.
  intros p code error_message ty det ch conf.
  unfold _apply_pattern_fixes.
  apply (first_fix_outcome
           (fun res =>
              List.length (split_lines (fst (fst res))) = List.length (split_lines code)
              \/ (List.length (split_lines (fst (fst res)))
                  = S (List.length (split_lines code))
                  /\ snd res = 0.9)));
    [|left; reflexivity].
  unfold error_patterns.
  repeat match goal with
         | |- Forall _ (_ :: _) => apply Forall_cons
         | |- Forall _ [] => apply Forall_nil
         end; cbn [snd fst]; unfold pure_fix; intros r Hr.
  2:{ unfold _analyze_syntax_error in Hr.
      destruct (p code) as [u|e]; [inversion Hr; left; reflexivity|].
      destruct (is_SyntaxError e); [|discriminate].
      destruct (contains _ _).
      - inversion Hr; subst r. apply (fix_line_count code (exn_str e)).
        right; left; reflexivity.
      - destruct (contains _ _); inversion Hr; subst r.
        + apply (fix_line_count code (exn_str e)). right; right; left; reflexivity.
        + left; reflexivity. }
  all: inversion Hr; subst r; apply (fix_line_count code error_message); cbn [In];
    first [ left; reflexivity
          | right; left; reflexivity
          | right; right; left; reflexivity
          | right; right; right; left; reflexivity
          | right; right; right; right; left; reflexivity ].
Qed.

Lemma pattern_fixes_never_remove_a_line_witness :
  List.length (split_lines ("import math" ++ nl ++ "print(math.pi)"))
  = List.length (split_lines "print(math.pi)")
  \/ (List.length (split_lines ("import math" ++ nl ++ "print(math.pi)"))
      = S (List.length (split_lines "print(math.pi)"))
      /\ 0.9 = 0.9).
Proof.
  apply (pattern_fixes_never_remove_a_line parses "print(math.pi)" name_error_message
           "NameError" ("import math" ++ nl ++ "print(math.pi)")%string
           ["Added missing import: import math"] 0.9).
  reflexivity.
Defined.

(** X26.  The selection of a catalog entry tests the entry name against
    the message, in lower case, and against the error type that
    [_analyze_error] computed.  The second test selects an entry that the
    first does not in one case only: the message of a
    [ModuleNotFoundError], classified as [ImportError], selects the entry
    [ImportError]. *)
Theorem type_test_matters_only_for_module_not_found :
  forall (pattern error_message code : string),
    In pattern pattern_names ->
    triggers pattern error_message (error_type (_analyze_error error_message code)) = true ->
    contains (lower error_message) (lower pattern) = true
    \/ (pattern = "ImportError"
        /\ contains error_message "ModuleNotFoundError" = true
        /\ contains error_message "SyntaxError" = false
        /\ contains error_message "NameError" = false).
Proof.
  intros pattern error_message code Hin Ht.
  unfold triggers in Ht. apply orb_prop in Ht. destruct Ht as [Ht|Ht]; [left; exact Ht|].
  apply String.eqb_eq in Ht. unfold _analyze_error in Ht. cbn [error_type] in Ht.
  destruct (contains error_message "SyntaxError") eqn:H1.
  { left. subst pattern. apply (contains_lower _ _ H1). }
  destruct (contains error_message "NameError") eqn:H2.
  { left. subst pattern. apply (contains_lower _ _ H2). }
  destruct (contains error_message "ImportError") eqn:H3.
  { left. cbn [orb] in Ht. subst pattern. apply (contains_lower _ _ H3). }
  destruct (contains error_message "ModuleNotFoundError") eqn:H4.
  { right. cbn [orb] in Ht. auto. }
  cbn [orb] in Ht.
  destruct (contains error_message "IndentationError") eqn:H5.
  { left. subst pattern. apply (contains_lower _ _ H5). }
  destruct (contains error_message "AttributeError") eqn:H6.
  { left. subst pattern. apply (contains_lower _ _ H6). }
  destruct (contains error_message "TypeError") eqn:H7.
  { left. subst pattern. apply (contains_lower _ _ H7). }
  destruct (contains error_message "ValueError") eqn:H8.
  { left. subst pattern. apply (contains_lower _ _ H8). }
  exfalso. subst pattern. unfold pattern_names in Hin.
  cbn [map fst error_patterns In] in Hin.
  repeat (destruct Hin as [Hin|Hin]; [discriminate|]). exact Hin.
Qed.

Lemma type_test_matters_only_for_module_not_found_witness :
  contains (lower "ModuleNotFoundError: No module named 'requests'") (lower "ImportError")
  = true
  \/ ("ImportError" = "ImportError"
      /\ contains "ModuleNotFoundError: No module named 'requests'" "ModuleNotFoundError"
         = true
      /\ contains "ModuleNotFoundError: No module named 'requests'" "SyntaxError" = false
      /\ contains "ModuleNotFoundError: No module named 'requests'" "NameError" = false).
Proof.
  apply (type_test_matters_only_for_module_not_found "ImportError"
           "ModuleNotFoundError: No module named 'requests'" "import requests").
  - unfold pattern_names. cbn. auto.
  - reflexivity.
Defined.

End PatternStepLines.

(** ** The last attempt *)
Section LastAttempt.
Import PyStr CodeGeneratorWorkflow Spec Vocabulary.

(** a rectifier that routes back to the checker stored a code that differs
    from the one it was given, and counted an attempt *)
Lemma rectifier_routes_back_with_new_code (p : CodeRectifier.parser)
    (reply : CodeRectifier.ai_reply) (s s' : CodeGenerationState) :
  CodeRectifierNode._execute p reply s = Ok s' ->
  current_node s' = syntax_checker ->
  active_code s' <> active_code s
  /\ rectification_attempts s' = (rectification_attempts s + 1)%Z.
Proof.
  unfold CodeRectifierNode._execute.
  destruct (_ || _).
  { intros H; inversion H; subst. discriminate. }
  destruct (rectification_attempts s >=? 3)%Z.
  { intros H; inversion H; subst. discriminate. }
  destruct (CodeRectifier.rectify_code p reply (active_code s)
              (CodeRectifierNode.error_message_of s)) as [response|e] eqn:Hr.
  - apply rectify_code_marks_change in Hr.
    destruct (CodeRectifier.rectified_code response) as [code|].
    + destruct (CodeRectifier.success response && truthy code) eqn:Hok;
        intros H; inversion H; subst; [|discriminate].
      intros _. apply andb_prop in Hok. destruct Hok as [Hs Ht].
      rewrite Hs in Hr. cbn [changed] in Hr. symmetry in Hr.
      apply andb_prop in Hr. destruct Hr as [_ Hne].
      apply negb_true_iff, String.eqb_neq in Hne.
      set (orig := active_code s) in *.
      unfold active_code.
      cbn [rectified_code generated_code rectification_attempts with_current_node
           with_error_analysis with_rectification_attempts with_execution_errors
           with_generated_code with_rectified_code].
      rewrite Ht. split; [exact Hne|reflexivity].
    + intros H; inversion H; subst. discriminate.
  - destruct (is_Exception e); intros H; inversion H; subst. discriminate.
Qed.

(** X27.  The third rectification is never tested.  When the rectifier is
    invoked in a run with two attempts counted and returns, three attempts
    are counted and the routing function ends the run after that
    invocation, whatever the node's token.  If the rectification
    succeeded, the code [run] reports as final is the newly rectified
    code, which was neither checked nor executed: the execution results in
    the report are those of the code before it; and the status is
    ["completed"]. *)
Theorem third_rectification_is_never_tested :
  forall (env : nat -> collaborators) (user_prompt : string)
         (requirements : option string) (k : nat) (s s' : CodeGenerationState),
    reaches env (initial_state user_prompt requirements) k rectifier s ->
    rectification_attempts s = 2%Z ->
    run_node rectifier (env k) s = Ok s' ->
    rectification_attempts s' = 3%Z
    /\ List.length (fst (drive recursion_limit env 0 generator
                           (initial_state user_prompt requirements))) = S k
    /\ invoke env (initial_state user_prompt requirements) = Ok s'
    /\ run env user_prompt requirements = Ok (_process_final_result s')
    /\ (current_node s' = syntax_checker ->
        active_code s' <> active_code s
        /\ execution_results s' = execution_results s
        /\ workflow_status (_process_final_result s') = "completed").
Proof.
  intros env user_prompt requirements k s s' Hreach H2 Hrun.
  destruct (reached_with_code _ _ _ _ _ Hreach) as [Hc Hm].
  assert (H3 : rectification_attempts s' = 3%Z).
  { cbn [run_node] in Hrun. unfold CodeRectifierNode._execute in Hrun.
    rewrite Hc, Hm, H2 in Hrun. cbn [negb orb Z.geb Z.compare Pos.compare
                                       Pos.compare_cont] in Hrun.
    destruct (CodeRectifier.rectify_code _ _ _ _) as [response|e].
    - destruct (CodeRectifier.rectified_code response) as [code|].
      + destruct (_ && _); inversion Hrun; subst; cbn; rewrite ?H2; reflexivity.
      + inversion Hrun; subst; cbn; rewrite ?H2; reflexivity.
    - destruct (is_Exception e); inversion Hrun; subst; cbn; rewrite ?H2; reflexivity. }
  assert (Hedge : edges rectifier (route rectifier s') = Some Finish).
  { cbn [route]. unfold _route_from_rectifier. rewrite H3.
    replace (3 >=? 3)%Z with true by reflexivity. rewrite orb_true_r. reflexivity. }
  destruct (reached_budget env (initial_state user_prompt requirements) k rectifier s
              eq_refl Hreach) as [Hk _].
  assert (Hk9 : (k <= 9)%nat) by (unfold budget in Hk; lia).
  destruct (drive_from_reached env _ k rectifier s Hreach (recursion_limit - k))
    as [prefix [Hlen Hdrive]].
  replace (k + (recursion_limit - k))%nat with recursion_limit in Hdrive
    by (unfold recursion_limit; lia).
  replace (recursion_limit - k)%nat with (S (recursion_limit - k - 1)) in Hdrive
    by (unfold recursion_limit; lia).
  rewrite (drive_finish _ _ _ _ _ _ Hrun Hedge) in Hdrive. cbn [fst snd] in Hdrive.
  assert (Hinvoke : invoke env (initial_state user_prompt requirements) = Ok s')
    by (unfold invoke; rewrite Hdrive; reflexivity).
  split; [exact H3|].
  split; [rewrite Hdrive; cbn [fst]; rewrite length_app; cbn; lia|].
  split; [exact Hinvoke|].
  split; [unfold run; rewrite Hinvoke; reflexivity|].
  intros Hnode. cbn [run_node] in Hrun.
  destruct (rectifier_routes_back_with_code _ _ _ _ Hrun Hnode) as (Ht & _ & Hres).
  destruct (rectifier_routes_back_with_new_code _ _ _ _ Hrun Hnode) as [Hne _].
  split; [exact Hne|]. split; [exact Hres|].
  rewrite workflow_status_completed_iff, Ht, orb_true_r. reflexivity.
Qed.

Lemma math_run_reaches_the_last_attempt :
  reaches math_run (initial_state "pi" None) 9 rectifier (math_state 9).
Proof.
  apply (reaches_next _ _ 8%nat executor (math_state 8));
    [|vm_compute; reflexivity|vm_compute; reflexivity].
  apply (reaches_next _ _ 7%nat checker (math_state 7));
    [|vm_compute; reflexivity|vm_compute; reflexivity].
  apply (reaches_next _ _ 6%nat rectifier (math_state 6));
    [|vm_compute; reflexivity|vm_compute; reflexivity].
  apply (reaches_next _ _ 5%nat executor (math_state 5));
    [|vm_compute; reflexivity|vm_compute; reflexivity].
  apply (reaches_next _ _ 4%nat checker (math_state 4));
    [|vm_compute; reflexivity|vm_compute; reflexivity].
  apply (reaches_next _ _ 3%nat rectifier (math_state 3));
    [|vm_compute; reflexivity|vm_compute; reflexivity].
  apply (reaches_next _ _ 2%nat executor (math_state 2));
    [|vm_compute; reflexivity|vm_compute; reflexivity].
  apply (reaches_next _ _ 1%nat checker (math_state 1));
    [|vm_compute; reflexivity|vm_compute; reflexivity].
  apply (reaches_next _ _ 0%nat generator (initial_state "pi" None));
    [|vm_compute; reflexivity|vm_compute; reflexivity].
  apply reaches_entry.
Defined.

Lemma third_rectification_is_never_tested_witness :
  rectification_attempts (math_state 10) = 3%Z
  /\ List.length (fst (drive recursion_limit math_run 0 generator
                         (initial_state "pi" None))) = 10%nat
  /\ invoke math_run (initial_state "pi" None) = Ok (math_state 10)
  /\ run math_run "pi" None = Ok (_process_final_result (math_state 10))
  /\ (current_node (math_state 10) = syntax_checker ->
      active_code (math_state 10) <> active_code (math_state 9)
      /\ execution_results (math_state 10) = execution_results (math_state 9)
      /\ workflow_status (_process_final_result (math_state 10)) = "completed").
Proof.
  apply (third_rectification_is_never_tested math_run "pi" None 9%nat
           (math_state 9) (math_state 10)).
  - exact math_run_reaches_the_last_attempt.
  - vm_compute. reflexivity.
  - vm_compute. reflexivity.
Defined.

(** the run of the witness does end on a successful third rectification *)
Example the_last_attempt_of_the_math_run_succeeds :
  current_node (math_state 10) = syntax_checker
  /\ active_code (math_state 10)
     = ("import math" ++ nl ++ "import math" ++ nl ++ "import math" ++ nl
        ++ "print(math.pi)")%string
  /\ succeeded (execution_results (math_state 10)) = false.
Proof. vm_compute. repeat split; reflexivity. Qed.

End LastAttempt.
